(** * InnovaasFactorySim: the CNC cycle engine, the UMH adapter, the UMH
      client and the two simulation managers, embedded in Rocq.

    Conventions of the embedding.

    - A JavaScript number is a [jsnum]: an exact rational, one of the two
      infinities, or NaN.  Binary64 rounding and the sign of zero are not
      modelled; everything else ([NaN] propagation, division by zero,
      comparisons with [NaN]) follows ECMAScript.
    - A [Date] is its time value in milliseconds, an integer.
    - [Math.random()] and [Date.now()] / [new Date()] read from a [World]:
      two infinite sequences with a cursor each.  Every call in the source is
      one read in the model, in source order.
    - [Math.sin], [parseFloat], [Date.prototype.toISOString] and the parsing
      done by [new Date(string)] are built-ins of the runtime; they are
      variables of the sections that use them. *)

From Stdlib Require Import ZArith QArith Qround List String Ascii Bool Lia Lqa.
From Stdlib Require Import DecimalString.
Import ListNotations.
Open Scope Q_scope.

(** ** JavaScript numbers *)

Inductive jsnum : Type :=
| Fin (q : Q)
| PInf
| NInf
| NaN.

Definition jneg (x : jsnum) : jsnum :=
  match x with
  | Fin q => Fin (- q)
  | PInf => NInf
  | NInf => PInf
  | NaN => NaN
  end.

Definition jadd (x y : jsnum) : jsnum :=
  match x, y with
  | NaN, _ | _, NaN => NaN
  | Fin a, Fin b => Fin (a + b)
  | PInf, NInf | NInf, PInf => NaN
  | PInf, _ | _, PInf => PInf
  | NInf, _ | _, NInf => NInf
  end.

Definition jsub (x y : jsnum) : jsnum := jadd x (jneg y).

(** [inf * q] for a finite [q]; [pos] tells which infinity. *)
Definition scale_inf (pos : bool) (q : Q) : jsnum :=
  match q ?= 0 with
  | Eq => NaN
  | Gt => if pos then PInf else NInf
  | Lt => if pos then NInf else PInf
  end.

Definition jmul (x y : jsnum) : jsnum :=
  match x, y with
  | NaN, _ | _, NaN => NaN
  | Fin a, Fin b => Fin (a * b)
  | PInf, Fin b | Fin b, PInf => scale_inf true b
  | NInf, Fin b | Fin b, NInf => scale_inf false b
  | PInf, PInf | NInf, NInf => PInf
  | PInf, NInf | NInf, PInf => NInf
  end.

Definition jdiv (x y : jsnum) : jsnum :=
  match x, y with
  | NaN, _ | _, NaN => NaN
  | Fin a, Fin b =>
      match b ?= 0 with
      | Eq => match a ?= 0 with Eq => NaN | Gt => PInf | Lt => NInf end
      | _ => Fin (a / b)
      end
  | Fin _, _ => Fin 0
  | PInf, Fin b => if Qle_bool 0 b then PInf else NInf
  | NInf, Fin b => if Qle_bool 0 b then NInf else PInf
  | _, _ => NaN
  end.

(** [x >= y] *)
Definition jge (x y : jsnum) : bool :=
  match x, y with
  | NaN, _ | _, NaN => false
  | Fin a, Fin b => Qle_bool b a
  | PInf, _ => true
  | _, NInf => true
  | _, _ => false
  end.

(** [x > y] *)
Definition jgt (x y : jsnum) : bool :=
  match x, y with
  | NaN, _ | _, NaN => false
  | Fin a, Fin b => negb (Qle_bool a b)
  | PInf, PInf => false
  | PInf, _ => true
  | NInf, _ => false
  | Fin _, NInf => true
  | Fin _, PInf => false
  end.

(** [x < y] *)
Definition jlt (x y : jsnum) : bool := jgt y x.

Definition Math_floor (x : jsnum) : jsnum :=
  match x with
  | Fin q => Fin (inject_Z (Qfloor q))
  | _ => x
  end.

(** [Math.round] rounds halves towards plus infinity. *)
Definition Math_round (x : jsnum) : jsnum :=
  match x with
  | Fin q => Fin (inject_Z (Qfloor (q + (1 # 2))))
  | _ => x
  end.

Definition Math_max (x y : jsnum) : jsnum :=
  match x, y with
  | NaN, _ | _, NaN => NaN
  | _, _ => if jge x y then x else y
  end.

Definition Math_min (x y : jsnum) : jsnum :=
  match x, y with
  | NaN, _ | _, NaN => NaN
  | _, _ => if jge x y then y else x
  end.

Definition num (z : Z) : jsnum := Fin (inject_Z z).

Definition isFinite (x : jsnum) : bool :=
  match x with Fin _ => true | _ => false end.

(** ** JavaScript values, strings and maps *)

Inductive jsval : Type :=
| VUndefined
| VNull
| VBool (b : bool)
| VNum (n : jsnum)
| VStr (s : string).

(** A [Map] keeps its entries in insertion order; [set] on a key that is
    present replaces the value in place. *)
Section MapModel.
Context {K V : Type} (eqb : K -> K -> bool).

Fixpoint Map_set (m : list (K * V)) (k : K) (v : V) : list (K * V) :=
  match m with
  | [] => [(k, v)]
  | (k', v') :: rest =>
      if eqb k' k then (k, v) :: rest else (k', v') :: Map_set rest k v
  end.

Fixpoint Map_get (m : list (K * V)) (k : K) : option V :=
  match m with
  | [] => None
  | (k', v') :: rest => if eqb k' k then Some v' else Map_get rest k
  end.
End MapModel.

(** [Array.prototype.find] *)
Fixpoint Array_find {A} (p : A -> bool) (l : list A) : option A :=
  match l with
  | [] => None
  | a :: rest => if p a then Some a else Array_find p rest
  end.

(** [Array.prototype.indexOf], -1 when absent *)
Fixpoint indexOf_from (l : list string) (x : string) (i : Z) : Z :=
  match l with
  | [] => (-1)%Z
  | a :: rest => if String.eqb a x then i else indexOf_from rest x (i + 1)%Z
  end.

Definition indexOf (l : list string) (x : string) : Z := indexOf_from l x 0%Z.

(** [s.split(c)] for a one-character separator *)
Fixpoint split (c : ascii) (s : string) : list string :=
  match s with
  | EmptyString => [EmptyString]
  | String a r =>
      if Ascii.eqb a c then EmptyString :: split c r
      else match split c r with
           | h :: t => String a h :: t
           | [] => [String a EmptyString]
           end
  end.

(** The last element of [s.split(c)], which is never empty as an array. *)
Definition last_part (parts : list string) : string :=
  List.last parts EmptyString.

Definition lower_ascii (a : ascii) : ascii :=
  let n := nat_of_ascii a in
  if (65 <=? n)%nat && (n <=? 90)%nat then ascii_of_nat (n + 32) else a.

Definition upper_ascii (a : ascii) : ascii :=
  let n := nat_of_ascii a in
  if (97 <=? n)%nat && (n <=? 122)%nat then ascii_of_nat (n - 32) else a.

Fixpoint map_string (f : ascii -> ascii) (s : string) : string :=
  match s with
  | EmptyString => EmptyString
  | String a r => String (f a) (map_string f r)
  end.

(** [toLowerCase] and [toUpperCase] on the ASCII letters. *)
Definition toLowerCase : string -> string := map_string lower_ascii.
Definition toUpperCase : string -> string := map_string upper_ascii.

(** [s.replace(/-/g, '_')] *)
Definition replace_hyphens : string -> string :=
  map_string (fun a => if Ascii.eqb a "-"%char then "_"%char else a).

(** [a || b] on strings that may be undefined: the empty string is falsy. *)
Definition str_or (a : option string) (b : string) : string :=
  match a with
  | Some s => if String.eqb s EmptyString then b else s
  | None => b
  end.

(** ** Machine configuration (cnc-data-generator.ts) *)

Inductive OperationalStatus : Type :=
| st_operational | st_maintenance | st_offline | st_error
| st_running | st_setup | st_idle.

Record Capabilities : Type := {
  spindle_rpm_max : Q;
  axes : nat;
  tool_changer : bool;
  simultaneous_axes : nat;
  coolant_system : bool
}.

Record Specifications : Type := {
  spindle_power_kw : Q;
  rapid_traverse_mm_min : Q;
  work_envelope : string
}.

Record CNCMachineConfig : Type := {
  machine_id : string;
  display_name : string;
  manufacturer : string;
  model : string;
  enterprise : string;
  site : string;
  area : string;
  work_cell : string;
  operational_status : OperationalStatus;
  capabilities : Capabilities;
  specifications : Specifications
}.

Inductive Phase : Type :=
| idle | loading | machining | unloading | maintenance | error.

Record MachineOperationCycle : Type := {
  phase : Phase;
  duration : jsnum;      (* seconds *)
  startTime : Z
}.

(** The fields of a [CNCDataGenerator] instance. *)
Record CNCDataGenerator : Type := {
  machine : CNCMachineConfig;
  currentCycle : MachineOperationCycle;
  lastUpdate : Z;
  cycleStartTime : Z;
  totalPartsProduced : Z;
  toolWearFactors : list (Z * Q);   (* tool_id -> wear_factor (0-1) *)
  vibrationBaseline : Q;
  temperatureBaseline : Q
}.

Definition with_cycle (this : CNCDataGenerator) (c : MachineOperationCycle)
  : CNCDataGenerator :=
  {| machine := machine this; currentCycle := c;
     lastUpdate := lastUpdate this; cycleStartTime := cycleStartTime this;
     totalPartsProduced := totalPartsProduced this;
     toolWearFactors := toolWearFactors this;
     vibrationBaseline := vibrationBaseline this;
     temperatureBaseline := temperatureBaseline this |}.

Definition with_parts (this : CNCDataGenerator) (n : Z) : CNCDataGenerator :=
  {| machine := machine this; currentCycle := currentCycle this;
     lastUpdate := lastUpdate this; cycleStartTime := cycleStartTime this;
     totalPartsProduced := n;
     toolWearFactors := toolWearFactors this;
     vibrationBaseline := vibrationBaseline this;
     temperatureBaseline := temperatureBaseline this |}.

Definition with_lastUpdate (this : CNCDataGenerator) (t : Z) : CNCDataGenerator :=
  {| machine := machine this; currentCycle := currentCycle this;
     lastUpdate := t; cycleStartTime := cycleStartTime this;
     totalPartsProduced := totalPartsProduced this;
     toolWearFactors := toolWearFactors this;
     vibrationBaseline := vibrationBaseline this;
     temperatureBaseline := temperatureBaseline this |}.

(** ** Payloads and readings (types/uns-types.ts) *)

Inductive Quality : Type := good | bad | uncertain.

Record MQTTPayload : Type := {
  timestamp : string;     (* ISO 8601 *)
  source : string;
  value : jsval;
  unit_ : option string;    (* [unit] *)
  quality : option Quality;
  metadata : option (list (string * jsval))
}.

Record SensorReading : Type := {
  topicPath : string;
  payload : MQTTPayload
}.

Definition phase_name (p : Phase) : string :=
  match p with
  | idle => "idle" | loading => "loading" | machining => "machining"
  | unloading => "unloading" | maintenance => "maintenance" | error => "error"
  end.

Definition status_name (s : OperationalStatus) : string :=
  match s with
  | st_operational => "operational" | st_maintenance => "maintenance"
  | st_offline => "offline" | st_error => "error" | st_running => "running"
  | st_setup => "setup" | st_idle => "idle"
  end.

Definition status_eqb (a b : OperationalStatus) : bool :=
  String.eqb (status_name a) (status_name b).

(** The variables of [process.env] that the simulator reads. *)
Record ProcessEnv : Type := {
  FACTORY_NAME : option string;
  ENTERPRISE_NAME : option string;
  SITE_NAME : option string;
  PLANT_NAME : option string;
  OUTPUT_FORMAT : option string
}.

(** ** UMH Core messages (types/umh-types.ts)

    The interfaces declare every field present; [validateUMHMessage] checks
    them at run time all the same, so a message here may lack its payload,
    its metadata or its topic ([None] is [undefined] or [null]), and
    [timestamp_ms] is any value. *)

Record UMHPayload : Type := {
  umh_value : jsval;
  timestamp_ms : jsval
}.

Record UMHMetadata : Type := {
  location_path : string;
  data_contract : string;
  tag_name : string;
  umh_unit : option string;
  umh_quality : option Quality;
  umh_source : option string;
  original_metadata : option (list (string * jsval))
}.

Record UMHMessage : Type := {
  umh_payload : option UMHPayload;
  umh_metadata : option UMHMetadata;
  topic : option string
}.

Definition UMH_DATA_CONTRACTS_RAW : string := "_raw".
Definition UMH_DATA_CONTRACTS_STRUCTURED : string := "_structured".

Definition buildUMHTopic (enterprise site area work_cell machine data_contract tag_name : string)
  : string :=
  ("umh.v1." ++ enterprise ++ "." ++ site ++ "." ++ area ++ "." ++ work_cell
     ++ "." ++ machine ++ "." ++ data_contract ++ "." ++ tag_name)%string.

Definition buildLocationPath (enterprise site area work_cell machine : string) : string :=
  (enterprise ++ "." ++ site ++ "." ++ area ++ "." ++ work_cell ++ "." ++ machine)%string.

(** ** The world outside the program

    The random source, the clock, the HTTP sink behind the UMH client, and
    the trace of what the program did to the outside: requests, timer waits
    and log lines, oldest first. *)

(** What a rejected promise or a [catch] clause carries. *)
Inductive Thrown : Type :=
| ErrorObj (message : string)       (* an [Error] instance *)
| NonError (as_string : string).    (* anything else, with its [String(...)] *)

(** The answer of the sink to one operation: an HTTP request of the UMH
    client, or the connection attempt of the MQTT client. *)
Inductive SinkResult : Type :=
| SinkOk (status : Z)
| SinkFail (e : Thrown).

Inductive LogLevel : Type := log_debug | log_info | log_warn | log_error.

Inductive Event : Type :=
| Posted (path : string) (messages : list UMHMessage) (result : SinkResult)
| Got (path : string) (result : SinkResult)
| MqttConnect (url : string) (result : SinkResult)
| MqttPublish (topic : string) (message : MQTTPayload + UMHPayload)
| Slept (ms : Z)
| Logged (level : LogLevel) (text : string) (details : list string).

Record World : Type := mkWorld {
  random_draws : nat -> Q;
  drawn : nat;
  clock_reads : nat -> Z;
  reads : nat;
  sink_results : nat -> SinkResult;
  requests : nat;
  trace : list Event
}.

Definition M (A : Type) : Type := World -> A * World.

Definition ret {A} (a : A) : M A := fun w => (a, w).

Definition bind {A B} (c : M A) (k : A -> M B) : M B :=
  fun w => let (a, w') := c w in k a w'.

Notation "x <- c ;; k" := (bind c (fun x => k))
  (at level 61, c at next level, right associativity).

(** [Math.random()] *)
Definition Math_random : M Q :=
  fun w => (random_draws w (drawn w),
            mkWorld (random_draws w) (S (drawn w)) (clock_reads w) (reads w)
                    (sink_results w) (requests w) (trace w)).

(** [Date.now()], and the time value of [new Date()] *)
Definition Date_now : M Z :=
  fun w => (clock_reads w (reads w),
            mkWorld (random_draws w) (drawn w) (clock_reads w) (S (reads w))
                    (sink_results w) (requests w) (trace w)).

Definition emit (e : Event) : M unit :=
  fun w => (tt,
            mkWorld (random_draws w) (drawn w) (clock_reads w) (reads w)
                    (sink_results w) (requests w) (trace w ++ [e])).

(** The next answer of the sink, recorded in the trace by [ev]. *)
Definition sink_request (ev : SinkResult -> Event) : M SinkResult :=
  fun w => let r := sink_results w (requests w) in
           (r,
            mkWorld (random_draws w) (drawn w) (clock_reads w) (reads w)
                    (sink_results w) (S (requests w))
                    (trace w ++ [ev r])).

(** [await this.httpClient.post(path, body)]; of the body the trace keeps the
    messages (the caller reads the clock for the [timestamp] it adds). *)
Definition http_post (path : string) (messages : list UMHMessage) : M SinkResult :=
  sink_request (Posted path messages).

(** [await this.httpClient.get(path)] *)
Definition http_get (path : string) : M SinkResult :=
  sink_request (Got path).

(** [await new Promise(resolve => setTimeout(resolve, delay))] *)
Definition sleep (delay : Z) : M unit := emit (Slept delay).

Definition log (level : LogLevel) (text : string) (details : list string) : M unit :=
  emit (Logged level text details).

(** Every draw lies in [0,1), as [Math.random] promises. *)
Definition unit_draws (w : World) : Prop :=
  forall i, 0 <= random_draws w i /\ random_draws w i < 1.

(** The clock shows [now] at every read: one instant. *)
Definition frozen_clock (now : Z) (w : World) : Prop :=
  forall i, clock_reads w i = now.


(** ** CNCDataGenerator: the cycle state machine *)

(** *** initializeCycle *)
Definition initializeCycle (m : CNCMachineConfig) : M MachineOperationCycle :=
  match operational_status m with
  | st_maintenance =>
      t <- Date_now ;;
      ret {| phase := maintenance; duration := Fin 3600; startTime := t |}
  | st_offline =>
      t <- Date_now ;;
      ret {| phase := idle; duration := PInf; startTime := t |}
  | _ =>
      r <- Math_random ;;
      t <- Date_now ;;
      ret {| phase := idle; duration := Fin (r * 300 + 60); startTime := t |}
  end.

(** *** advanceCyclePhase *)
Definition advanceCyclePhase (this : CNCDataGenerator) : M CNCDataGenerator :=
  now <- Date_now ;;
  match phase (currentCycle this) with
  | idle =>
      r <- Math_random ;;
      ret (with_cycle this
             {| phase := loading; duration := Fin (r * 120 + 30); startTime := now |})
  | loading =>
      r <- Math_random ;;
      ret (with_cycle this
             {| phase := machining; duration := Fin (r * 1800 + 600); startTime := now |})
  | machining =>
      r <- Math_random ;;
      let this' := with_cycle this
             {| phase := unloading; duration := Fin (r * 60 + 15); startTime := now |} in
      ret (with_parts this' (totalPartsProduced this' + 1)%Z)
  | unloading =>
      random <- Math_random ;;
      if negb (Qle_bool 0.05 random) then
        r <- Math_random ;;
        ret (with_cycle this
               {| phase := error; duration := Fin (r * 600 + 300); startTime := now |})
      else if negb (Qle_bool 0.15 random) then
        r <- Math_random ;;
        ret (with_cycle this
               {| phase := maintenance; duration := Fin (r * 3600 + 900); startTime := now |})
      else
        r <- Math_random ;;
        ret (with_cycle this
               {| phase := idle; duration := Fin (r * 300 + 60); startTime := now |})
  | maintenance | error =>
      r <- Math_random ;;
      ret (with_cycle this
             {| phase := idle; duration := Fin (r * 300 + 60); startTime := now |})
  end.

(** [(a - b) / 1000] for two time values. *)
Definition seconds_between (a b : Z) : jsnum :=
  jdiv (num (a - b)) (Fin 1000).

(** *** updateCycle *)
Definition updateCycle (this : CNCDataGenerator) : M CNCDataGenerator :=
  now <- Date_now ;;
  let elapsedSeconds := seconds_between now (startTime (currentCycle this)) in
  if jge elapsedSeconds (duration (currentCycle this)) then
    advanceCyclePhase this
  else ret this.


(** ** CNCDataGenerator: the payload generators *)

Definition StandardUnits_RPM : string := "rpm".
Definition StandardUnits_PERCENT : string := "percent".
Definition StandardUnits_MILLIMETER : string := "mm".
Definition StandardUnits_CELSIUS : string := "celsius".
Definition StandardUnits_BAR : string := "bar".
Definition StandardUnits_LITERS_PER_MINUTE : string := "L/min".

Definition axis_names : list string := ["x"; "y"; "z"; "a"; "b"; "c"]%string.

(** [this.toolWearFactors.get(toolNumber) || 0]: a key that is not one of
    the integers stored gives [undefined], hence 0. *)
Definition toolWear_of (wear : list (Z * Q)) (toolNumber : jsnum) : Q :=
  match toolNumber with
  | Fin q =>
      if Qeq_bool q (inject_Z (Qfloor q)) then
        match Map_get Z.eqb wear (Qfloor q) with
        | Some v => v
        | None => 0
        end
      else 0
  | _ => 0
  end.

Section Generator.
(** Built-ins of the runtime. *)
Variable Math_sin : Q -> Q.
Variable parseFloat : string -> jsnum.
Variable toISOString : Z -> string.

Definition phase_of (this : CNCDataGenerator) : Phase :=
  phase (currentCycle this).

Definition generateSpindleSpeedPayload (this : CNCDataGenerator) (timestamp : Z)
  : M MQTTPayload :=
  let max := spindle_rpm_max (capabilities (machine this)) in
  rpm <- match phase_of this with
         | machining =>
             r <- Math_random ;;
             let baseRpm := max * (0.3 + r * 0.6) in
             t <- Date_now ;;
             ret (baseRpm + (Math_sin (inject_Z t / 10000) * baseRpm * 0.1))
         | loading | unloading => ret (max * 0.1)
         | _ => ret 0
         end ;;
  ret {| timestamp := toISOString timestamp;
         source := machine_id (machine this);
         value := VNum (Math_max (Fin 0) (Math_round (Fin rpm)));
         unit_ := Some StandardUnits_RPM;
         quality := Some (if jgt (Fin rpm) (Fin 0) then good else good);
         metadata := Some [("max_rpm", VNum (Fin max));
                           ("phase", VStr (phase_name (phase_of this)))]%string |}.

Definition generateSpindleLoadPayload (this : CNCDataGenerator) (timestamp : Z)
  : M MQTTPayload :=
  loadPercent <- match phase_of this with
         | machining =>
             r <- Math_random ;;
             t <- Date_now ;;
             ret (30 + r * 50 + Math_sin (inject_Z t / 15000) * 20)
         | loading | unloading =>
             r <- Math_random ;;
             ret (5 + r * 10)
         | _ => ret 0
         end ;;
  ret {| timestamp := toISOString timestamp;
         source := machine_id (machine this);
         value := VNum (Math_max (Fin 0)
                    (Math_min (Fin 100)
                       (jdiv (Math_round (Fin (loadPercent * 10))) (Fin 10))));
         unit_ := Some StandardUnits_PERCENT;
         quality := Some (if jgt (Fin loadPercent) (Fin 95) then uncertain else good);
         metadata := Some [("power_rating_kw",
                              VNum (Fin (spindle_power_kw (specifications (machine this)))));
                           ("phase", VStr (phase_name (phase_of this)))]%string |}.

(** [dimensions[axisIndex]]: [undefined] outside the array. *)
Definition array_at (l : list jsnum) (i : Z) : option jsnum :=
  if (i <? 0)%Z then None else nth_error l (Z.to_nat i).

(** A value that may be [undefined], used as a number. *)
Definition toNumber (x : option jsnum) : jsnum :=
  match x with Some n => n | None => NaN end.

Definition num_or_undefined (x : option jsnum) : jsval :=
  match x with Some n => VNum n | None => VUndefined end.

Definition generateAxisPositionPayload (this : CNCDataGenerator)
    (axis : string) (timestamp : Z) : M MQTTPayload :=
  let envelope := work_envelope (specifications (machine this)) in
  let dimensions := List.map parseFloat (split "x"%char envelope) in
  let axisIndex := indexOf axis_names (toLowerCase axis) in
  let maxPosition0 :=
    if (axisIndex <? Z.of_nat (List.length dimensions))%Z
    then array_at dimensions axisIndex
    else Some (Fin 100) in
  let maxN := toNumber maxPosition0 in
  position0 <- match phase_of this with
         | machining =>
             t <- Date_now ;;
             ret (jadd (jdiv maxN (Fin 2))
                       (jmul (Fin (Math_sin (inject_Z t / 8000 + inject_Z axisIndex)))
                             (jmul maxN (Fin 0.3))))
         | loading | unloading =>
             ret (if (axisIndex =? 0)%Z then jmul maxN (Fin 0.1)
                  else jmul maxN (Fin 0.5))
         | _ => ret (Fin 0)
         end ;;
  let rotary := (3 <=? axisIndex)%Z in
  let position :=
    if rotary then jsub (jmul (jdiv position0 maxN) (Fin 360)) (Fin 180)
    else position0 in
  let maxPosition := if rotary then Some (Fin 360) else maxPosition0 in
  ret {| timestamp := toISOString timestamp;
         source := machine_id (machine this);
         value := VNum (jdiv (Math_round (jmul position (Fin 100))) (Fin 100));
         unit_ := Some (if rotary then "degrees"%string else StandardUnits_MILLIMETER);
         quality := Some good;
         metadata := Some [("axis", VStr (toUpperCase axis));
                           ("max_travel", num_or_undefined maxPosition);
                           ("phase", VStr (phase_name (phase_of this)))]%string |}.

Definition generateFeedratePayload (this : CNCDataGenerator) (timestamp : Z)
  : M MQTTPayload :=
  let rapid := rapid_traverse_mm_min (specifications (machine this)) in
  feedrate <- match phase_of this with
         | machining =>
             r <- Math_random ;;
             t <- Date_now ;;
             ret (100 + r * 1500 + Math_sin (inject_Z t / 12000) * 300)
         | loading | unloading => ret (rapid * 0.1)
         | _ => ret 0
         end ;;
  ret {| timestamp := toISOString timestamp;
         source := machine_id (machine this);
         value := VNum (Math_max (Fin 0) (Math_round (Fin feedrate)));
         unit_ := Some "mm/min"%string;
         quality := Some good;
         metadata := Some [("rapid_traverse", VNum (Fin rapid));
                           ("phase", VStr (phase_name (phase_of this)))]%string |}.

Definition generateVibrationPayload (this : CNCDataGenerator) (timestamp : Z)
  : M MQTTPayload :=
  let baseline := vibrationBaseline this in
  vibration <- match phase_of this with
         | machining =>
             r <- Math_random ;;
             t <- Date_now ;;
             ret (baseline + (r * 2.0 + Math_sin (inject_Z t / 3000) * 0.5))
         | error =>
             r <- Math_random ;;
             ret (baseline + r * 5.0)
         | _ =>
             r <- Math_random ;;
             ret (baseline + r * 0.2)
         end ;;
  let quality :=
    if jgt (Fin vibration) (Fin 5.0) then bad
    else if jgt (Fin vibration) (Fin 3.0) then uncertain else good in
  ret {| timestamp := toISOString timestamp;
         source := machine_id (machine this);
         value := VNum (jdiv (Math_round (Fin (vibration * 100))) (Fin 100));
         unit_ := Some "mm/s"%string;
         quality := Some quality;
         metadata := Some [("baseline", VNum (Fin baseline));
                           ("threshold_warning", VNum (Fin 3.0));
                           ("threshold_alarm", VNum (Fin 5.0));
                           ("phase", VStr (phase_name (phase_of this)))]%string |}.

Definition generateTemperaturePayload (this : CNCDataGenerator) (timestamp : Z)
  : M MQTTPayload :=
  let baseline := temperatureBaseline this in
  temperature <- match phase_of this with
         | machining =>
             r <- Math_random ;;
             ret (baseline + (r * 20 + 10))
         | error =>
             r <- Math_random ;;
             ret (baseline + r * 30)
         | _ =>
             r <- Math_random ;;
             ret (baseline + r * 5)
         end ;;
  let quality :=
    if jgt (Fin temperature) (Fin 90) then bad
    else if jgt (Fin temperature) (Fin 75) then uncertain else good in
  ret {| timestamp := toISOString timestamp;
         source := machine_id (machine this);
         value := VNum (jdiv (Math_round (Fin (temperature * 10))) (Fin 10));
         unit_ := Some StandardUnits_CELSIUS;
         quality := Some quality;
         metadata := Some [("baseline", VNum (Fin baseline));
                           ("threshold_warning", VNum (Fin 75));
                           ("threshold_alarm", VNum (Fin 90));
                           ("phase", VStr (phase_name (phase_of this)))]%string |}.

(** The tool number that [generateCurrentToolPayload] selects when the
    clock shows [t]. *)
Definition toolNumber_at (c : MachineOperationCycle) (t : Z) : jsnum :=
  let cycleProgress :=
    jdiv (num (t - startTime c)) (jmul (duration c) (Fin 1000)) in
  jadd (Math_floor (jmul cycleProgress (Fin 5))) (Fin 1).

Definition generateCurrentToolPayload (this : CNCDataGenerator) (timestamp : Z)
  : M MQTTPayload :=
  toolNumber <- match phase_of this with
         | machining =>
             t <- Date_now ;;
             ret (toolNumber_at (currentCycle this) t)
         | _ => ret (Fin 1)
         end ;;
  let toolWear := toolWear_of (toolWearFactors this) toolNumber in
  ret {| timestamp := toISOString timestamp;
         source := machine_id (machine this);
         value := VNum toolNumber;
         unit_ := Some "tool_number"%string;
         quality := Some (if jgt (Fin toolWear) (Fin 0.8) then uncertain else good);
         metadata := Some [("tool_wear_percent",
                              VNum (Math_round (Fin (toolWear * 100))));
                           ("tool_life_remaining",
                              VNum (Math_round (Fin ((1 - toolWear) * 100))));
                           ("phase", VStr (phase_name (phase_of this)))]%string |}.

Definition generateCoolantPressurePayload (this : CNCDataGenerator) (timestamp : Z)
  : M MQTTPayload :=
  pressure <- match phase_of this with
         | machining =>
             r <- Math_random ;;
             t <- Date_now ;;
             ret (3.5 + r * 1.0 + Math_sin (inject_Z t / 5000) * 0.2)
         | loading | unloading =>
             r <- Math_random ;;
             ret (2.0 + r * 0.5)
         | _ =>
             r <- Math_random ;;
             ret (0.5 + r * 0.3)
         end ;;
  let quality :=
    if jlt (Fin pressure) (Fin 2.0)
       && match phase_of this with machining => true | _ => false end
    then bad else good in
  ret {| timestamp := toISOString timestamp;
         source := machine_id (machine this);
         value := VNum (jdiv (Math_round (Fin (pressure * 10))) (Fin 10));
         unit_ := Some StandardUnits_BAR;
         quality := Some quality;
         metadata := Some [("min_operating_pressure", VNum (Fin 2.0));
                           ("nominal_pressure", VNum (Fin 4.0));
                           ("phase", VStr (phase_name (phase_of this)))]%string |}.

Definition generateCoolantFlowPayload (this : CNCDataGenerator) (timestamp : Z)
  : M MQTTPayload :=
  flowRate <- match phase_of this with
         | machining =>
             r <- Math_random ;;
             t <- Date_now ;;
             ret (15 + r * 10 + Math_sin (inject_Z t / 7000) * 3)
         | loading | unloading =>
             r <- Math_random ;;
             ret (5 + r * 3)
         | _ =>
             r <- Math_random ;;
             ret (1 + r * 2)
         end ;;
  ret {| timestamp := toISOString timestamp;
         source := machine_id (machine this);
         value := VNum (jdiv (Math_round (Fin (flowRate * 10))) (Fin 10));
         unit_ := Some StandardUnits_LITERS_PER_MINUTE;
         quality := Some good;
         metadata := Some [("nominal_flow", VNum (Fin 20));
                           ("phase", VStr (phase_name (phase_of this)))]%string |}.

Definition generateOperationalStatusPayload (this : CNCDataGenerator) (timestamp : Z)
  : M MQTTPayload :=
  let status := operational_status (machine this) in
  let detailedStatus :=
    match status with
    | st_operational =>
        match phase_of this with
        | machining => st_running
        | loading | unloading => st_setup
        | idle => st_idle
        | error => st_error
        | maintenance => st_maintenance
        end
    | _ => status
    end in
  t <- Date_now ;;
  ret {| timestamp := toISOString timestamp;
         source := machine_id (machine this);
         value := VStr (status_name detailedStatus);
         unit_ := Some "status"%string;
         quality := Some good;
         metadata := Some [("base_status", VStr (status_name status));
                           ("cycle_phase", VStr (phase_name (phase_of this)));
                           ("uptime_hours",
                              VNum (Math_round
                                      (jdiv (num (t - cycleStartTime this))
                                            (Fin 3600000))))]%string |}.

Definition generateCyclePhasePayload (this : CNCDataGenerator) (timestamp : Z)
  : M MQTTPayload :=
  let c := currentCycle this in
  t <- Date_now ;;
  let elapsedSeconds := Math_round (seconds_between t (startTime c)) in
  let remainingSeconds :=
    Math_max (Fin 0) (Math_round (jsub (duration c) elapsedSeconds)) in
  ret {| timestamp := toISOString timestamp;
         source := machine_id (machine this);
         value := VStr (phase_name (phase c));
         unit_ := Some "phase"%string;
         quality := Some good;
         metadata := Some [("elapsed_seconds", VNum elapsedSeconds);
                           ("remaining_seconds", VNum remainingSeconds);
                           ("total_duration", VNum (Math_round (duration c)));
                           ("progress_percent",
                              VNum (Math_round
                                      (jmul (jdiv elapsedSeconds (duration c))
                                            (Fin 100))))]%string |}.

Definition generatePartsCountPayload (this : CNCDataGenerator) (timestamp : Z)
  : M MQTTPayload :=
  let parts := num (totalPartsProduced this) in
  t <- Date_now ;;
  ret {| timestamp := toISOString timestamp;
         source := machine_id (machine this);
         value := VNum parts;
         unit_ := Some "parts"%string;
         quality := Some good;
         metadata := Some [("shift_start", VStr (toISOString (cycleStartTime this)));
                           ("parts_per_hour",
                              VNum (jdiv
                                      (Math_round
                                         (jmul (jdiv parts
                                                  (jdiv (num (t - cycleStartTime this))
                                                        (Fin 3600000)))
                                               (Fin 10)))
                                      (Fin 10)))]%string |}.

Definition generateEfficiencyPayload (this : CNCDataGenerator) (timestamp : Z)
  : M MQTTPayload :=
  t0 <- Date_now ;;
  let totalRuntime := seconds_between t0 (cycleStartTime this) in
  machiningTime0 <- match phase_of this with
         | machining =>
             t <- Date_now ;;
             ret (jadd (Fin 0) (seconds_between t (startTime (currentCycle this))))
         | _ => ret (Fin 0)
         end ;;
  let machiningTime :=
    jadd machiningTime0 (jmul (num (totalPartsProduced this)) (Fin 1200)) in
  let efficiency :=
    Math_min (Fin 100) (jmul (jdiv machiningTime totalRuntime) (Fin 100)) in
  ret {| timestamp := toISOString timestamp;
         source := machine_id (machine this);
         value := VNum (jdiv (Math_round (jmul efficiency (Fin 10))) (Fin 10));
         unit_ := Some StandardUnits_PERCENT;
         quality := Some good;
         metadata := Some [("machining_time_seconds", VNum (Math_round machiningTime));
                           ("total_runtime_seconds", VNum (Math_round totalRuntime));
                           ("target_efficiency", VNum (Fin 75));
                           ("current_phase",
                              VStr (phase_name (phase_of this)))]%string |}.

(** *** generateSensorReadings *)

Local Open Scope string_scope.

Definition is_umh_format (outputFormat : string) : bool :=
  String.eqb outputFormat "umh" || String.eqb outputFormat "umh-core".

Definition baseTopicPath_of (outputFormat : string) (m : CNCMachineConfig) : string :=
  if is_umh_format outputFormat then
    "umh/v1/" ++ enterprise m ++ "/" ++ site m ++ "/" ++ area m ++ "/"
      ++ work_cell m ++ "/" ++ machine_id m ++ "/_raw"
  else
    enterprise m ++ "/" ++ site m ++ "/" ++ area m ++ "/"
      ++ work_cell m ++ "/" ++ machine_id m.

(** [axisLabels.forEach(axis => readings.push(...))] *)
Fixpoint axis_readings (this : CNCDataGenerator) (prefix : string) (now : Z)
    (axisLabels : list string) : M (list SensorReading) :=
  match axisLabels with
  | [] => ret []
  | axis :: rest =>
      p <- generateAxisPositionPayload this axis now ;;
      more <- axis_readings this prefix now rest ;;
      ret ({| topicPath := prefix ++ "/position-" ++ axis; payload := p |} :: more)
  end.

Definition generateSensorReadings (env : ProcessEnv) (this0 : CNCDataGenerator)
  : M (list SensorReading * CNCDataGenerator) :=
  this <- updateCycle this0 ;;
  now <- Date_now ;;
  let outputFormat := str_or (OUTPUT_FORMAT env) "uns" in
  let baseTopicPath := baseTopicPath_of outputFormat (machine this) in
  let sensorPrefix := if is_umh_format outputFormat then EmptyString else "/info/sensors" in
  let sensors := baseTopicPath ++ sensorPrefix in
  spindleSpeed <- generateSpindleSpeedPayload this now ;;
  spindleLoad <- generateSpindleLoadPayload this now ;;
  let axisLabels := firstn (axes (capabilities (machine this))) axis_names in
  positions <- axis_readings this sensors now axisLabels ;;
  feedrate <- generateFeedratePayload this now ;;
  vibration <- generateVibrationPayload this now ;;
  temperature <- generateTemperaturePayload this now ;;
  currentTool <- generateCurrentToolPayload this now ;;
  coolant <- (if coolant_system (capabilities (machine this)) then
                pressure <- generateCoolantPressurePayload this now ;;
                flow <- generateCoolantFlowPayload this now ;;
                ret [ {| topicPath := sensors ++ "/coolant-pressure"; payload := pressure |};
                      {| topicPath := sensors ++ "/coolant-flow"; payload := flow |} ]
              else ret []) ;;
  let statusPrefix := if is_umh_format outputFormat then EmptyString else "/info/status" in
  let status := baseTopicPath ++ statusPrefix in
  operational <- generateOperationalStatusPayload this now ;;
  cyclePhase <- generateCyclePhasePayload this now ;;
  let prodPrefix := if is_umh_format outputFormat then EmptyString else "/info/production" in
  let prod := baseTopicPath ++ prodPrefix in
  partsCount <- generatePartsCountPayload this now ;;
  efficiency <- generateEfficiencyPayload this now ;;
  ret (List.app
         [ {| topicPath := sensors ++ "/spindle-speed"; payload := spindleSpeed |};
           {| topicPath := sensors ++ "/spindle-load"; payload := spindleLoad |} ]
      (List.app positions
      (List.app
         [ {| topicPath := sensors ++ "/feedrate"; payload := feedrate |};
           {| topicPath := sensors ++ "/vibration"; payload := vibration |};
           {| topicPath := sensors ++ "/temperature"; payload := temperature |};
           {| topicPath := sensors ++ "/current-tool"; payload := currentTool |} ]
      (List.app coolant
         [ {| topicPath := status ++ "/operational"; payload := operational |};
           {| topicPath := status ++ "/cycle-phase"; payload := cyclePhase |};
           {| topicPath := prod ++ "/parts-count"; payload := partsCount |};
           {| topicPath := prod ++ "/efficiency"; payload := efficiency |} ]))),
       with_lastUpdate this now).

(** *** The constructor *)

(** [for (let i = from; i <= 20; i++) toolWearFactors.set(i, Math.random() * 0.3)],
    with [n] iterations left. *)
Fixpoint init_tool_wear (n : nat) (i : Z) (wear : list (Z * Q)) : M (list (Z * Q)) :=
  match n with
  | O => ret wear
  | S n' =>
      r <- Math_random ;;
      init_tool_wear n' (i + 1)%Z (Map_set Z.eqb wear i (r * 0.3))
  end.

Definition new_CNCDataGenerator (m : CNCMachineConfig) : M CNCDataGenerator :=
  lastUpdate0 <- Date_now ;;
  cycleStartTime0 <- Date_now ;;
  rv <- Math_random ;;
  rt <- Math_random ;;
  cycle <- initializeCycle m ;;
  wear <- init_tool_wear 20 1%Z [] ;;
  ret {| machine := m;
         currentCycle := cycle;
         lastUpdate := lastUpdate0;
         cycleStartTime := cycleStartTime0;
         totalPartsProduced := 0%Z;
         toolWearFactors := wear;
         vibrationBaseline := rv * 0.5 + 0.1;
         temperatureBaseline := rt * 10 + 45 |}.

End Generator.

(** ** The roster *)

Local Open Scope string_scope.

(** [a || b || c] for two optional strings and a default *)
Definition getLocationConfig (env : ProcessEnv) : string * string :=
  (match FACTORY_NAME env with
   | Some s => if String.eqb s EmptyString then str_or (ENTERPRISE_NAME env) "demo-factory" else s
   | None => str_or (ENTERPRISE_NAME env) "demo-factory"
   end,
   match SITE_NAME env with
   | Some s => if String.eqb s EmptyString then str_or (PLANT_NAME env) "plant1" else s
   | None => str_or (PLANT_NAME env) "plant1"
   end).

Definition mkMachine (id name manuf mdl ent st ar cell : string)
    (status : OperationalStatus) (rpm : Q) (ax : nat)
    (power rapid : Q) (envelope : string) : CNCMachineConfig :=
  {| machine_id := id; display_name := name; manufacturer := manuf; model := mdl;
     enterprise := ent; site := st; area := ar; work_cell := cell;
     operational_status := status;
     capabilities := {| spindle_rpm_max := rpm; axes := ax; tool_changer := true;
                        simultaneous_axes := ax; coolant_system := true |};
     specifications := {| spindle_power_kw := power;
                          rapid_traverse_mm_min := rapid;
                          work_envelope := envelope |} |}.

Definition generateMachineConfigs (env : ProcessEnv) : list CNCMachineConfig :=
  let '(enterprise, site) := getLocationConfig env in
  [ mkMachine "cnc-001" "Haas VF-2 Mill #1" "Haas" "VF-2" enterprise site
      "machining" "cell-01" st_operational 8100 3 15 25400 "762x406x508";
    mkMachine "cnc-002" "Haas VF-2 Mill #2" "Haas" "VF-2" enterprise site
      "machining" "cell-01" st_operational 8100 3 15 25400 "762x406x508";
    mkMachine "cnc-003" "DMG Mori NLX2500 Lathe #1" "DMG Mori" "NLX2500" enterprise site
      "turning" "cell-02" st_operational 4500 2 22 30000 "400x800x350";
    mkMachine "cnc-004" "DMG Mori NLX2500 Lathe #2" "DMG Mori" "NLX2500" enterprise site
      "turning" "cell-02" st_operational 4500 2 22 30000 "400x800x350";
    mkMachine "cnc-005" "Mazak Integrex i-300 Multi-Axis #1" "Mazak" "Integrex i-300"
      enterprise site
      "multi-axis" "cell-03" st_operational 6000 5 30 36000 "500x850x450";
    mkMachine "cnc-006" "Mazak Integrex i-300 Multi-Axis #2" "Mazak" "Integrex i-300"
      enterprise site
      "multi-axis" "cell-03" st_maintenance 6000 5 30 36000 "500x850x450";
    mkMachine "cnc-007" "Okuma Genos L250-E Lathe" "Okuma" "Genos L250-E" enterprise site
      "turning" "cell-04" st_operational 5000 2 18.5 24000 "350x780x300";
    mkMachine "cnc-008" "Doosan DNM 500 Mill" "Doosan" "DNM 500" enterprise site
      "machining" "cell-05" st_operational 12000 3 11 36000 "500x400x330";
    mkMachine "cnc-009" "Fanuc Robodrill α-T14iE Mill" "Fanuc" "Robodrill α-T14iE"
      enterprise site
      "precision" "cell-06" st_operational 24000 3 7.5 60000 "350x250x220";
    mkMachine "cnc-010" "Mori Seiki NV5000 DCG Mill" "Mori Seiki" "NV5000 DCG"
      enterprise site
      "precision" "cell-06" st_offline 15000 5 22 50000 "560x510x460" ].

(** [CNC_MACHINES], evaluated once when the module is loaded. *)
Definition CNC_MACHINES (env : ProcessEnv) : list CNCMachineConfig :=
  generateMachineConfigs env.

(** ** CNCDataGeneratorFactory *)

(** [Map<string, CNCDataGenerator>] *)
Definition Generators : Type := list (string * CNCDataGenerator).

(** [CNC_MACHINES.forEach(machine => generators.set(machine.machine_id, new ...))] *)
Fixpoint new_generators (ms : list CNCMachineConfig) (acc : Generators) : M Generators :=
  match ms with
  | [] => ret acc
  | m :: rest =>
      g <- new_CNCDataGenerator m ;;
      new_generators rest (Map_set String.eqb acc (machine_id m) g)
  end.

Definition new_CNCDataGeneratorFactory (roster : list CNCMachineConfig) : M Generators :=
  new_generators roster [].

Section Factory.
Variable Math_sin : Q -> Q.
Variable parseFloat : string -> jsnum.
Variable toISOString : Z -> string.
Variable env : ProcessEnv.
(** The array [CNC_MACHINES] that the module exports. *)
Variable roster : list CNCMachineConfig.

Definition find_machine (machineId : string) : option CNCMachineConfig :=
  Array_find (fun m => String.eqb (machine_id m) machineId) roster.

Definition is_operational_id (machineId : string) : bool :=
  match find_machine machineId with
  | Some machine => negb (status_eqb (operational_status machine) st_offline)
  | None => false
  end.

(** [generateOperationalReadings]: the generators are visited in insertion
    order; each one that is visited is replaced by its state after
    [generateSensorReadings].  Returns the readings map and the generators. *)
Fixpoint generateOperationalReadings_loop (gens : Generators)
    (operationalReadings : list (string * list SensorReading))
  : M (list (string * list SensorReading) * Generators) :=
  match gens with
  | [] => ret (operationalReadings, [])
  | (machineId, generator) :: rest =>
      if is_operational_id machineId then
        out <- generateSensorReadings Math_sin parseFloat toISOString env generator ;;
        res <- generateOperationalReadings_loop rest
                 (Map_set String.eqb operationalReadings machineId (fst out)) ;;
        ret (fst res, (machineId, snd out) :: snd res)
      else
        res <- generateOperationalReadings_loop rest operationalReadings ;;
        ret (fst res, (machineId, generator) :: snd res)
  end.

Definition generateOperationalReadings (gens : Generators)
  : M (list (string * list SensorReading) * Generators) :=
  generateOperationalReadings_loop gens [].

End Factory.

(** ** UMHAdapter (umh-adapter.ts) *)

Record SensorReadingWithMachine : Type := {
  r_topicPath : string;
  r_payload : MQTTPayload;
  r_machine : CNCMachineConfig;
  sensorType : string
}.

(** [!v] is false exactly for these. *)
Definition truthy (v : jsval) : bool :=
  match v with
  | VUndefined | VNull => false
  | VBool b => b
  | VNum (Fin q) => negb (Qeq_bool q 0)
  | VNum NaN => false
  | VNum _ => true
  | VStr s => negb (String.eqb s EmptyString)
  end.

Definition typeof_number (v : jsval) : bool :=
  match v with VNum _ => true | _ => false end.

Definition nonempty (s : string) : bool := negb (String.eqb s EmptyString).

Section Adapter.
(** [new Date(s)]: the time value of the date that [s] denotes, or [None]
    for an invalid date. *)
Variable Date_parse : string -> option Z.

(** [new Date(s).getTime()] *)
Definition getTime_of (s : string) : jsnum :=
  match Date_parse s with
  | Some t => num t
  | None => NaN
  end.

Definition convertToUMHMessage (reading : SensorReadingWithMachine) : UMHMessage :=
  let payload := r_payload reading in
  let machine := r_machine reading in
  let timestamp_ms := getTime_of (timestamp payload) in
  let umhPayload :=
    {| umh_value := value payload; timestamp_ms := VNum timestamp_ms |} in
  let location_path :=
    buildLocationPath (enterprise machine) (site machine) (area machine)
                      (work_cell machine) (machine_id machine) in
  let tag_name := replace_hyphens (sensorType reading) in
  let umhMetadata :=
    {| location_path := location_path;
       data_contract := UMH_DATA_CONTRACTS_RAW;
       tag_name := tag_name;
       umh_unit := unit_ payload;
       umh_quality := quality payload;
       umh_source := Some (source payload);
       original_metadata := metadata payload |} in
  let topic :=
    buildUMHTopic (enterprise machine) (site machine) (area machine)
                  (work_cell machine) (machine_id machine)
                  UMH_DATA_CONTRACTS_RAW tag_name in
  {| umh_payload := Some umhPayload;
     umh_metadata := Some umhMetadata;
     topic := Some topic |}.

Definition convertMultipleReadings (readings : list SensorReadingWithMachine)
  : list UMHMessage :=
  List.map convertToUMHMessage readings.

(** [parts[parts.length - 1]] of [topicPath.split('/')] *)
Definition extractSensorType (topicPath : string) : string :=
  last_part (split "/"%char topicPath).

End Adapter.

Definition push_if (c : bool) (e : string) (errors : list string) : list string :=
  if c then (errors ++ [e])%list else errors.

Definition validate_errors (message : UMHMessage) : list string :=
  let errors := [] in
  let errors :=
    match umh_payload message with
    | None => push_if true "Missing payload" errors
    | Some p =>
        let errors :=
          push_if (match umh_value p with VUndefined | VNull => true | _ => false end)
                  "Payload missing value" errors in
        push_if (negb (truthy (timestamp_ms p)) || negb (typeof_number (timestamp_ms p)))
                "Payload missing or invalid timestamp_ms" errors
    end in
  let errors :=
    match umh_metadata message with
    | None => push_if true "Missing metadata" errors
    | Some md =>
        let errors := push_if (negb (nonempty (location_path md)))
                              "Metadata missing location_path" errors in
        let errors := push_if (negb (nonempty (data_contract md)))
                              "Metadata missing data_contract" errors in
        push_if (negb (nonempty (tag_name md)))
                "Metadata missing tag_name" errors
    end in
  match topic message with
  | None => push_if true "Missing topic" errors
  | Some t =>
      if nonempty t then
        push_if (negb (String.prefix "umh.v1." t))
                "Topic does not start with umh.v1." errors
      else push_if true "Missing topic" errors
  end.

Record Validation : Type := {
  valid : bool;
  errors : list string
}.

Definition validateUMHMessage (message : UMHMessage) : Validation :=
  let errs := validate_errors message in
  {| valid := (List.length errs =? 0)%nat; errors := errs |}.

(** ** UMHClient (mqtt-client.ts) *)

(** The result of a call that may throw. *)
Inductive Outcome (A : Type) : Type :=
| Returned (a : A)
| Threw (e : Thrown).
Arguments Returned {A} a.
Arguments Threw {A} e.

(** [`${n}`] for an integer *)
Definition string_of_Z (n : Z) : string := NilZero.string_of_int (Z.to_int n).

(** [error instanceof Error ? error : new Error(String(error))], as its message *)
Definition as_Error_message (e : Thrown) : string :=
  match e with
  | ErrorObj m => m
  | NonError s => s
  end.

(** [error.message] in a [catch (error: any)] clause *)
Definition message_of (e : Thrown) : string :=
  match e with
  | ErrorObj m => m
  | NonError _ => "undefined"
  end.

(** [a || d] for a number option; 0 (and a missing option) is falsy. *)
Definition Z_or (a : option Z) (d : Z) : Z :=
  match a with
  | Some n => if (n =? 0)%Z then d else n
  | None => d
  end.

Record UMHClientOptions : Type := {
  opt_umhCoreUrl : string;
  opt_timeout : option Z;
  opt_retries : option Z
}.

Record UMHClient : Type := {
  umhCoreUrl : string;
  timeout : Z;
  retries : Z
}.

Definition new_UMHClient (options : UMHClientOptions) : UMHClient :=
  {| umhCoreUrl := opt_umhCoreUrl options;
     timeout := Z_or (opt_timeout options) 5000;
     retries := Z_or (opt_retries options) 3 |}.

Definition topic_text (message : UMHMessage) : string :=
  match topic message with Some t => t | None => "undefined" end.

Definition connect (client : UMHClient) : M (Outcome unit) :=
  _ <- log log_info "Connecting to UMH-Core..." [umhCoreUrl client] ;;
  r <- http_get "/health" ;;
  r' <- match r with
        | SinkOk _ => ret r
        | SinkFail _ => http_get "/"
        end ;;
  match r' with
  | SinkOk status =>
      _ <- log log_info "Successfully connected to UMH-Core" [string_of_Z status] ;;
      ret (Returned tt)
  | SinkFail e =>
      _ <- log log_error "Failed to connect to UMH-Core"
             [as_Error_message e; umhCoreUrl client] ;;
      ret (Threw (ErrorObj ("UMH-Core connection failed: " ++ as_Error_message e)))
  end.

(** [delay = Math.min(1000 * Math.pow(2, attempt - 1), 5000)] *)
Definition backoff_delay (attempt : Z) : Z :=
  Z.min (1000 * 2 ^ (attempt - 1)) 5000.

(** The [for (attempt = ...; attempt <= this.retries; attempt++)] loop of
    [publish], with [remaining] iterations left; it returns [None] when an
    attempt succeeded and the last error otherwise. *)
Fixpoint publish_attempts (client : UMHClient) (message : UMHMessage)
    (remaining : nat) (attempt : Z) (lastError : option string)
  : M (option (option string)) :=
  match remaining with
  | O => ret (Some lastError)
  | S remaining' =>
      _ <- Date_now ;;
      r <- http_post "/api/v1/data" [message] ;;
      match r with
      | SinkOk status =>
          _ <- log log_debug "Successfully published to UMH-Core"
                 [topic_text message; string_of_Z attempt; string_of_Z status] ;;
          ret None
      | SinkFail e =>
          let lastError := as_Error_message e in
          _ <- log log_warn "Failed to publish to UMH-Core"
                 [topic_text message; string_of_Z attempt;
                  string_of_Z (retries client); lastError] ;;
          _ <- (if (attempt <? retries client)%Z
                then sleep (backoff_delay attempt)
                else ret tt) ;;
          publish_attempts client message remaining' (attempt + 1)%Z (Some lastError)
      end
  end.

Definition publish (client : UMHClient) (message : UMHMessage) : M (Outcome unit) :=
  r <- publish_attempts client message (Z.to_nat (retries client)) 1%Z None ;;
  match r with
  | None => ret (Returned tt)
  | Some lastError =>
      ret (Threw (ErrorObj
             ("Failed to publish to UMH-Core after " ++ string_of_Z (retries client)
              ++ " attempts: "
              ++ match lastError with Some m => m | None => "undefined" end)))
  end.

(** [messages.map(msg => ({..., timestamp: Date.now()}))]: one clock read each *)
Fixpoint stamp_all (messages : list UMHMessage) : M unit :=
  match messages with
  | [] => ret tt
  | _ :: rest => _ <- Date_now ;; stamp_all rest
  end.

Definition publishBatch (client : UMHClient) (messages : list UMHMessage)
  : M (Outcome unit) :=
  _ <- stamp_all messages ;;
  r <- http_post "/api/v1/data/batch" messages ;;
  match r with
  | SinkOk status =>
      _ <- log log_debug "Successfully published batch to UMH-Core"
             [string_of_Z (Z.of_nat (List.length messages)); string_of_Z status] ;;
      ret (Returned tt)
  | SinkFail e =>
      _ <- log log_error "Failed to publish batch to UMH-Core"
             [string_of_Z (Z.of_nat (List.length messages)); as_Error_message e] ;;
      ret (Threw e)
  end.

Definition disconnect (client : UMHClient) : M unit :=
  log log_info "Disconnecting from UMH-Core" [].

Definition validation_errors (v : Validation) : list string := errors v.

(** [errors.push(error)], keeping the last 10 *)
Definition push_error (errs : list string) (error : string) : list string :=
  let errs' := (errs ++ [error])%list in
  if (10 <? List.length errs')%nat
  then skipn (List.length errs' - 10) errs'
  else errs'.

(** ** UMHSimulationManager (umh-index.ts) *)

Module UMH.

Record UMHSimulationConfig : Type := {
  cfg_umhCoreUrl : string;
  publishInterval : Z;          (* milliseconds *)
  enableLogging : option bool;
  batchSize : option Z
}.

Record SimulationMetrics : Type := {
  totalMessagesPublished : Z;
  messagesPerSecond : jsnum;
  activeMachines : Z;
  uptime : jsnum;               (* seconds *)
  errors : list string;
  batchesSent : Z
}.

Record UMHSimulationManager : Type := {
  umhClient : option UMHClient;
  dataFactory : Generators;
  publishTimer : option Z;      (* the period of the interval timer, when set *)
  config : UMHSimulationConfig;
  isRunning : bool;
  startTime : Z;
  metrics : SimulationMetrics
}.

Definition with_metrics (s : UMHSimulationManager) (m : SimulationMetrics)
  : UMHSimulationManager :=
  {| umhClient := umhClient s; dataFactory := dataFactory s;
     publishTimer := publishTimer s; config := config s;
     isRunning := isRunning s; startTime := startTime s; metrics := m |}.

Definition with_dataFactory (s : UMHSimulationManager) (g : Generators)
  : UMHSimulationManager :=
  {| umhClient := umhClient s; dataFactory := g;
     publishTimer := publishTimer s; config := config s;
     isRunning := isRunning s; startTime := startTime s; metrics := metrics s |}.

Definition addError (s : UMHSimulationManager) (error : string) : UMHSimulationManager :=
  let m := metrics s in
  with_metrics s
    {| totalMessagesPublished := totalMessagesPublished m;
       messagesPerSecond := messagesPerSecond m;
       activeMachines := activeMachines m;
       uptime := uptime m;
       errors := push_error (errors m) error;
       batchesSent := batchesSent m |}.

Definition add_published (s : UMHSimulationManager) (n batches : Z)
  : UMHSimulationManager :=
  let m := metrics s in
  with_metrics s
    {| totalMessagesPublished := (totalMessagesPublished m + n)%Z;
       messagesPerSecond := messagesPerSecond m;
       activeMachines := activeMachines m;
       uptime := uptime m;
       errors := errors m;
       batchesSent := (batchesSent m + batches)%Z |}.

Definition set_activeMachines (s : UMHSimulationManager) (n : Z)
  : UMHSimulationManager :=
  let m := metrics s in
  with_metrics s
    {| totalMessagesPublished := totalMessagesPublished m;
       messagesPerSecond := messagesPerSecond m;
       activeMachines := n;
       uptime := uptime m;
       errors := errors m;
       batchesSent := batchesSent m |}.

Definition updateMetrics (s : UMHSimulationManager) : M UMHSimulationManager :=
  now <- Date_now ;;
  let uptimeSeconds := seconds_between now (startTime s) in
  let m := metrics s in
  ret (with_metrics s
    {| totalMessagesPublished := totalMessagesPublished m;
       messagesPerSecond :=
         if jgt uptimeSeconds (Fin 0)
         then jdiv (Math_round
                      (jmul (jdiv (num (totalMessagesPublished m)) uptimeSeconds)
                            (Fin 100)))
                   (Fin 100)
         else Fin 0;
       activeMachines := activeMachines m;
       uptime := Math_round uptimeSeconds;
       errors := errors m;
       batchesSent := batchesSent m |}).

Definition new_UMHSimulationManager (roster : list CNCMachineConfig)
    (cfg : UMHSimulationConfig) : M UMHSimulationManager :=
  factory <- new_CNCDataGeneratorFactory roster ;;
  t <- Date_now ;;
  ret {| umhClient := None; dataFactory := factory; publishTimer := None;
         config := cfg; isRunning := false; startTime := t;
         metrics := {| totalMessagesPublished := 0; messagesPerSecond := Fin 0;
                       activeMachines := 0; uptime := Fin 0; errors := [];
                       batchesSent := 0 |} |}.

Section Tick.
Variable Math_sin : Q -> Q.
Variable parseFloat : string -> jsnum.
Variable toISOString : Z -> string.
Variable Date_parse : string -> option Z.
Variable env : ProcessEnv.
Variable roster : list CNCMachineConfig.

(** The body of [readings.forEach(reading => ...)]: the message, when it
    passes validation. *)
Definition adapt_reading (machineId : string) (machine : CNCMachineConfig)
    (reading : SensorReading) : M (option UMHMessage) :=
  let sensorType := extractSensorType (topicPath reading) in
  let readingWithMachine :=
    {| r_topicPath := topicPath reading; r_payload := payload reading;
       r_machine := machine; sensorType := sensorType |} in
  let umhMessage := convertToUMHMessage Date_parse readingWithMachine in
  let validation := validateUMHMessage umhMessage in
  if negb (valid validation) then
    _ <- log log_warn "Invalid UMH message format"
           (machineId :: sensorType :: validation_errors validation) ;;
    ret None
  else ret (Some umhMessage).

Fixpoint adapt_readings (machineId : string) (machine : CNCMachineConfig)
    (readings : list SensorReading) (umhMessages : list UMHMessage)
  : M (list UMHMessage) :=
  match readings with
  | [] => ret umhMessages
  | reading :: rest =>
      m <- adapt_reading machineId machine reading ;;
      adapt_readings machineId machine rest
        (match m with
         | Some umhMessage => (umhMessages ++ [umhMessage])%list
         | None => umhMessages
         end)
  end.

(** [allReadings.forEach((readings, machineId) => ...)] *)
Fixpoint adapt_all (allReadings : list (string * list SensorReading))
    (umhMessages : list UMHMessage) : M (list UMHMessage) :=
  match allReadings with
  | [] => ret umhMessages
  | (machineId, readings) :: rest =>
      match find_machine roster machineId with
      | None =>
          _ <- log log_warn "Machine configuration not found" [machineId] ;;
          adapt_all rest umhMessages
      | Some machine =>
          msgs <- adapt_readings machineId machine readings umhMessages ;;
          adapt_all rest msgs
      end
  end.

(** [for (const message of umhMessages) { await publish(message); total++ }];
    a throw leaves the loop with the metrics as they stand. *)
Fixpoint publish_each (client : UMHClient) (s : UMHSimulationManager)
    (umhMessages : list UMHMessage) : M (UMHSimulationManager * option Thrown) :=
  match umhMessages with
  | [] => ret (s, None)
  | message :: rest =>
      r <- publish client message ;;
      match r with
      | Returned _ => publish_each client (add_published s 1 0) rest
      | Threw e => ret (s, Some e)
      end
  end.

(** [for (let i = 0; i < umhMessages.length; i += batchSize)], on what is
    left of the array from [i] on. *)
Fixpoint publish_batches (fuel : nat) (client : UMHClient) (s : UMHSimulationManager)
    (batchSize : nat) (remaining : list UMHMessage)
  : M (UMHSimulationManager * option Thrown) :=
  match fuel, remaining with
  | _, [] => ret (s, None)
  | O, _ => ret (s, None)
  | S fuel', _ =>
      let batch := firstn batchSize remaining in
      r <- publishBatch client batch ;;
      match r with
      | Returned _ =>
          publish_batches fuel' client
            (add_published s (Z.of_nat (List.length batch)) 1)
            batchSize (skipn batchSize remaining)
      | Threw e => ret (s, Some e)
      end
  end.

Definition publishSensorData (s : UMHSimulationManager) : M UMHSimulationManager :=
  match umhClient s with
  | None => ret s
  | Some client =>
      if negb (isRunning s) then ret s
      else
        out <- generateOperationalReadings Math_sin parseFloat toISOString env roster
                 (dataFactory s) ;;
        let allReadings := fst out in
        let s := with_dataFactory s (snd out) in
        umhMessages <- adapt_all allReadings [] ;;
        r <- (if (0 <? List.length umhMessages)%nat then
                let batchSize := Z_or (batchSize (config s)) 1 in
                if (1 <? batchSize)%Z
                   && (batchSize <? Z.of_nat (List.length umhMessages))%Z
                then publish_batches (List.length umhMessages) client s
                       (Z.to_nat batchSize) umhMessages
                else publish_each client s umhMessages
              else ret (s, None)) ;;
        match r with
        | (s, None) =>
            let s := set_activeMachines s (Z.of_nat (List.length allReadings)) in
            s <- updateMetrics s ;;
            _ <- log log_debug "Published sensor data to UMH-Core"
                   [string_of_Z (Z.of_nat (List.length allReadings));
                    string_of_Z (Z.of_nat (List.length umhMessages));
                    string_of_Z (batchesSent (metrics s));
                    string_of_Z (totalMessagesPublished (metrics s))] ;;
            ret s
        | (s, Some err) =>
            _ <- log log_error "Error during UMH sensor data publishing"
                   [message_of err] ;;
            ret (addError s ("UMH publishing error: " ++ message_of err))
        end
  end.

End Tick.

Definition with_client (s : UMHSimulationManager) (c : option UMHClient)
  : UMHSimulationManager :=
  {| umhClient := c; dataFactory := dataFactory s;
     publishTimer := publishTimer s; config := config s;
     isRunning := isRunning s; startTime := startTime s; metrics := metrics s |}.

Definition with_timer (s : UMHSimulationManager) (t : option Z)
  : UMHSimulationManager :=
  {| umhClient := umhClient s; dataFactory := dataFactory s;
     publishTimer := t; config := config s;
     isRunning := isRunning s; startTime := startTime s; metrics := metrics s |}.

Definition with_running (s : UMHSimulationManager) (b : bool) (t : Z)
  : UMHSimulationManager :=
  {| umhClient := umhClient s; dataFactory := dataFactory s;
     publishTimer := publishTimer s; config := config s;
     isRunning := b; startTime := t; metrics := metrics s |}.

Definition connectUMH (s : UMHSimulationManager)
  : M (UMHSimulationManager * Outcome unit) :=
  _ <- log log_info "Connecting to UMH-Core..." [cfg_umhCoreUrl (config s)] ;;
  let client := new_UMHClient {| opt_umhCoreUrl := cfg_umhCoreUrl (config s);
                                 opt_timeout := Some 10000%Z;
                                 opt_retries := Some 3%Z |} in
  let s := with_client s (Some client) in
  r <- connect client ;;
  match r with
  | Returned _ =>
      _ <- log log_info "Connected to UMH-Core successfully" [] ;;
      ret (s, Returned tt)
  | Threw e =>
      _ <- log log_error "UMH-Core connection error" [message_of e] ;;
      ret (addError s ("UMH-Core connection error: " ++ message_of e), Threw e)
  end.

Definition disconnectUMH (s : UMHSimulationManager) : M unit :=
  match umhClient s with
  | Some client =>
      _ <- disconnect client ;;
      log log_info "Disconnected from UMH-Core" []
  | None => ret tt
  end.

(** [setInterval(() => this.publishSensorData(), publishInterval)] *)
Definition startPublishing (s : UMHSimulationManager) : M UMHSimulationManager :=
  let s := with_timer s (Some (publishInterval (config s))) in
  _ <- log log_info "Started publishing sensor data to UMH-Core"
         [string_of_Z (publishInterval (config s)) ++ "ms";
          string_of_Z (Z_or (batchSize (config s)) 1)] ;;
  ret s.

Definition cleanup (s : UMHSimulationManager) : M UMHSimulationManager :=
  let s := with_timer s None in
  _ <- disconnectUMH s ;;
  ret (with_running s false (startTime s)).

Definition start (s : UMHSimulationManager)
  : M (UMHSimulationManager * Outcome unit) :=
  if isRunning s then
    ret (s, Threw (ErrorObj "UMH simulation is already running"))
  else
    _ <- log log_info "Starting UMH-Core Direct Integration CNC Simulation Service" [] ;;
    sr <- connectUMH s ;;
    match sr with
    | (s, Returned _) =>
        s <- startPublishing s ;;
        t <- Date_now ;;
        let s := with_running s true t in
        _ <- log log_info "UMH CNC simulation started successfully" [] ;;
        ret (s, Returned tt)
    | (s, Threw e) =>
        _ <- log log_error "Failed to start UMH simulation" [message_of e] ;;
        s <- cleanup s ;;
        ret (s, Threw e)
    end.

Definition stop (s : UMHSimulationManager) : M UMHSimulationManager :=
  if negb (isRunning s) then ret s
  else
    _ <- log log_info "Stopping UMH CNC simulation..." [] ;;
    let s := with_running s false (startTime s) in
    let s := with_timer s None in
    _ <- disconnectUMH s ;;
    _ <- log log_info "UMH CNC simulation stopped" [] ;;
    ret s.

(** The interval timer fires [n] times, one tick after the other (in the
    model a tick ends before the next one begins). *)
Section Timer.
Variable tick : UMHSimulationManager -> M UMHSimulationManager.

Fixpoint timer_fires (n : nat) (s : UMHSimulationManager) : M UMHSimulationManager :=
  match n with
  | O => ret s
  | S n' =>
      match publishTimer s with
      | None => ret s
      | Some _ => s' <- tick s ;; timer_fires n' s'
      end
  end.
End Timer.

(** The static [startSimulation], on the static [instance] field. *)
Definition startSimulation (roster : list CNCMachineConfig)
    (instance : option UMHSimulationManager) (cfg : UMHSimulationConfig)
  : M (option UMHSimulationManager * Outcome unit) :=
  if match instance with Some i => isRunning i | None => false end then
    ret (instance, Threw (ErrorObj "UMH simulation is already running"))
  else
    s <- new_UMHSimulationManager roster cfg ;;
    sr <- start s ;;
    ret (Some (fst sr), snd sr).

End UMH.

(** ** SimulationManager (simulation-service.ts) *)

Module MQTT.

Record SimulationConfig : Type := {
  mqttBrokerUrl : string;
  publishInterval : Z;          (* milliseconds *)
  enableLogging : option bool;
  outputFormat : option string  (* 'uns' | 'umh' | 'both' *)
}.

Record SimulationMetrics : Type := {
  totalMessagesPublished : Z;
  messagesPerSecond : jsnum;
  activeMachines : Z;
  uptime : jsnum;               (* seconds *)
  errors : list string
}.

Record SimulationManager : Type := {
  mqttClient : option string;   (* the client, by the URL it was created for *)
  dataFactory : Generators;
  publishTimer : option Z;
  config : SimulationConfig;
  isRunning : bool;
  startTime : Z;
  metrics : SimulationMetrics
}.

Definition with_metrics (s : SimulationManager) (m : SimulationMetrics)
  : SimulationManager :=
  {| mqttClient := mqttClient s; dataFactory := dataFactory s;
     publishTimer := publishTimer s; config := config s;
     isRunning := isRunning s; startTime := startTime s; metrics := m |}.

Definition with_dataFactory (s : SimulationManager) (g : Generators)
  : SimulationManager :=
  {| mqttClient := mqttClient s; dataFactory := g;
     publishTimer := publishTimer s; config := config s;
     isRunning := isRunning s; startTime := startTime s; metrics := metrics s |}.

Definition with_client (s : SimulationManager) (c : option string)
  : SimulationManager :=
  {| mqttClient := c; dataFactory := dataFactory s;
     publishTimer := publishTimer s; config := config s;
     isRunning := isRunning s; startTime := startTime s; metrics := metrics s |}.

Definition with_timer (s : SimulationManager) (t : option Z) : SimulationManager :=
  {| mqttClient := mqttClient s; dataFactory := dataFactory s;
     publishTimer := t; config := config s;
     isRunning := isRunning s; startTime := startTime s; metrics := metrics s |}.

Definition with_running (s : SimulationManager) (b : bool) (t : Z)
  : SimulationManager :=
  {| mqttClient := mqttClient s; dataFactory := dataFactory s;
     publishTimer := publishTimer s; config := config s;
     isRunning := b; startTime := t; metrics := metrics s |}.

Definition addError (s : SimulationManager) (error : string) : SimulationManager :=
  let m := metrics s in
  with_metrics s
    {| totalMessagesPublished := totalMessagesPublished m;
       messagesPerSecond := messagesPerSecond m;
       activeMachines := activeMachines m;
       uptime := uptime m;
       errors := push_error (errors m) error |}.

Definition count_published (s : SimulationManager) : SimulationManager :=
  let m := metrics s in
  with_metrics s
    {| totalMessagesPublished := (totalMessagesPublished m + 1)%Z;
       messagesPerSecond := messagesPerSecond m;
       activeMachines := activeMachines m;
       uptime := uptime m;
       errors := errors m |}.

Definition set_activeMachines (s : SimulationManager) (n : Z) : SimulationManager :=
  let m := metrics s in
  with_metrics s
    {| totalMessagesPublished := totalMessagesPublished m;
       messagesPerSecond := messagesPerSecond m;
       activeMachines := n;
       uptime := uptime m;
       errors := errors m |}.

Definition updateMetrics (s : SimulationManager) : M SimulationManager :=
  now <- Date_now ;;
  let uptimeSeconds := seconds_between now (startTime s) in
  let m := metrics s in
  ret (with_metrics s
    {| totalMessagesPublished := totalMessagesPublished m;
       messagesPerSecond :=
         if jgt uptimeSeconds (Fin 0)
         then jdiv (Math_round
                      (jmul (jdiv (num (totalMessagesPublished m)) uptimeSeconds)
                            (Fin 100)))
                   (Fin 100)
         else Fin 0;
       activeMachines := activeMachines m;
       uptime := Math_round uptimeSeconds;
       errors := errors m |}).

Definition new_SimulationManager (roster : list CNCMachineConfig)
    (cfg : SimulationConfig) : M SimulationManager :=
  factory <- new_CNCDataGeneratorFactory roster ;;
  t <- Date_now ;;
  ret {| mqttClient := None; dataFactory := factory; publishTimer := None;
         config := cfg; isRunning := false; startTime := t;
         metrics := {| totalMessagesPublished := 0; messagesPerSecond := Fin 0;
                       activeMachines := 0; uptime := Fin 0; errors := [] |} |}.

(** [connectMQTT]: the promise resolves on the client's 'connect' event and
    rejects on its 'error' event, whichever the broker causes first. *)
Definition connectMQTT (s : SimulationManager)
  : M (SimulationManager * Outcome unit) :=
  _ <- log log_info "Connecting to MQTT broker..." [mqttBrokerUrl (config s)] ;;
  let s := with_client s (Some (mqttBrokerUrl (config s))) in
  r <- sink_request (MqttConnect (mqttBrokerUrl (config s))) ;;
  match r with
  | SinkOk _ =>
      _ <- log log_info "Connected to MQTT broker" [] ;;
      ret (s, Returned tt)
  | SinkFail e =>
      _ <- log log_error "MQTT connection error" [message_of e] ;;
      ret (addError s ("MQTT connection error: " ++ message_of e), Threw e)
  end.

Definition disconnectMQTT (s : SimulationManager) : M unit :=
  match mqttClient s with
  | Some _ => log log_info "Disconnected from MQTT broker" []
  | None => ret tt
  end.

Definition startPublishing (s : SimulationManager) : M SimulationManager :=
  let s := with_timer s (Some (publishInterval (config s))) in
  _ <- log log_info "Started publishing sensor data"
         [string_of_Z (publishInterval (config s)) ++ "ms"] ;;
  ret s.

Definition cleanup (s : SimulationManager) : M SimulationManager :=
  let s := with_timer s None in
  _ <- disconnectMQTT s ;;
  ret (with_running s false (startTime s)).

Definition start (s : SimulationManager) : M (SimulationManager * Outcome unit) :=
  if isRunning s then
    ret (s, Threw (ErrorObj "Simulation is already running"))
  else
    _ <- log log_info "Starting CNC Machine Simulation Service" [] ;;
    sr <- connectMQTT s ;;
    match sr with
    | (s, Returned _) =>
        s <- startPublishing s ;;
        t <- Date_now ;;
        let s := with_running s true t in
        _ <- log log_info "CNC simulation started successfully" [] ;;
        ret (s, Returned tt)
    | (s, Threw e) =>
        _ <- log log_error "Failed to start simulation" [message_of e] ;;
        s <- cleanup s ;;
        ret (s, Threw e)
    end.

Definition stop (s : SimulationManager) : M SimulationManager :=
  if negb (isRunning s) then ret s
  else
    _ <- log log_info "Stopping CNC simulation..." [] ;;
    let s := with_running s false (startTime s) in
    let s := with_timer s None in
    _ <- disconnectMQTT s ;;
    _ <- log log_info "CNC simulation stopped" [] ;;
    ret s.

(** [publishMessage]: hands the message to the client; the callback runs
    later, see [publish_callback]. *)
Definition publishMessage (topic : string) (payload : MQTTPayload + UMHPayload)
  : M unit :=
  emit (MqttPublish topic payload).

(** The callback that the client calls once the broker has answered (or
    failed to answer) the message published on [topic]. *)
Definition publish_callback (s : SimulationManager) (topic : string)
    (err : option Thrown) : M SimulationManager :=
  match err with
  | Some e =>
      _ <- log log_error "Failed to publish message" [topic; message_of e] ;;
      ret (addError s ("Publish error for " ++ topic ++ ": " ++ message_of e))
  | None => ret (count_published s)
  end.

(** The static [startSimulation], on the static [instance] field. *)
Definition startSimulation (roster : list CNCMachineConfig)
    (instance : option SimulationManager) (cfg : SimulationConfig)
  : M (option SimulationManager * Outcome unit) :=
  if match instance with Some i => isRunning i | None => false end then
    ret (instance, Threw (ErrorObj "Simulation is already running"))
  else
    s <- new_SimulationManager roster cfg ;;
    sr <- start s ;;
    ret (Some (fst sr), snd sr).

Section Tick.
Variable Math_sin : Q -> Q.
Variable parseFloat : string -> jsnum.
Variable toISOString : Z -> string.
Variable Date_parse : string -> option Z.
Variable env : ProcessEnv.
Variable roster : list CNCMachineConfig.

(** The body of [readings.forEach(reading => ...)] *)
Definition publish_reading (outputFormat : string) (machineId : string)
    (machine : CNCMachineConfig) (reading : SensorReading) : M unit :=
  _ <- (if String.eqb outputFormat "uns" || String.eqb outputFormat "both"
        then publishMessage (topicPath reading) (inl (payload reading))
        else ret tt) ;;
  if String.eqb outputFormat "umh" || String.eqb outputFormat "both" then
    let sensorType := extractSensorType (topicPath reading) in
    let readingWithMachine :=
      {| r_topicPath := topicPath reading; r_payload := payload reading;
         r_machine := machine; sensorType := sensorType |} in
    let umhMessage := convertToUMHMessage Date_parse readingWithMachine in
    let validation := validateUMHMessage umhMessage in
    if negb (valid validation) then
      log log_warn "Invalid UMH message format"
        (machineId :: sensorType :: validation_errors validation)
    else
      match topic umhMessage, umh_payload umhMessage with
      | Some t, Some p => publishMessage t (inr p)
      | _, _ => ret tt
      end
  else ret tt.

Fixpoint publish_readings (outputFormat : string) (machineId : string)
    (machine : CNCMachineConfig) (readings : list SensorReading) : M unit :=
  match readings with
  | [] => ret tt
  | reading :: rest =>
      _ <- publish_reading outputFormat machineId machine reading ;;
      publish_readings outputFormat machineId machine rest
  end.

Fixpoint publish_all (outputFormat : string)
    (allReadings : list (string * list SensorReading)) : M unit :=
  match allReadings with
  | [] => ret tt
  | (machineId, readings) :: rest =>
      match find_machine roster machineId with
      | None =>
          _ <- log log_warn "Machine configuration not found" [machineId] ;;
          publish_all outputFormat rest
      | Some machine =>
          _ <- publish_readings outputFormat machineId machine readings ;;
          publish_all outputFormat rest
      end
  end.

Definition publishSensorData (s : SimulationManager) : M SimulationManager :=
  match mqttClient s with
  | None => ret s
  | Some _ =>
      if negb (isRunning s) then ret s
      else
        out <- generateOperationalReadings Math_sin parseFloat toISOString env roster
                 (dataFactory s) ;;
        let allReadings := fst out in
        let s := with_dataFactory s (snd out) in
        let outputFormat := str_or (outputFormat (config s)) "uns" in
        _ <- publish_all outputFormat allReadings ;;
        let s := set_activeMachines s (Z.of_nat (List.length allReadings)) in
        s <- updateMetrics s ;;
        _ <- log log_debug "Published sensor data"
               [string_of_Z (Z.of_nat (List.length allReadings)); "0"; outputFormat;
                string_of_Z (totalMessagesPublished (metrics s))] ;;
        ret s
  end.

(** What happens to a manager: its timer fires, or the client reports on a
    message published earlier. *)
Inductive Step : Type :=
| Tick
| Callback (topic : string) (err : option Thrown).

Definition step (s : SimulationManager) (e : Step) : M SimulationManager :=
  match e with
  | Tick =>
      match publishTimer s with
      | Some _ => publishSensorData s
      | None => ret s
      end
  | Callback topic err => publish_callback s topic err
  end.

Fixpoint run (steps : list Step) (s : SimulationManager) : M SimulationManager :=
  match steps with
  | [] => ret s
  | e :: rest => s' <- step s e ;; run rest s'
  end.

(** A run of the service: [startSimulation] on a fresh process, then the
    steps; [None] when the start failed (the caller exits). *)
Definition session (cfg : SimulationConfig) (steps : list Step)
  : M (option SimulationManager) :=
  r <- startSimulation roster None cfg ;;
  match r with
  | (Some s, Returned _) => s' <- run steps s ;; ret (Some s')
  | _ => ret None
  end.

End Tick.

End MQTT.

(** ** The words of the specification about validation *)

Definition value_missing (v : jsval) : bool :=
  match v with VUndefined | VNull => true | _ => false end.

Definition finite_number (v : jsval) : bool :=
  match v with VNum n => isFinite n | _ => false end.

(** "Reject if value is missing, if the timestamp is not a finite number, or
    if required identity fields are empty" (location path, tag name, topic). *)
Definition spec_must_reject (m : UMHMessage) : bool :=
  match umh_payload m, umh_metadata m, topic m with
  | Some p, Some md, Some t =>
      value_missing (umh_value p)
      || negb (finite_number (timestamp_ms p))
      || String.eqb (location_path md) EmptyString
      || String.eqb (tag_name md) EmptyString
      || String.eqb t EmptyString
  | _, _, _ => true
  end.

(** ** Notions used by the statements *)

(** The ranges of the transition table of the specification, in seconds. *)
Definition spec_duration_range (from to : Phase) : option (Q * Q) :=
  match from, to with
  | idle, loading => Some (30, 150)
  | loading, machining => Some (600, 2400)
  | machining, unloading => Some (15, 75)
  | unloading, idle => Some (60, 360)
  | unloading, maintenance => Some (900, 4500)
  | unloading, error => Some (300, 900)
  | maintenance, idle => Some (60, 360)
  | error, idle => Some (60, 360)
  | _, _ => None
  end.

Definition keys {V : Type} (m : list (string * V)) : list string := List.map fst m.

Definition roster_ids : list string :=
  ["cnc-001"; "cnc-002"; "cnc-003"; "cnc-004"; "cnc-005";
   "cnc-006"; "cnc-007"; "cnc-008"; "cnc-009"; "cnc-010"].

(** A manager that has been started: the client exists, the timer is set,
    and the factory holds one generator per machine of the roster. *)
Definition serving (s : MQTT.SimulationManager) : Prop :=
  MQTT.isRunning s = true /\ MQTT.mqttClient s <> None /\
  MQTT.publishTimer s <> None /\ keys (MQTT.dataFactory s) = roster_ids.

(** The message that the scheduler builds for a reading of [machine]. *)
Definition message_for (Date_parse : string -> option Z)
    (machine : CNCMachineConfig) (reading : SensorReading)
  : UMHMessage :=
  convertToUMHMessage Date_parse
    {| r_topicPath := topicPath reading; r_payload := payload reading;
       r_machine := machine;
       sensorType := extractSensorType (topicPath reading) |}.

(** A message that passed validation, as the specification describes it. *)
Definition passes (m : UMHMessage) : Prop :=
  valid (validateUMHMessage m) = true /\
  exists p t z,
    umh_payload m = Some p /\ topic m = Some t /\ t <> EmptyString /\
    timestamp_ms p = VNum (num z).

(** The answers to the POST requests of a trace, and its timer waits. *)
Fixpoint posts_of (tr : list Event) : list SinkResult :=
  match tr with
  | [] => []
  | Posted _ _ r :: rest => r :: posts_of rest
  | _ :: rest => posts_of rest
  end.

Fixpoint delays_of (tr : list Event) : list Z :=
  match tr with
  | [] => []
  | Slept ms :: rest => ms :: delays_of rest
  | _ :: rest => delays_of rest
  end.

(** The messages that the sink accepted. *)
Fixpoint delivered_of (tr : list Event) : list UMHMessage :=
  match tr with
  | [] => []
  | Posted _ ms (SinkOk _) :: rest => (ms ++ delivered_of rest)%list
  | _ :: rest => delivered_of rest
  end.

(** The messages that were sent to the sink at all. *)
Fixpoint attempted_of (tr : list Event) : list UMHMessage :=
  match tr with
  | [] => []
  | Posted _ ms _ :: rest => (ms ++ attempted_of rest)%list
  | _ :: rest => attempted_of rest
  end.

(** [a; a+1; ...; a+n-1] *)
Definition Zrange (a : Z) (n : nat) : list Z :=
  List.map (fun i => (a + Z.of_nat i)%Z) (seq 0 n).

(** The backoff of the specification: [min(1000 * 2^(attempt-1), 5000)] ms. *)
Definition spec_backoff (attempt : Z) : Z :=
  Z.min (1000 * 2 ^ (attempt - 1)) 5000.

(** The message of the last failure, or [init] when there was none. *)
Definition last_cause (fails : list Thrown) (init : option string) : option string :=
  match rev fails with
  | [] => init
  | e :: _ => Some (as_Error_message e)
  end.

(** The world after one attempt of [publish] that left the events [evs]. *)
Definition after_attempt (w : World) (evs : list Event) : World :=
  mkWorld (random_draws w) (drawn w) (clock_reads w) (S (reads w))
          (sink_results w) (S (requests w)) (trace w ++ evs).

(** The warning that [publish] logs for a failed attempt. *)
Definition warn_failed (client : UMHClient) (message : UMHMessage)
    (attempt : Z) (e : Thrown) : Event :=
  Logged log_warn "Failed to publish to UMH-Core"
    [topic_text message; string_of_Z attempt;
     string_of_Z (retries client); as_Error_message e].

(** ** Concrete inputs *)

Definition sample_env : ProcessEnv :=
  {| FACTORY_NAME := None; ENTERPRISE_NAME := None; SITE_NAME := None;
     PLANT_NAME := None; OUTPUT_FORMAT := None |}.

(** 2023-11-14T22:13:20.000Z *)
Definition sample_now : Z := 1700000000000.

(** [toISOString], [new Date(string)] and [parseFloat] on the arguments that
    occur in the sample runs: the instant [sample_now] and strings of
    decimal digits. *)
Definition sample_toISOString (t : Z) : string := "2023-11-14T22:13:20.000Z".

Definition sample_Date_parse (s : string) : option Z := Some sample_now.

Definition digit_of (c : ascii) : option Z :=
  let n := nat_of_ascii c in
  if (48 <=? n)%nat && (n <=? 57)%nat then Some (Z.of_nat (n - 48)) else None.

Fixpoint digits_value (s : string) (acc : Z) : option Z :=
  match s with
  | EmptyString => Some acc
  | String c r =>
      match digit_of c with
      | Some d => digits_value r (10 * acc + d)%Z
      | None => None
      end
  end.

Definition sample_parseFloat (s : string) : jsnum :=
  match s with
  | EmptyString => NaN
  | _ => match digits_value s 0%Z with Some n => num n | None => NaN end
  end.

(** A stand-in for [Math.sin] in runs that never reach a machining phase. *)
Definition sample_sin (x : Q) : Q := 0.

(** Draws of 1/2, a clock stopped at [sample_now], a sink that accepts. *)
Definition calm_world : World :=
  {| random_draws := fun _ => 1 # 2; drawn := 0;
     clock_reads := fun _ => sample_now; reads := 0;
     sink_results := fun _ => SinkOk 200; requests := 0;
     trace := [] |}.

(** As [calm_world], but the sink refuses its requests number 1, 2 and 3
    (request 0 is the health check of [connect]). *)
Definition refusing_world : World :=
  {| random_draws := fun _ => 1 # 2; drawn := 0;
     clock_reads := fun _ => sample_now; reads := 0;
     sink_results := fun i => if (1 <=? i)%nat && (i <=? 3)%nat
                              then SinkFail (ErrorObj "ECONNREFUSED")
                              else SinkOk 200;
     requests := 0;
     trace := [] |}.

(** The first machine of the roster. *)
Definition cnc_001 : CNCMachineConfig :=
  mkMachine "cnc-001" "Haas VF-2 Mill #1" "Haas" "VF-2" "demo-factory" "plant1"
    "machining" "cell-01" st_operational 8100 3 15 25400 "762x406x508".

(** A generator of [cnc_001] that has been machining since instant 0 with a planned duration of 600 s; tool 1 is worn 25%, tool 2
    5% (draws of 5/6 and 1/6 in the constructor), the others 15%. *)
Definition machining_generator : CNCDataGenerator :=
  {| machine := cnc_001;
     currentCycle := {| phase := machining; duration := Fin 600; startTime := 0 |};
     lastUpdate := 0;
     cycleStartTime := 0;
     totalPartsProduced := 0;
     toolWearFactors :=
       (1%Z, 0.25) :: (2%Z, 0.05)
         :: List.map (fun i => (Z.of_nat i, 0.15)) (seq 3 18);
     vibrationBaseline := 0.35;
     temperatureBaseline := 50 |}.

(** The clock shows [t] at every read. *)
Definition world_at (t : Z) : World :=
  {| random_draws := fun _ => 1 # 2; drawn := 0;
     clock_reads := fun _ => t; reads := 0;
     sink_results := fun _ => SinkOk 200; requests := 0;
     trace := [] |}.

(** The clock shows 599999 at its first read and 600000 from then on: the
    planned end of the phase passes between two reads of one tick. *)
Definition crossing_world : World :=
  {| random_draws := fun _ => 1 # 2; drawn := 0;
     clock_reads := fun i => match i with O => 599999%Z | S _ => 600000%Z end;
     reads := 0;
     sink_results := fun _ => SinkOk 200; requests := 0;
     trace := [] |}.

(** The payload of the reading whose topic ends in [name]. *)
Definition reading_named (name : string) (readings : list SensorReading)
  : option MQTTPayload :=
  match Array_find (fun r => String.eqb (last_part (split "/"%char (topicPath r))) name)
          readings with
  | Some r => Some (payload r)
  | None => None
  end.


(** [n] calls of [generateSensorReadings] in a row on one generator, as the
    scheduler's ticks make them; the readings are dropped. *)
Fixpoint generate_n (Math_sin : Q -> Q) (parseFloat : string -> jsnum)
    (toISOString : Z -> string) (env : ProcessEnv)
    (n : nat) (this : CNCDataGenerator) : M CNCDataGenerator :=
  match n with
  | O => ret this
  | S n' =>
      out <- generateSensorReadings Math_sin parseFloat toISOString env this ;;
      generate_n Math_sin parseFloat toISOString env n' (snd out)
  end.


(** ** Two runs from one state *)

(** The sensors whose payload takes a fresh [Math.random()] draw in a phase. *)
Definition drawn_sensors (p : Phase) : list string :=
  match p with
  | machining =>
      ["spindle-speed"; "spindle-load"; "feedrate"; "vibration"; "temperature";
       "coolant-pressure"; "coolant-flow"]
  | loading | unloading =>
      ["spindle-load"; "vibration"; "temperature"; "coolant-pressure"; "coolant-flow"]
  | _ => ["vibration"; "temperature"; "coolant-pressure"; "coolant-flow"]
  end.

(** Two payloads of the sensor [name] taken in phase [p]: equal, unless the
    sensor draws in that phase. *)
Definition same_unless_drawn (p : Phase) (name : string) (p1 p2 : MQTTPayload) : Prop :=
  p1 = p2 \/ In name (drawn_sensors p).

(** Two readings of one tick position: the same topic, and the same payload
    unless the topic is that of a sensor that draws in phase [p]. *)
Definition same_or_drawn (p : Phase) (r1 r2 : SensorReading) : Prop :=
  topicPath r1 = topicPath r2 /\
  (payload r1 = payload r2 \/
   exists prefix name,
     In name (drawn_sensors p) /\ topicPath r1 = prefix ++ "/" ++ name).

(** Two worlds whose clocks show [now] at every read. *)
Definition agree (now : Z) (w1 w2 : World) : Prop :=
  frozen_clock now w1 /\ frozen_clock now w2.

(** Run in two such worlds, [c1] and [c2] give results related by [R] and
    leave two such worlds. *)
Definition related {A : Type} (now : Z) (R : A -> A -> Prop) (c1 c2 : M A) : Prop :=
  forall w1 w2,
    agree now w1 w2 ->
    R (fst (c1 w1)) (fst (c2 w2)) /\ agree now (snd (c1 w1)) (snd (c2 w2)).

(** A generator of [cnc_001] that went idle at [sample_now] for 200 s. *)
Definition idle_generator : CNCDataGenerator :=
  {| machine := cnc_001;
     currentCycle := {| phase := idle; duration := Fin 200; startTime := sample_now |};
     lastUpdate := sample_now;
     cycleStartTime := sample_now;
     totalPartsProduced := 0;
     toolWearFactors := toolWearFactors machining_generator;
     vibrationBaseline := 0.35;
     temperatureBaseline := 50 |}.

(** As [calm_world], with draws of 0. *)
Definition low_world : World :=
  {| random_draws := fun _ => 0; drawn := 0;
     clock_reads := fun _ => sample_now; reads := 0;
     sink_results := fun _ => SinkOk 200; requests := 0;
     trace := [] |}.

(** A well-formed message whose timestamp is the epoch. *)
Definition epoch_message : UMHMessage :=
  {| umh_payload := Some {| umh_value := VNum (Fin 1200); timestamp_ms := VNum (Fin 0) |};
     umh_metadata :=
       Some {| location_path := "demo-factory.plant1.machining.cell-01.cnc-001";
               data_contract := "_raw";
               tag_name := "spindle_speed";
               umh_unit := Some "rpm";
               umh_quality := Some good;
               umh_source := Some "cnc-001";
               original_metadata := None |};
     topic := Some "umh.v1.demo-factory.plant1.machining.cell-01.cnc-001._raw.spindle_speed" |}.

(** A reading without a value. *)
Definition valueless_reading : SensorReading :=
  {| topicPath := "demo-factory/plant1/machining/cell-01/cnc-001/info/sensors/spindle-speed";
     payload := {| timestamp := "2023-11-14T22:13:20.000Z";
                   source := "cnc-001";
                   value := VUndefined;
                   unit_ := Some "rpm";
                   quality := Some good;
                   metadata := None |} |}.

(** The sink refuses its first two requests and accepts from then on. *)
Definition flaky_world : World :=
  {| random_draws := fun _ => 1 # 2; drawn := 0;
     clock_reads := fun _ => sample_now; reads := 0;
     sink_results := fun i => if (i <? 2)%nat
                              then SinkFail (ErrorObj "ETIMEDOUT")
                              else SinkOk 200;
     requests := 0;
     trace := [] |}.

Definition sample_client : UMHClient :=
  new_UMHClient {| opt_umhCoreUrl := "http://umh-core:8090";
                   opt_timeout := None; opt_retries := None |}.

Definition sample_umh_config : UMH.UMHSimulationConfig :=
  {| UMH.cfg_umhCoreUrl := "http://umh-core:8090";
     UMH.publishInterval := 3000;
     UMH.enableLogging := Some true;
     UMH.batchSize := None |}.

Definition sample_mqtt_config : MQTT.SimulationConfig :=
  {| MQTT.mqttBrokerUrl := "mqtt://localhost:1883";
     MQTT.publishInterval := 3000;
     MQTT.enableLogging := Some true;
     MQTT.outputFormat := None |}.

(** The UMH manager after [startSimulation] in world [w], and the world it
    leaves; the manager as constructed when the start failed. *)
Definition umh_started (w : World) : UMH.UMHSimulationManager * World :=
  let r := UMH.startSimulation (CNC_MACHINES sample_env) None sample_umh_config w in
  (match fst (fst r) with
   | Some s => s
   | None => fst (UMH.new_UMHSimulationManager (CNC_MACHINES sample_env)
                    sample_umh_config w)
   end,
   snd r).

(** The client that [connectUMH] creates. *)
Definition manager_client : UMHClient :=
  new_UMHClient {| opt_umhCoreUrl := "http://umh-core:8090";
                   opt_timeout := Some 10000%Z; opt_retries := Some 3%Z |}.

(** The messages that the first tick after [umh_started w] hands to the
    publisher, and the world in which it does. *)
Definition umh_first_tick_messages (w : World) : list UMHMessage * World :=
  UMH.adapt_all sample_Date_parse (CNC_MACHINES sample_env)
    (fst (fst (generateOperationalReadings sample_sin sample_parseFloat
                 sample_toISOString sample_env (CNC_MACHINES sample_env)
                 (UMH.dataFactory (fst (umh_started w))) (snd (umh_started w)))))
    []
    (snd (generateOperationalReadings sample_sin sample_parseFloat
            sample_toISOString sample_env (CNC_MACHINES sample_env)
            (UMH.dataFactory (fst (umh_started w))) (snd (umh_started w)))).

(** The first tick after [umh_started w]. *)
Definition umh_first_tick (w : World) : UMH.UMHSimulationManager * World :=
  UMH.publishSensorData sample_sin sample_parseFloat sample_toISOString
    sample_Date_parse sample_env (CNC_MACHINES sample_env)
    (fst (umh_started w)) (snd (umh_started w)).

(** ** The remaining methods of the factory and of the managers *)

(** [getGenerator] *)
Definition getGenerator (gens : Generators) (machineId : string)
  : option CNCDataGenerator :=
  Map_get String.eqb gens machineId.

(** [generateAllReadings]: every generator is visited, in insertion order. *)
Fixpoint generateAllReadings_loop (Math_sin : Q -> Q) (parseFloat : string -> jsnum)
    (toISOString : Z -> string) (env : ProcessEnv) (gens : Generators)
    (allReadings : list (string * list SensorReading))
  : M (list (string * list SensorReading) * Generators) :=
  match gens with
  | [] => ret (allReadings, [])
  | (machineId, generator) :: rest =>
      out <- generateSensorReadings Math_sin parseFloat toISOString env generator ;;
      res <- generateAllReadings_loop Math_sin parseFloat toISOString env rest
               (Map_set String.eqb allReadings machineId (fst out)) ;;
      ret (fst res, (machineId, snd out) :: snd res)
  end.

Definition generateAllReadings (Math_sin : Q -> Q) (parseFloat : string -> jsnum)
    (toISOString : Z -> string) (env : ProcessEnv) (gens : Generators)
  : M (list (string * list SensorReading) * Generators) :=
  generateAllReadings_loop Math_sin parseFloat toISOString env gens [].

(** The transitions of the [switch] in [advanceCyclePhase]. *)
Definition cycle_step (p q : Phase) : bool :=
  match p, q with
  | idle, loading => true
  | loading, machining => true
  | machining, unloading => true
  | unloading, error | unloading, maintenance | unloading, idle => true
  | maintenance, idle | error, idle => true
  | _, _ => false
  end.

(** Whatever the world, the result of [c] satisfies [P]. *)
Definition yields {A : Type} (P : A -> Prop) (c : M A) : Prop :=
  forall w, P (fst (c w)).

(** A payload of machine [m] stamped with the instant [ts]. *)
Definition stamped (toISOString : Z -> string) (m : CNCMachineConfig) (ts : Z)
    (p : MQTTPayload) : Prop :=
  timestamp p = toISOString ts /\ source p = machine_id m /\
  value p <> VUndefined /\ value p <> VNull.

(** The machine of the roster that is offline. *)
Definition cnc_010 : CNCMachineConfig :=
  mkMachine "cnc-010" "Mori Seiki NV5000 DCG Mill" "Mori Seiki" "NV5000 DCG"
    "demo-factory" "plant1" "precision" "cell-06" st_offline 15000 5 22 50000
    "560x510x460".

(** The phases in which the machine stands still: the [default] branch of
    the switches on the phase. *)
Definition at_rest (p : Phase) : bool :=
  match p with
  | machining | loading | unloading => false
  | _ => true
  end.

(** The character [c] occurs in [s]. *)
Fixpoint has_char (c : ascii) (s : string) : bool :=
  match s with
  | EmptyString => false
  | String a r => Ascii.eqb a c || has_char c r
  end.

(** The last segments of the topic paths that [generateSensorReadings]
    pushes for machine [m], in the order of the pushes. *)
Definition sensor_names (m : CNCMachineConfig) : list string :=
  (["spindle-speed"; "spindle-load"]
   ++ List.map (fun axis => ("position-" ++ axis)%string)
        (firstn (axes (capabilities m)) axis_names)
   ++ ["feedrate"; "vibration"; "temperature"; "current-tool"]
   ++ (if coolant_system (capabilities m)
       then ["coolant-pressure"; "coolant-flow"] else [])
   ++ ["operational"; "cycle-phase"; "parts-count"; "efficiency"])%list.

(** A manager as its constructor leaves it, for a plant without machines. *)
Definition fresh_umh_manager : UMH.UMHSimulationManager :=
  fst (UMH.new_UMHSimulationManager [] sample_umh_config calm_world).

(** The same manager once started against a sink that accepts. *)
Definition running_umh_manager : UMH.UMHSimulationManager :=
  fst (fst (UMH.start fresh_umh_manager calm_world)).

Definition fresh_mqtt_manager : MQTT.SimulationManager :=
  fst (MQTT.new_SimulationManager [] sample_mqtt_config calm_world).

Definition running_mqtt_manager : MQTT.SimulationManager :=
  fst (fst (MQTT.start fresh_mqtt_manager calm_world)).

(** A sink that refuses every request. *)
Definition world_refusing_all : World :=
  {| random_draws := fun _ => 1 # 2; drawn := 0;
     clock_reads := fun _ => sample_now; reads := 0;
     sink_results := fun _ => SinkFail (ErrorObj "ECONNREFUSED"); requests := 0;
     trace := [] |}.

(** [c] makes no request and writes nothing to the trace: it only draws
    random numbers and reads the clock. *)
Definition quiet {A : Type} (c : M A) : Prop :=
  forall w, sink_results (snd (c w)) = sink_results w /\
            requests (snd (c w)) = requests w /\
            trace (snd (c w)) = trace w.

(** [c] sends nothing to the sink: it makes no request, and what it adds to
    the trace holds no POST and no wait. *)
Definition posts_nothing {A : Type} (c : M A) : Prop :=
  forall w, exists new,
    trace (snd (c w)) = (trace w ++ new)%list /\ posts_of new = [] /\
    attempted_of new = [] /\ delivered_of new = [] /\ delays_of new = [] /\
    sink_results (snd (c w)) = sink_results w /\
    requests (snd (c w)) = requests w.

(** From its next request on, the sink accepts everything. *)
Definition healthy (w : World) : Prop :=
  forall i, (requests w <= i)%nat -> exists status, sink_results w i = SinkOk status.

(** Manager [s'] is [s] with [n] more messages counted; the client, the
    timer, the configuration and the running flag are the same. *)
Definition counted_more (s s' : UMH.UMHSimulationManager) (n : Z) : Prop :=
  UMH.totalMessagesPublished (UMH.metrics s')
  = (UMH.totalMessagesPublished (UMH.metrics s) + n)%Z /\
  UMH.umhClient s' = UMH.umhClient s /\
  UMH.publishTimer s' = UMH.publishTimer s /\
  UMH.config s' = UMH.config s /\
  UMH.isRunning s' = UMH.isRunning s.

(** The messages handed to the MQTT client, in the order of the trace. *)
Fixpoint mqtt_of (tr : list Event)
  : list (string * (MQTTPayload + UMHPayload)) :=
  match tr with
  | [] => []
  | MqttPublish t m :: rest => (t, m) :: mqtt_of rest
  | _ :: rest => mqtt_of rest
  end.

(** The readings of the machines that the roster knows, as the 'uns' format
    publishes them: each under its own topic path, with its own payload. *)
Definition uns_messages (roster : list CNCMachineConfig)
    (allReadings : list (string * list SensorReading))
  : list (string * (MQTTPayload + UMHPayload)) :=
  flat_map (fun entry =>
              match find_machine roster (fst entry) with
              | Some _ =>
                  List.map (fun r => (topicPath r, inl (payload r))) (snd entry)
              | None => []
              end) allReadings.

(** The callbacks of a run that report a success, and the error texts of
    those that report a failure. *)
Fixpoint acknowledged (steps : list MQTT.Step) : nat :=
  match steps with
  | [] => 0
  | MQTT.Callback _ None :: rest => S (acknowledged rest)
  | _ :: rest => acknowledged rest
  end.

Fixpoint failures (steps : list MQTT.Step) : list string :=
  match steps with
  | [] => []
  | MQTT.Callback topic (Some e) :: rest =>
      ("Publish error for " ++ topic ++ ": " ++ message_of e) :: failures rest
  | _ :: rest => failures rest
  end.

(** The MQTT manager after [startSimulation] on the built-in roster against
    a broker that accepts, and the world it leaves. *)
Definition mqtt_started : MQTT.SimulationManager * World :=
  let r := MQTT.startSimulation (CNC_MACHINES sample_env) None sample_mqtt_config
             calm_world in
  (match fst (fst r) with
   | Some s => s
   | None => fresh_mqtt_manager
   end,
   snd r).
(** * Properties *)


Lemma Qle_bool_false (a b : Q) : Qle_bool a b = false <-> b < a.
Proof.
  split; intro H.
  - destruct (Qlt_le_dec b a) as [Hlt | Hle]; [exact Hlt |].
    apply Qle_bool_iff in Hle. congruence.
  - destruct (Qle_bool a b) eqn:E; [| reflexivity].
    apply Qle_bool_iff in E. lra.
Qed.

Lemma seconds_between_fin (a b : Z) :
  seconds_between a b = Fin (inject_Z (a - b) / 1000).
Proof. reflexivity. Qed.

(** The cycle that [advanceCyclePhase] installs, given the two draws and the
    clock read it may consume. *)
Lemma advanceCyclePhase_cases (this : CNCDataGenerator) (w : World) :
  unit_draws w ->
  let this' := fst (advanceCyclePhase this w) in
  startTime (currentCycle this') = clock_reads w (reads w) /\
  exists lo hi d,
    spec_duration_range (phase (currentCycle this))
                        (phase (currentCycle this')) = Some (lo, hi) /\
    duration (currentCycle this') = Fin d /\ lo <= d /\ d <= hi.
Proof.
  intros Hd. cbv zeta.
  pose proof (Hd (drawn w)) as [H0 H1].
  pose proof (Hd (S (drawn w))) as [H2 H3].
  unfold advanceCyclePhase, bind, Date_now, Math_random, ret.
  destruct (phase (currentCycle this)) eqn:Eph; cbn.
  - split; [reflexivity |]. eexists _, _, _. repeat split; try reflexivity; lra.
  - split; [reflexivity |]. eexists _, _, _. repeat split; try reflexivity; lra.
  - split; [reflexivity |]. eexists _, _, _. repeat split; try reflexivity; lra.
  - destruct (Qle_bool 0.05 (random_draws w (drawn w))); cbn.
    + destruct (Qle_bool 0.15 (random_draws w (drawn w))); cbn.
      * split; [reflexivity |]. eexists _, _, _. repeat split; try reflexivity; lra.
      * split; [reflexivity |]. eexists _, _, _. repeat split; try reflexivity; lra.
    + split; [reflexivity |]. eexists _, _, _. repeat split; try reflexivity; lra.
  - split; [reflexivity |]. eexists _, _, _. repeat split; try reflexivity; lra.
  - split; [reflexivity |]. eexists _, _, _. repeat split; try reflexivity; lra.
Qed.

(** C1. Whatever the phase and whatever draws in [0,1) [Math.random] returns,
    the planned duration sampled by [advanceCyclePhase] lies in the range the
    specification declares for the transition taken: idle->loading [30,150],
    loading->machining [600,2400], machining->unloading [15,75],
    unloading->idle [60,360], unloading->maintenance [900,4500],
    unloading->error [300,900], maintenance->idle and error->idle [60,360]. *)
Theorem advanceCyclePhase_duration_in_range
    (this : CNCDataGenerator) (w : World) :
  unit_draws w ->
  exists lo hi d,
    spec_duration_range (phase (currentCycle this))
      (phase (currentCycle (fst (advanceCyclePhase this w)))) = Some (lo, hi) /\
    duration (currentCycle (fst (advanceCyclePhase this w))) = Fin d /\
    lo <= d /\ d <= hi.
Proof.
  intros Hd. exact (proj2 (advanceCyclePhase_cases this w Hd)).
Qed.

Lemma updateCycle_unfold (this : CNCDataGenerator) (w : World) :
  updateCycle this w =
  let w1 := snd (Date_now w) in
  if jge (seconds_between (clock_reads w (reads w)) (startTime (currentCycle this)))
         (duration (currentCycle this))
  then advanceCyclePhase this w1
  else (this, w1).
Proof.
  unfold updateCycle, bind, Date_now, ret.
  cbn -[jge seconds_between advanceCyclePhase].
  destruct (jge (seconds_between (clock_reads w (reads w))
                   (startTime (currentCycle this)))
                (duration (currentCycle this))); reflexivity.
Qed.

Lemma advanceCyclePhase_world (this : CNCDataGenerator) (w : World) :
  let w' := snd (advanceCyclePhase this w) in
  random_draws w' = random_draws w /\ clock_reads w' = clock_reads w.
Proof.
  unfold advanceCyclePhase, bind, Date_now, Math_random, ret.
  destruct (phase (currentCycle this)); cbn; try (split; reflexivity).
  destruct (Qle_bool 0.05 _); cbn; [| split; reflexivity].
  destruct (Qle_bool 0.15 _); cbn; split; reflexivity.
Qed.

(** A phase that has just started at [now] and has a positive planned
    duration is not over at [now]. *)
Lemma fresh_cycle_not_due (now : Z) (c : MachineOperationCycle) (lo d : Q) :
  startTime c = now -> duration c = Fin d -> 0 < lo -> lo <= d ->
  jge (seconds_between now (startTime c)) (duration c) = false.
Proof.
  intros Hs Hd Hlo Hle. rewrite Hs, Hd, seconds_between_fin, Z.sub_diag.
  cbn [jge]. apply Qle_bool_false.
  assert (E : inject_Z 0 / 1000 == 0) by reflexivity.
  rewrite E. lra.
Qed.

Lemma spec_duration_range_positive (from to : Phase) (lo hi : Q) :
  spec_duration_range from to = Some (lo, hi) -> 0 < lo.
Proof.
  destruct from, to; cbn; intros H; inversion H; subst; reflexivity.
Qed.

(** C5. For every generator state, when the clock shows the same instant at
    every read and the draws lie in [0,1), a second [updateCycle] right after
    the first changes nothing: phase, start time and planned duration of the
    current cycle stay as the first call left them (and so does the parts
    counter), so the phase advances at most once. *)
Theorem updateCycle_idempotent_same_instant
    (this : CNCDataGenerator) (w : World) (now : Z) :
  unit_draws w -> frozen_clock now w ->
  fst (updateCycle (fst (updateCycle this w)) (snd (updateCycle this w)))
  = fst (updateCycle this w).
Proof.
  intros Hd Hc.
  rewrite (updateCycle_unfold this w). cbv zeta.
  rewrite (Hc (reads w)).
  destruct (jge (seconds_between now (startTime (currentCycle this)))
                (duration (currentCycle this))) eqn:Edue.
  - (* the first call advances *)
    set (w1 := snd (Date_now w)).
    assert (Hd1 : unit_draws w1) by (intro i; exact (Hd i)).
    destruct (advanceCyclePhase_cases this w1 Hd1) as [Hst (lo & hi & d & Hr & Hdur & Hlo & _)].
    destruct (advanceCyclePhase_world this w1) as [_ Hclk].
    rewrite updateCycle_unfold. cbv zeta.
    rewrite Hclk. unfold w1 at 1. cbn [Date_now snd clock_reads].
    rewrite (Hc (reads (snd (advanceCyclePhase this w1)))).
    rewrite (fresh_cycle_not_due now _ lo d); try assumption.
    + reflexivity.
    + rewrite Hst. unfold w1. cbn. apply Hc.
    + eapply spec_duration_range_positive; eassumption.
  - (* the first call leaves the cycle alone, and so does the second *)
    rewrite updateCycle_unfold. cbv zeta. cbn [fst snd].
    change (clock_reads (snd (Date_now w))) with (clock_reads w).
    rewrite (Hc (reads (snd (Date_now w)))), Edue. reflexivity.
Qed.

(** ** The keys of the maps that the factory builds *)


Lemma keys_Map_set_fresh {V : Type} (m : list (string * V)) (k : string) (v : V) :
  ~ In k (keys m) -> keys (Map_set String.eqb m k v) = (keys m ++ [k])%list.
Proof.
  induction m as [| [k' v'] m IH]; cbn; intros Hk; [reflexivity |].
  destruct (String.eqb k' k) eqn:E.
  - apply String.eqb_eq in E. tauto.
  - cbn. f_equal. apply IH. tauto.
Qed.

Lemma NoDup_app_cons_fresh (l : list string) (k : string) (r : list string) :
  NoDup (l ++ k :: r) -> ~ In k l /\ NoDup ((l ++ [k]) ++ r).
Proof.
  intros H. split.
  - apply NoDup_remove_2 in H. intros Hin. apply H, in_or_app. now left.
  - now rewrite <- app_assoc.
Qed.

Lemma NoDup_app_cons_skip (l : list string) (k : string) (r : list string) :
  NoDup (l ++ k :: r) -> NoDup (l ++ r).
Proof. intros H. now apply NoDup_remove_1 in H. Qed.

Lemma new_generators_keys (ms : list CNCMachineConfig) :
  forall (acc : Generators) (w : World),
    NoDup (keys acc ++ List.map machine_id ms) ->
    keys (fst (new_generators ms acc w)) = (keys acc ++ List.map machine_id ms)%list.
Proof.
  induction ms as [| m ms IH]; intros acc w Hnd; cbn.
  - now rewrite app_nil_r.
  - unfold bind. destruct (new_CNCDataGenerator m w) as [g w1].
    cbn in Hnd. apply NoDup_app_cons_fresh in Hnd as [Hfresh Hnd].
    rewrite IH; rewrite keys_Map_set_fresh; trivial.
    now rewrite <- app_assoc.
Qed.

Section FactoryFacts.
Variable Math_sin : Q -> Q.
Variable parseFloat : string -> jsnum.
Variable toISOString : Z -> string.
Variable env : ProcessEnv.
Variable roster : list CNCMachineConfig.

Let loop := generateOperationalReadings_loop Math_sin parseFloat toISOString env roster.

(** The readings map gets one entry per generator whose machine is found in
    the roster and is not offline, in the order of the generators; the
    generators keep their keys. *)
Lemma generateOperationalReadings_loop_keys (gens : Generators) :
  forall (acc : list (string * list SensorReading)) (w : World),
    NoDup (keys acc ++ keys gens) ->
    keys (fst (fst (loop gens acc w)))
      = (keys acc ++ filter (is_operational_id roster) (keys gens))%list
    /\ keys (snd (fst (loop gens acc w))) = keys gens.
Proof.
  induction gens as [| [machineId generator] gens IH]; intros acc w Hnd.
  - cbn. now rewrite app_nil_r.
  - unfold loop. cbn [generateOperationalReadings_loop keys List.map fst filter].
    fold loop. cbn [keys List.map fst] in Hnd.
    destruct (is_operational_id roster machineId) eqn:Eop.
    + unfold bind.
      destruct (generateSensorReadings Math_sin parseFloat toISOString env generator w)
        as [out w1].
      apply NoDup_app_cons_fresh in Hnd as [Hfresh Hnd].
      specialize (IH (Map_set String.eqb acc machineId (fst out)) w1).
      rewrite keys_Map_set_fresh in IH by exact Hfresh.
      specialize (IH Hnd). destruct IH as [IH1 IH2].
      destruct (loop gens (Map_set String.eqb acc machineId (fst out)) w1)
        as [res w2].
      unfold keys, ret in *. cbn [fst snd List.map] in *.
      rewrite IH1, IH2, <- app_assoc. split; reflexivity.
    + unfold bind.
      apply NoDup_app_cons_skip in Hnd.
      specialize (IH acc w Hnd). destruct IH as [IH1 IH2].
      destruct (loop gens acc w) as [res w2].
      unfold keys, ret in *. cbn [fst snd List.map] in *.
      rewrite IH1, IH2. split; reflexivity.
Qed.

(** A generator whose machine is offline (or unknown) is passed over: it
    comes out of the pass as it went in. *)
Lemma generateOperationalReadings_loop_skips (gens : Generators) :
  forall (acc : list (string * list SensorReading)) (w : World)
         (machineId : string) (generator : CNCDataGenerator),
    In (machineId, generator) gens ->
    is_operational_id roster machineId = false ->
    In (machineId, generator) (snd (fst (loop gens acc w))).
Proof.
  induction gens as [| [id g] gens IH]; intros acc w machineId generator Hin Hoff;
    [destruct Hin |].
  unfold loop. cbn [generateOperationalReadings_loop]. fold loop.
  destruct Hin as [Heq | Hin].
  - inversion Heq; subst id g. rewrite Hoff. unfold bind.
    destruct (loop gens acc w) as [res w2]. unfold ret. cbn. now left.
  - destruct (is_operational_id roster id); unfold bind.
    + destruct (generateSensorReadings Math_sin parseFloat toISOString env g w)
        as [out w1].
      specialize (IH (Map_set String.eqb acc id (fst out)) w1 machineId generator
                     Hin Hoff).
      destruct (loop gens (Map_set String.eqb acc id (fst out)) w1) as [res w2].
      unfold ret. cbn in *. now right.
    + specialize (IH acc w machineId generator Hin Hoff).
      destruct (loop gens acc w) as [res w2].
      unfold ret. cbn in *. now right.
Qed.

Lemma generateOperationalReadings_keys (gens : Generators) (w : World) :
  NoDup (keys gens) ->
  keys (fst (fst (generateOperationalReadings
                    Math_sin parseFloat toISOString env roster gens w)))
    = filter (is_operational_id roster) (keys gens)
  /\ keys (snd (fst (generateOperationalReadings
                       Math_sin parseFloat toISOString env roster gens w)))
     = keys gens.
Proof.
  intros Hnd.
  exact (generateOperationalReadings_loop_keys gens [] w Hnd).
Qed.

End FactoryFacts.

(** ** The scheduler's generation pass and the activeMachines metric *)


Lemma CNC_MACHINES_ids (env : ProcessEnv) :
  List.map machine_id (CNC_MACHINES env) = roster_ids.
Proof.
  unfold CNC_MACHINES, generateMachineConfigs.
  destruct (getLocationConfig env) as [e s]. reflexivity.
Qed.

Lemma CNC_MACHINES_operational (env : ProcessEnv) :
  filter (is_operational_id (CNC_MACHINES env)) roster_ids
  = ["cnc-001"; "cnc-002"; "cnc-003"; "cnc-004"; "cnc-005";
     "cnc-006"; "cnc-007"; "cnc-008"; "cnc-009"].
Proof.
  unfold CNC_MACHINES, generateMachineConfigs.
  destruct (getLocationConfig env) as [e s]. reflexivity.
Qed.

Lemma roster_ids_NoDup : NoDup roster_ids.
Proof.
  unfold roster_ids.
  repeat (constructor; [cbn; intuition discriminate |]). constructor.
Qed.

Lemma is_operational_id_spec (roster : list CNCMachineConfig) (id : string) :
  is_operational_id roster id = true ->
  exists m, find_machine roster id = Some m /\ operational_status m <> st_offline.
Proof.
  unfold is_operational_id. destruct (find_machine roster id) as [m |]; [| discriminate].
  intros H. exists m. split; [reflexivity |].
  intros Hoff. rewrite Hoff in H. discriminate.
Qed.

Section ActiveMachines.
Variable Math_sin : Q -> Q.
Variable parseFloat : string -> jsnum.
Variable toISOString : Z -> string.
Variable Date_parse : string -> option Z.
Variable env : ProcessEnv.

Let tick :=
  MQTT.publishSensorData Math_sin parseFloat toISOString Date_parse env (CNC_MACHINES env).
Let step :=
  MQTT.step Math_sin parseFloat toISOString Date_parse env (CNC_MACHINES env).
Let run :=
  MQTT.run Math_sin parseFloat toISOString Date_parse env (CNC_MACHINES env).


Lemma tick_serving (s : MQTT.SimulationManager) (w : World) :
  serving s ->
  serving (fst (tick s w)) /\
  MQTT.activeMachines (MQTT.metrics (fst (tick s w))) = 9%Z.
Proof.
  intros (Hrun & Hcl & Htm & Hkeys).
  unfold tick, MQTT.publishSensorData.
  destruct (MQTT.mqttClient s) as [c |] eqn:Ec; [| congruence].
  rewrite Hrun. cbn [negb]. unfold bind.
  pose proof (generateOperationalReadings_keys Math_sin parseFloat toISOString env
                (CNC_MACHINES env) (MQTT.dataFactory s) w) as Hgen.
  rewrite Hkeys in Hgen. specialize (Hgen roster_ids_NoDup).
  rewrite CNC_MACHINES_operational in Hgen. destruct Hgen as [Hk1 Hk2].
  destruct (generateOperationalReadings Math_sin parseFloat toISOString env
              (CNC_MACHINES env) (MQTT.dataFactory s) w) as [out w1].
  cbn [fst snd] in *.
  destruct (MQTT.publish_all Date_parse (CNC_MACHINES env) _ (fst out) w1) as [u w2].
  unfold MQTT.updateMetrics, bind, Date_now, ret, log, emit. cbn.
  assert (Hlen : List.length (fst out) = 9%nat).
  { rewrite <- (length_map fst). fold (keys (fst out)). now rewrite Hk1. }
  rewrite Hlen. unfold serving.
  cbn [MQTT.isRunning MQTT.mqttClient MQTT.publishTimer MQTT.dataFactory
       MQTT.metrics MQTT.activeMachines
       MQTT.with_metrics MQTT.set_activeMachines MQTT.with_dataFactory].
  rewrite Ec, Hk2. repeat split; try assumption; congruence.
Qed.

Lemma callback_serving (s : MQTT.SimulationManager) (topic : string)
    (err : option Thrown) (w : World) :
  serving s ->
  serving (fst (MQTT.publish_callback s topic err w)) /\
  MQTT.activeMachines (MQTT.metrics (fst (MQTT.publish_callback s topic err w)))
  = MQTT.activeMachines (MQTT.metrics s).
Proof.
  intros Hs. destruct err as [e |]; cbn; split; trivial.
Qed.

Lemma step_serving (s : MQTT.SimulationManager) (e : MQTT.Step) (w : World) :
  serving s ->
  serving (fst (step s e w)) /\
  (MQTT.activeMachines (MQTT.metrics s) = 9%Z \/ e = MQTT.Tick ->
   MQTT.activeMachines (MQTT.metrics (fst (step s e w))) = 9%Z).
Proof.
  intros Hs. destruct e as [| topic err].
  - unfold step, MQTT.step.
    destruct (MQTT.publishTimer s) eqn:Et.
    + destruct (tick_serving s w Hs) as [H1 H2]. split; [exact H1 | intros _; exact H2].
    + destruct Hs as (_ & _ & Htm & _). congruence.
  - destruct (callback_serving s topic err w Hs) as [H1 H2].
    split; [exact H1 |]. intros [H | H]; [| discriminate].
    unfold step, MQTT.step. now rewrite H2.
Qed.

Lemma run_serving (steps : list MQTT.Step) :
  forall (s : MQTT.SimulationManager) (w : World),
    serving s ->
    serving (fst (run steps s w)) /\
    (MQTT.activeMachines (MQTT.metrics s) = 9%Z ->
     MQTT.activeMachines (MQTT.metrics (fst (run steps s w))) = 9%Z).
Proof.
  induction steps as [| e steps IH]; intros s w Hs.
  - cbn. split; [exact Hs | trivial].
  - unfold run. cbn [MQTT.run]. unfold bind. fold step. fold run.
    destruct (step_serving s e w Hs) as [H1 H2].
    destruct (step s e w) as [s1 w1]. cbn [fst] in *.
    destruct (IH s1 w1 H1) as [H3 H4].
    split; [exact H3 |]. intros H. apply H4, H2. now left.
Qed.

Lemma run_app (a b : list MQTT.Step) (s : MQTT.SimulationManager) (w : World) :
  run (a ++ b) s w = run b (fst (run a s w)) (snd (run a s w)).
Proof.
  revert s w. induction a as [| e a IH]; intros s w; [reflexivity |].
  unfold run. cbn [MQTT.run app]. unfold bind. fold step. fold run.
  destruct (step s e w) as [s1 w1]. apply IH.
Qed.

Lemma startSimulation_serving (cfg : MQTT.SimulationConfig) (w : World) :
  snd (fst (MQTT.startSimulation (CNC_MACHINES env) None cfg w)) = Returned tt ->
  exists s, fst (fst (MQTT.startSimulation (CNC_MACHINES env) None cfg w)) = Some s
            /\ serving s.
Proof.
  unfold MQTT.startSimulation, MQTT.new_SimulationManager,
    new_CNCDataGeneratorFactory, bind.
  pose proof (new_generators_keys (CNC_MACHINES env) [] w) as Hk.
  rewrite CNC_MACHINES_ids in Hk. specialize (Hk roster_ids_NoDup).
  cbn [keys List.map app] in Hk.
  destruct (new_generators (CNC_MACHINES env) [] w) as [factory w1].
  cbn [fst] in Hk. cbn.
  unfold MQTT.start, MQTT.connectMQTT, bind, log, emit, sink_request, ret. cbn.
  destruct (sink_results w1 (requests w1)) as [st | e]; cbn; intros H;
    [| discriminate].
  eexists. split; [reflexivity |].
  repeat split; cbn; try congruence. exact Hk.
Qed.

End ActiveMachines.

(** C9. Only machines that the roster knows and whose status is not
    'offline' get an entry in the readings map of a generation pass, and the
    generator of an offline machine is not touched by the pass; the built-in
    roster has exactly one offline machine, so once the simulation has
    started, the activeMachines metric is 9 after any tick (whatever happened
    before it and whatever callbacks and ticks follow). *)
Theorem activeMachines_excludes_offline
    (Math_sin : Q -> Q) (parseFloat : string -> jsnum) (toISOString : Z -> string)
    (Date_parse : string -> option Z) (env : ProcessEnv)
    (cfg : MQTT.SimulationConfig) (w : World) (before after : list MQTT.Step) :
  snd (fst (MQTT.startSimulation (CNC_MACHINES env) None cfg w)) = Returned tt ->
  (forall roster gens w0 id,
      NoDup (keys gens) ->
      In id (keys (fst (fst (generateOperationalReadings
                               Math_sin parseFloat toISOString env roster gens w0)))) ->
      exists m, find_machine roster id = Some m /\ operational_status m <> st_offline)
  /\ (forall roster gens w0 id g m,
        In (id, g) gens ->
        find_machine roster id = Some m -> operational_status m = st_offline ->
        In (id, g) (snd (fst (generateOperationalReadings
                                Math_sin parseFloat toISOString env roster gens w0))))
  /\ List.length (filter (fun m => status_eqb (operational_status m) st_offline)
                         (CNC_MACHINES env)) = 1%nat
  /\ exists s,
       fst (MQTT.session Math_sin parseFloat toISOString Date_parse env
              (CNC_MACHINES env) cfg (before ++ MQTT.Tick :: after) w) = Some s
       /\ MQTT.activeMachines (MQTT.metrics s) = 9%Z.
Proof.
  intros Hstart. split; [| split; [| split]].
  - intros roster gens w0 id Hnd Hin.
    destruct (generateOperationalReadings_keys Math_sin parseFloat toISOString env
                roster gens w0 Hnd) as [Hk _].
    rewrite Hk in Hin. apply filter_In in Hin as [_ Hop].
    now apply is_operational_id_spec.
  - intros roster gens w0 id g m Hin Hfind Hoff.
    apply (generateOperationalReadings_loop_skips Math_sin parseFloat toISOString env
             roster gens [] w0 id g Hin).
    unfold is_operational_id. rewrite Hfind, Hoff. reflexivity.
  - unfold CNC_MACHINES, generateMachineConfigs.
    destruct (getLocationConfig env) as [e s]. reflexivity.
  - destruct (startSimulation_serving env cfg w Hstart) as (s & Hs & Hserv).
    unfold MQTT.session, bind.
    destruct (MQTT.startSimulation (CNC_MACHINES env) None cfg w) as [[inst out] w1].
    cbn [fst snd] in *. subst inst out.
    rewrite (run_app Math_sin parseFloat toISOString Date_parse env).
    destruct (run_serving Math_sin parseFloat toISOString Date_parse env before s w1 Hserv)
      as [Hs1 _].
    set (st1 := MQTT.run Math_sin parseFloat toISOString Date_parse env
                  (CNC_MACHINES env) before s w1) in *.
    destruct st1 as [s1 w2]. cbn [fst snd] in *.
    cbn [MQTT.run]. unfold bind.
    destruct (step_serving Math_sin parseFloat toISOString Date_parse env
                s1 MQTT.Tick w2 Hs1) as [Hs2 H9].
    specialize (H9 (or_intror eq_refl)).
    destruct (MQTT.step Math_sin parseFloat toISOString Date_parse env
                (CNC_MACHINES env) s1 MQTT.Tick w2) as [s2 w3].
    cbn [fst snd] in *.
    destruct (run_serving Math_sin parseFloat toISOString Date_parse env after s2 w3 Hs2)
      as [_ Hfin].
    specialize (Hfin H9).
    destruct (MQTT.run Math_sin parseFloat toISOString Date_parse env
                (CNC_MACHINES env) after s2 w3) as [s3 w4].
    cbn [fst snd ret] in *. unfold ret. cbn. eexists. split; [reflexivity | exact Hfin].
Qed.

(** ** Validation of UMH messages *)

Lemma In_push_if_keep (c : bool) (e e' : string) (errs : list string) :
  In e errs -> In e (push_if c e' errs).
Proof.
  unfold push_if. destruct c; [| trivial]. intros H. apply in_or_app. now left.
Qed.

Lemma In_push_if_new (e : string) (errs : list string) :
  In e (push_if true e errs).
Proof. unfold push_if. apply in_or_app. right. now left. Qed.

Lemma push_if_nil (c : bool) (e : string) (errs : list string) :
  push_if c e errs = [] -> c = false /\ errs = [].
Proof.
  unfold push_if. destruct c.
  - destruct errs; discriminate.
  - intros ->. now split.
Qed.

Lemma valid_iff_no_errors (m : UMHMessage) :
  valid (validateUMHMessage m) = true <-> validate_errors m = [].
Proof.
  unfold validateUMHMessage. cbn.
  destruct (validate_errors m); cbn; split; congruence.
Qed.

Lemma invalid_of_error (m : UMHMessage) (e : string) :
  In e (validate_errors m) -> valid (validateUMHMessage m) = false.
Proof.
  intros Hin. destruct (valid (validateUMHMessage m)) eqn:E; [| reflexivity].
  apply valid_iff_no_errors in E. rewrite E in Hin. destruct Hin.
Qed.

(** The metadata and topic stages keep the errors of the payload stage. *)
Lemma validate_errors_keeps_payload_errors (m : UMHMessage) (e : string) :
  In e (match umh_payload m with
        | None => push_if true "Missing payload" []
        | Some p =>
            push_if (negb (truthy (timestamp_ms p)) || negb (typeof_number (timestamp_ms p)))
              "Payload missing or invalid timestamp_ms"
              (push_if (match umh_value p with VUndefined | VNull => true | _ => false end)
                 "Payload missing value" [])
        end) ->
  In e (validate_errors m).
Proof.
  intros H. unfold validate_errors.
  destruct (topic m) as [t |]; [destruct (nonempty t) |];
    apply In_push_if_keep;
    (destruct (umh_metadata m) as [md |];
     [ do 3 apply In_push_if_keep | apply In_push_if_keep ]; exact H).
Qed.

(** What a message without validation errors looks like. *)
Lemma valid_message_shape (m : UMHMessage) :
  valid (validateUMHMessage m) = true ->
  exists p md t,
    umh_payload m = Some p /\ umh_metadata m = Some md /\ topic m = Some t /\
    umh_value p <> VUndefined /\ umh_value p <> VNull /\
    truthy (timestamp_ms p) = true /\ typeof_number (timestamp_ms p) = true /\
    nonempty (location_path md) = true /\ nonempty (data_contract md) = true /\
    nonempty (tag_name md) = true /\
    nonempty t = true /\ String.prefix "umh.v1." t = true.
Proof.
  intros Hv. apply valid_iff_no_errors in Hv. unfold validate_errors in Hv.
  destruct (topic m) as [t |]; [| now apply push_if_nil in Hv as [? _]].
  destruct (nonempty t) eqn:Et; [| now apply push_if_nil in Hv as [? _]].
  apply push_if_nil in Hv as [Hpre Hv].
  destruct (umh_metadata m) as [md |]; [| now apply push_if_nil in Hv as [? _]].
  apply push_if_nil in Hv as [Htag Hv].
  apply push_if_nil in Hv as [Hdc Hv].
  apply push_if_nil in Hv as [Hloc Hv].
  destruct (umh_payload m) as [p |]; [| now apply push_if_nil in Hv as [? _]].
  apply push_if_nil in Hv as [Hts Hv].
  apply push_if_nil in Hv as [Hval _].
  apply orb_false_elim in Hts as [Hts1 Hts2].
  exists p, md, t.
  repeat split; try reflexivity;
    try (apply negb_false_iff; assumption).
  - intros E. rewrite E in Hval. discriminate.
  - intros E. rewrite E in Hval. discriminate.
  - exact Et.
Qed.

(** C10. A message whose payload carries [timestamp_ms] 0 fails validation
    with the error 'Payload missing or invalid timestamp_ms': the check
    [!timestamp_ms] holds for 0, although 0 is a finite number. *)
Theorem validateUMHMessage_rejects_epoch_zero
    (m : UMHMessage) (p : UMHPayload) (q : Q) :
  umh_payload m = Some p ->
  timestamp_ms p = VNum (Fin q) ->
  q == 0 ->
  isFinite (Fin q) = true /\
  valid (validateUMHMessage m) = false /\
  In "Payload missing or invalid timestamp_ms" (errors (validateUMHMessage m)).
Proof.
  intros Hp Hts Hq.
  assert (Hin : In "Payload missing or invalid timestamp_ms" (validate_errors m)).
  { apply validate_errors_keeps_payload_errors. rewrite Hp, Hts. cbn [truthy].
    apply Qeq_bool_iff in Hq. rewrite Hq. cbn [negb orb]. apply In_push_if_new. }
  split; [reflexivity |]. split; [| exact Hin].
  exact (invalid_of_error m _ Hin).
Qed.

Lemma produced_timestamp (Date_parse : string -> option Z) (s : string) :
  getTime_of Date_parse s = NaN \/ exists z, getTime_of Date_parse s = num z.
Proof.
  unfold getTime_of. destruct (Date_parse s) as [t |]; [right; now exists t | now left].
Qed.

Section Pipeline.
Variable Date_parse : string -> option Z.


Lemma adapt_reading_invalid (machineId : string) (machine : CNCMachineConfig)
    (reading : SensorReading) (w : World) :
  valid (validateUMHMessage (message_for Date_parse machine reading)) = false ->
  fst (UMH.adapt_reading Date_parse machineId machine reading w) = None /\
  trace (snd (UMH.adapt_reading Date_parse machineId machine reading w))
  = (trace w ++
     [Logged log_warn "Invalid UMH message format"
        (machineId :: extractSensorType (topicPath reading)
           :: errors (validateUMHMessage (message_for Date_parse machine reading)))])%list.
Proof.
  intros Hv. unfold UMH.adapt_reading. fold (message_for Date_parse machine reading).
  rewrite Hv. cbn. split; reflexivity.
Qed.

Lemma adapt_reading_valid (machineId : string) (machine : CNCMachineConfig)
    (reading : SensorReading) (w : World) :
  valid (validateUMHMessage (message_for Date_parse machine reading)) = true ->
  UMH.adapt_reading Date_parse machineId machine reading w
  = (Some (message_for Date_parse machine reading), w).
Proof.
  intros Hv. unfold UMH.adapt_reading. fold (message_for Date_parse machine reading).
  rewrite Hv. reflexivity.
Qed.

Lemma produced_valid_finite (machine : CNCMachineConfig) (reading : SensorReading) :
  valid (validateUMHMessage (message_for Date_parse machine reading)) = true ->
  exists p t z,
    umh_payload (message_for Date_parse machine reading) = Some p /\
    topic (message_for Date_parse machine reading) = Some t /\
    t <> EmptyString /\ timestamp_ms p = VNum (num z) /\
    finite_number (timestamp_ms p) = true.
Proof.
  intros Hv.
  destruct (valid_message_shape _ Hv)
    as (p & md & t & Hp & _ & Ht & _ & _ & Htruthy & _ & _ & _ & _ & Hne & _).
  exists p, t.
  assert (Hts : timestamp_ms p
                = VNum (getTime_of Date_parse (timestamp (payload reading)))).
  { cbn in Hp. inversion Hp. reflexivity. }
  destruct (produced_timestamp Date_parse (timestamp (payload reading)))
    as [Hnan | [z Hz]].
  - rewrite Hts, Hnan in Htruthy. discriminate.
  - exists z. rewrite Hts, Hz. repeat split; trivial.
    intros ->. discriminate.
Qed.

Lemma spec_must_reject_invalid (machine : CNCMachineConfig) (reading : SensorReading) :
  spec_must_reject (message_for Date_parse machine reading) = true ->
  valid (validateUMHMessage (message_for Date_parse machine reading)) = false.
Proof.
  intros Hr.
  destruct (valid (validateUMHMessage (message_for Date_parse machine reading))) eqn:Hv;
    [exfalso | reflexivity].
  destruct (produced_valid_finite machine reading Hv)
    as (p' & t' & z & Hp' & Ht' & _ & _ & Hfin).
  destruct (valid_message_shape _ Hv)
    as (p & md & t & Hp & Hmd & Ht & Hv1 & Hv2 & _ & _ & Hloc & _ & Htag & Hne & _).
  rewrite Hp in Hp'. inversion Hp'. subst p'.
  unfold spec_must_reject in Hr. rewrite Hp, Hmd, Ht in Hr.
  unfold nonempty in *.
  rewrite Hfin in Hr.
  apply negb_true_iff in Hloc, Htag, Hne. rewrite Hloc, Htag, Hne in Hr.
  destruct (umh_value p); cbn in Hr; congruence.
Qed.

Section Roster.
Variable roster : list CNCMachineConfig.


Lemma passes_message_for (machine : CNCMachineConfig) (reading : SensorReading) :
  valid (validateUMHMessage (message_for Date_parse machine reading)) = true ->
  passes (message_for Date_parse machine reading).
Proof.
  intros Hv. split; [exact Hv |].
  destruct (produced_valid_finite machine reading Hv)
    as (p & t & z & Hp & Ht & Hne & Hts & _).
  now exists p, t, z.
Qed.

Lemma adapt_readings_pass (machineId : string) (machine : CNCMachineConfig)
    (readings : list SensorReading) :
  forall (acc : list UMHMessage) (w : World),
    Forall passes acc ->
    Forall passes (fst (UMH.adapt_readings Date_parse machineId machine readings acc w)).
Proof.
  induction readings as [| reading rest IH]; intros acc w Hacc; [exact Hacc |].
  cbn [UMH.adapt_readings]. unfold bind.
  destruct (valid (validateUMHMessage (message_for Date_parse machine reading))) eqn:Hv.
  - rewrite (adapt_reading_valid machineId machine reading w Hv).
    apply IH. apply Forall_app. split; [exact Hacc |].
    constructor; [now apply passes_message_for | constructor].
  - destruct (adapt_reading_invalid machineId machine reading w Hv) as [Hnone _].
    destruct (UMH.adapt_reading Date_parse machineId machine reading w) as [o w1].
    cbn in Hnone. subst o. now apply IH.
Qed.

Lemma adapt_all_pass (allReadings : list (string * list SensorReading)) :
  forall (acc : list UMHMessage) (w : World),
    Forall passes acc ->
    Forall passes (fst (UMH.adapt_all Date_parse roster allReadings acc w)).
Proof.
  induction allReadings as [| [machineId readings] rest IH]; intros acc w Hacc;
    [exact Hacc |].
  cbn [UMH.adapt_all].
  destruct (find_machine roster machineId) as [machine |].
  - unfold bind.
    pose proof (adapt_readings_pass machineId machine readings acc w Hacc) as H.
    destruct (UMH.adapt_readings Date_parse machineId machine readings acc w)
      as [msgs w1].
    now apply IH.
  - unfold bind, log, emit. cbn. now apply IH.
Qed.
End Roster.

End Pipeline.

(** C2. The message built for a reading is rejected by [validateUMHMessage]
    whenever its value is missing, its timestamp_ms is not a finite number,
    or its location path, tag name or topic is empty; the scheduler then logs
    a warning and drops it (nothing else happens to the outside, so it is
    never published).  A message that passes is handed on unchanged and
    carries a non-empty topic and a finite numeric timestamp_ms, and so does
    every message of the set that the scheduler hands to the publisher. *)
Theorem produced_message_validation
    (Date_parse : string -> option Z) (roster : list CNCMachineConfig)
    (machineId : string) (machine : CNCMachineConfig) (reading : SensorReading)
    (allReadings : list (string * list SensorReading)) (w : World) :
  let m := message_for Date_parse machine reading in
  let adapted := UMH.adapt_reading Date_parse machineId machine reading w in
  (spec_must_reject m = true ->
     valid (validateUMHMessage m) = false /\
     fst adapted = None /\
     trace (snd adapted)
     = (trace w ++
        [Logged log_warn "Invalid UMH message format"
           (machineId :: extractSensorType (topicPath reading)
              :: errors (validateUMHMessage m))])%list)
  /\ (valid (validateUMHMessage m) = true ->
        adapted = (Some m, w) /\
        exists p t z,
          umh_payload m = Some p /\ topic m = Some t /\ t <> EmptyString /\
          timestamp_ms p = VNum (num z) /\ finite_number (timestamp_ms p) = true)
  /\ Forall (passes)
       (fst (UMH.adapt_all Date_parse roster allReadings [] w)).
Proof.
  cbv zeta. split; [| split].
  - intros Hr.
    pose proof (spec_must_reject_invalid Date_parse machine reading Hr) as Hv.
    split; [exact Hv |].
    exact (adapt_reading_invalid Date_parse machineId machine reading w Hv).
  - intros Hv. split.
    + exact (adapt_reading_valid Date_parse machineId machine reading w Hv).
    + exact (produced_valid_finite Date_parse machine reading Hv).
  - apply adapt_all_pass. constructor.
Qed.

(** ** The retry loop of the client *)

Lemma posts_of_app (a b : list Event) :
  posts_of (a ++ b) = (posts_of a ++ posts_of b)%list.
Proof.
  induction a as [| e a IH]; [reflexivity |].
  destruct e; cbn; rewrite ?IH; reflexivity.
Qed.

Lemma delays_of_app (a b : list Event) :
  delays_of (a ++ b) = (delays_of a ++ delays_of b)%list.
Proof.
  induction a as [| e a IH]; [reflexivity |].
  destruct e; cbn; rewrite ?IH; reflexivity.
Qed.

Lemma Zrange_S (a : Z) (n : nat) :
  Zrange a (S n) = a :: Zrange (a + 1) n.
Proof.
  unfold Zrange. cbn [seq List.map]. rewrite Z.add_0_r. f_equal.
  rewrite <- seq_shift, map_map. apply map_ext. intros i. lia.
Qed.


Lemma last_cause_cons (e : Thrown) (fails : list Thrown) (init : option string) :
  last_cause (e :: fails) init = last_cause fails (Some (as_Error_message e)).
Proof.
  unfold last_cause. cbn [rev].
  destruct (rev fails) as [| x r] eqn:E; reflexivity.
Qed.

Section RetryLoop.
Variable client : UMHClient.
Variable message : UMHMessage.

(** What the loop does from attempt number [attempt] on, with [remaining]
    iterations left: it posts until the sink accepts, waits the backoff of
    each failed attempt that is not the last one allowed, and reports the
    last cause when every attempt failed. *)


Lemma publish_attempts_accepted (rem : nat) (attempt : Z) (lastError : option string)
    (w : World) (status : Z) :
  sink_results w (requests w) = SinkOk status ->
  publish_attempts client message (S rem) attempt lastError w
  = (None,
     after_attempt w
       [Posted "/api/v1/data" [message] (SinkOk status);
        Logged log_debug "Successfully published to UMH-Core"
          [topic_text message; string_of_Z attempt; string_of_Z status]]).
Proof.
  intros H. cbn [publish_attempts].
  unfold bind, Date_now, http_post, sink_request, log, emit, ret, after_attempt.
  cbn. rewrite H. cbn. rewrite <- app_assoc. reflexivity.
Qed.

Lemma publish_attempts_refused (rem : nat) (attempt : Z) (lastError : option string)
    (w : World) (e : Thrown) :
  sink_results w (requests w) = SinkFail e ->
  publish_attempts client message (S rem) attempt lastError w
  = publish_attempts client message rem (attempt + 1) (Some (as_Error_message e))
      (after_attempt w
         (if (attempt <? retries client)%Z
          then [Posted "/api/v1/data" [message] (SinkFail e);
                warn_failed client message attempt e; Slept (backoff_delay attempt)]
          else [Posted "/api/v1/data" [message] (SinkFail e);
                warn_failed client message attempt e])).
Proof.
  intros H. cbn [publish_attempts].
  unfold bind, Date_now, http_post, sink_request, log, sleep, emit, ret, after_attempt.
  cbn. rewrite H. cbn.
  destruct (attempt <? retries client)%Z; cbn; rewrite <- !app_assoc; reflexivity.
Qed.

(** What the loop does from attempt number [attempt] on, with [remaining]
    iterations left: it posts until the sink accepts, waits the backoff of
    each failed attempt that is not the last one allowed, and reports the
    last cause when every attempt failed. *)
Lemma publish_attempts_spec (remaining : nat) :
  forall (attempt : Z) (lastError : option string) (w : World),
    (attempt + Z.of_nat remaining = retries client + 1)%Z ->
    exists (new : list Event) (fails : list Thrown),
      trace (snd (publish_attempts client message remaining attempt lastError w))
      = (trace w ++ new)%list /\
      match fst (publish_attempts client message remaining attempt lastError w) with
      | None =>
          exists status,
            posts_of new = (List.map SinkFail fails ++ [SinkOk status])%list /\
            (List.length fails < remaining)%nat /\
            delays_of new = List.map backoff_delay (Zrange attempt (List.length fails))
      | Some cause =>
          posts_of new = List.map SinkFail fails /\
          List.length fails = remaining /\
          delays_of new
          = List.map backoff_delay (Zrange attempt (List.length fails - 1)) /\
          cause = last_cause fails lastError
      end.
Proof.
  induction remaining as [| rem IH]; intros attempt lastError w Hinv.
  - exists [], []. cbn. rewrite app_nil_r. repeat split; reflexivity.
  - destruct (sink_results w (requests w)) as [status | e] eqn:Eres.
    + rewrite (publish_attempts_accepted rem attempt lastError w status Eres).
      eexists _, []. cbn [fst snd after_attempt trace]. split; [reflexivity |].
      exists status. cbn. repeat split. lia.
    + rewrite (publish_attempts_refused rem attempt lastError w e Eres).
      set (evs := if (attempt <? retries client)%Z then _ else _).
      destruct (IH (attempt + 1)%Z (Some (as_Error_message e))
                   (after_attempt w evs) ltac:(lia))
        as (new & fails & Htr & Hres).
      exists (evs ++ new)%list, (e :: fails).
      split; [rewrite Htr; cbn [after_attempt trace]; now rewrite app_assoc |].
      rewrite posts_of_app, delays_of_app.
      assert (Hposts : posts_of evs = [SinkFail e])
        by (unfold evs; destruct (attempt <? retries client)%Z; reflexivity).
      rewrite Hposts.
      destruct (fst (publish_attempts client message rem (attempt + 1)
                       (Some (as_Error_message e)) (after_attempt w evs)))
        as [cause |].
      * destruct Hres as (Hp & Hl & Hd & Hc).
        rewrite Hp, Hd, last_cause_cons. cbn [List.length List.map app].
        repeat split; [now rewrite Hl | | exact Hc].
        rewrite Hl. destruct rem as [| rem'].
        -- assert (Elt : (attempt <? retries client)%Z = false)
             by (apply Z.ltb_ge; lia).
           unfold evs. rewrite Elt. reflexivity.
        -- assert (Elt : (attempt <? retries client)%Z = true)
             by (apply Z.ltb_lt; lia).
           unfold evs. rewrite Elt. cbn [delays_of app Nat.sub].
           rewrite Nat.sub_0_r, Zrange_S. reflexivity.
      * destruct Hres as (status & Hp & Hl & Hd).
        exists status. rewrite Hp, Hd. cbn [List.length List.map app].
        assert (Elt : (attempt <? retries client)%Z = true)
          by (apply Z.ltb_lt; lia).
        unfold evs. rewrite Elt. cbn [delays_of app].
        rewrite Zrange_S. repeat split. lia.
Qed.

End RetryLoop.

Lemma last_cause_some (fails : list Thrown) (init : option string) :
  fails <> [] ->
  exists cause, last_cause fails init = Some (as_Error_message cause) /\
                In cause fails /\ rev fails = cause :: rev (removelast fails).
Proof.
  intros Hne. unfold last_cause.
  destruct (exists_last Hne) as (front & cause & ->).
  rewrite rev_app_distr. cbn. exists cause. repeat split.
  - apply in_or_app. right. now left.
  - now rewrite removelast_last.
Qed.

(** C3. [publish] posts at most [retries] times (3 by default) and stops at
    the first attempt that the sink accepts; after the failed attempt number
    k that is not the last one allowed it waits min(1000 * 2^(k-1), 5000) ms;
    it throws only when all [retries] attempts failed, and the error then
    carries the cause of the last failure.  With a ceiling of 3, two refusals
    followed by an acceptance give one delivery and the waits 1000 and 2000. *)
Theorem publish_retry_policy (client : UMHClient) (message : UMHMessage) (w : World) :
  (1 <= retries client)%Z ->
  retries (new_UMHClient {| opt_umhCoreUrl := umhCoreUrl client;
                            opt_timeout := None; opt_retries := None |}) = 3%Z
  /\ (exists (new : list Event) (fails : list Thrown),
        trace (snd (publish client message w)) = (trace w ++ new)%list /\
        (List.length (posts_of new) <= Z.to_nat (retries client))%nat /\
        delays_of new
        = List.map spec_backoff (Zrange 1 (List.length (posts_of new) - 1)) /\
        match fst (publish client message w) with
        | Returned _ =>
            exists status,
              posts_of new = (List.map SinkFail fails ++ [SinkOk status])%list
        | Threw e =>
            posts_of new = List.map SinkFail fails /\
            List.length fails = Z.to_nat (retries client) /\
            exists cause,
              rev fails = cause :: rev (removelast fails) /\
              e = ErrorObj ("Failed to publish to UMH-Core after "
                            ++ string_of_Z (retries client) ++ " attempts: "
                            ++ as_Error_message cause)
        end)
  /\ (forall e1 e2 status,
        retries client = 3%Z ->
        sink_results w (requests w) = SinkFail e1 ->
        sink_results w (S (requests w)) = SinkFail e2 ->
        sink_results w (S (S (requests w))) = SinkOk status ->
        exists new,
          trace (snd (publish client message w)) = (trace w ++ new)%list /\
          fst (publish client message w) = Returned tt /\
          posts_of new = [SinkFail e1; SinkFail e2; SinkOk status] /\
          delivered_of new = [message] /\
          delays_of new = [1000; 2000]%Z).
Proof.
  intros Hpos. split; [reflexivity |]. split.
  - destruct (publish_attempts_spec client message (Z.to_nat (retries client))
                1%Z None w ltac:(lia)) as (new & fails & Htr & Hres).
    exists new, fails. unfold publish, bind.
    destruct (publish_attempts client message (Z.to_nat (retries client)) 1 None w)
      as [r w1].
    cbn [fst snd] in *. destruct r as [cause |]; cbn [fst snd ret].
    + destruct Hres as (Hp & Hl & Hd & Hc).
      unfold ret. cbn [fst snd]. split; [exact Htr |].
      rewrite Hp, length_map. split; [lia |]. split; [exact Hd |].
      split; [reflexivity |]. split; [exact Hl |].
      assert (Hne : fails <> []) by (intros ->; cbn in Hl; lia).
      destruct (last_cause_some fails None Hne) as (c & Hlc & _ & Hrev).
      exists c. split; [exact Hrev |]. rewrite Hc, Hlc. reflexivity.
    + destruct Hres as (status & Hp & Hl & Hd).
      unfold ret. cbn [fst snd]. split; [exact Htr |].
      rewrite Hp, length_app, length_map. cbn [List.length].
      split; [lia |]. split.
      * replace (List.length fails + 1 - 1)%nat with (List.length fails) by lia.
        exact Hd.
      * now exists status.
  - intros e1 e2 status Hr H1 H2 H3.
    unfold publish, bind. rewrite Hr. change (Z.to_nat 3) with 3%nat.
    rewrite (publish_attempts_refused client message 2 1 None w e1 H1).
    rewrite publish_attempts_refused with (e := e2) by exact H2.
    rewrite publish_attempts_accepted with (status := status) by exact H3.
    rewrite Hr. cbn. eexists. split; [rewrite <- !app_assoc; reflexivity |].
    repeat split.
Qed.

Lemma attempted_of_app (a b : list Event) :
  attempted_of (a ++ b) = (attempted_of a ++ attempted_of b)%list.
Proof.
  induction a as [| e a IH]; [reflexivity |].
  destruct e; cbn; rewrite ?IH, <- ?app_assoc; reflexivity.
Qed.

Lemma delivered_of_app (a b : list Event) :
  delivered_of (a ++ b) = (delivered_of a ++ delivered_of b)%list.
Proof.
  induction a as [| e a IH]; [reflexivity |].
  destruct e as [path ms r | | | | |]; cbn; rewrite ?IH; try reflexivity.
  destruct r; rewrite ?IH, <- ?app_assoc; reflexivity.
Qed.

(** Every request of the retry loop carries the one message, and the message
    is delivered exactly when the loop ends on an acceptance. *)
Lemma publish_attempts_messages (client : UMHClient) (message : UMHMessage)
    (remaining : nat) :
  forall (attempt : Z) (lastError : option string) (w : World),
    exists new : list Event,
      trace (snd (publish_attempts client message remaining attempt lastError w))
      = (trace w ++ new)%list /\
      attempted_of new = repeat message (List.length (posts_of new)) /\
      delivered_of new
      = match fst (publish_attempts client message remaining attempt lastError w) with
        | None => [message]
        | Some _ => []
        end.
Proof.
  induction remaining as [| rem IH]; intros attempt lastError w.
  - exists []. cbn. rewrite app_nil_r. repeat split.
  - destruct (sink_results w (requests w)) as [status | e] eqn:Eres.
    + rewrite (publish_attempts_accepted client message rem attempt lastError w status Eres).
      eexists. cbn [fst snd after_attempt trace]. split; [reflexivity |].
      split; reflexivity.
    + rewrite (publish_attempts_refused client message rem attempt lastError w e Eres).
      set (evs := if (attempt <? retries client)%Z then _ else _).
      destruct (IH (attempt + 1)%Z (Some (as_Error_message e)) (after_attempt w evs))
        as (new & Htr & Hatt & Hdel).
      exists (evs ++ new)%list.
      split; [rewrite Htr; cbn [after_attempt trace]; now rewrite app_assoc |].
      rewrite attempted_of_app, delivered_of_app, posts_of_app, Hatt, Hdel.
      unfold evs. destruct (attempt <? retries client)%Z; cbn; split; reflexivity.
Qed.

Lemma publish_messages (client : UMHClient) (message : UMHMessage) (w : World) :
  exists new : list Event,
    trace (snd (publish client message w)) = (trace w ++ new)%list /\
    attempted_of new = repeat message (List.length (posts_of new)) /\
    delivered_of new
    = match fst (publish client message w) with
      | Returned _ => [message]
      | Threw _ => []
      end.
Proof.
  destruct (publish_attempts_messages client message (Z.to_nat (retries client))
              1%Z None w) as (new & Htr & Hatt & Hdel).
  exists new. unfold publish, bind.
  destruct (publish_attempts client message (Z.to_nat (retries client)) 1 None w)
    as [r w1].
  cbn [fst snd] in *. destruct r; cbn; repeat split; assumption.
Qed.

Section TickFailure.
Variable Math_sin : Q -> Q.
Variable parseFloat : string -> jsnum.
Variable toISOString : Z -> string.
Variable Date_parse : string -> option Z.
Variable env : ProcessEnv.
Variable roster : list CNCMachineConfig.

Let tick := UMH.publishSensorData Math_sin parseFloat toISOString Date_parse env roster.

(** A tick whose first message cannot be delivered: the error is logged and
    recorded, the manager keeps running, and the messages behind the first
    one are never sent. *)
Lemma tick_first_delivery_fails (s : UMH.UMHSimulationManager) (w : World)
    (client : UMHClient) (m1 : UMHMessage) (rest : list UMHMessage) (e : Thrown) :
  UMH.umhClient s = Some client ->
  UMH.isRunning s = true ->
  Z_or (UMH.batchSize (UMH.config s)) 1 = 1%Z ->
  let gen := generateOperationalReadings Math_sin parseFloat toISOString env roster
               (UMH.dataFactory s) w in
  let adapted := UMH.adapt_all Date_parse roster (fst (fst gen)) [] (snd gen) in
  fst adapted = m1 :: rest ->
  fst (publish client m1 (snd adapted)) = Threw e ->
  tick s w
  = (UMH.addError (UMH.with_dataFactory s (snd (fst gen)))
       ("UMH publishing error: " ++ message_of e),
     snd (log log_error "Error during UMH sensor data publishing" [message_of e]
            (snd (publish client m1 (snd adapted))))).
Proof.
  cbv zeta. intros Hc Hrun Hb Hmsgs Hthrow.
  unfold tick, UMH.publishSensorData. rewrite Hc, Hrun. cbn [negb].
  unfold bind.
  destruct (generateOperationalReadings Math_sin parseFloat toISOString env roster
              (UMH.dataFactory s) w) as [out w1].
  cbn [fst snd] in *.
  destruct (UMH.adapt_all Date_parse roster (fst out) [] w1) as [msgs w2].
  cbn [fst snd] in *. subst msgs.
  change (0 <? List.length (m1 :: rest))%nat with true. cbv iota.
  change (UMH.config (UMH.with_dataFactory s (snd out))) with (UMH.config s).
  rewrite Hb. change (1 <? 1)%Z with false. cbn [andb]. cbv iota.
  cbn [UMH.publish_each]. unfold bind.
  destruct (publish client m1 w2) as [r w3]. cbn [fst snd] in *. subst r.
  reflexivity.
Qed.

End TickFailure.

Lemma push_error_bounded (errs : list string) (e : string) :
  (List.length (push_error errs e) <= 10)%nat.
Proof.
  unfold push_error.
  destruct (10 <? List.length (errs ++ [e]))%nat eqn:E.
  - apply Nat.ltb_lt in E. rewrite length_skipn. lia.
  - apply Nat.ltb_ge in E. exact E.
Qed.

Lemma push_error_last (errs : list string) (e : string) :
  List.last (push_error errs e) EmptyString = e.
Proof.
  unfold push_error.
  destruct (10 <? List.length (errs ++ [e]))%nat eqn:E; [| apply last_last].
  apply Nat.ltb_lt in E. rewrite length_app in *. cbn [List.length] in *.
  replace (List.length errs + 1 - 10)%nat with (List.length errs - 9)%nat by lia.
  rewrite skipn_app.
  replace (List.length errs - 9 - List.length errs)%nat with 0%nat by lia.
  cbn [skipn]. apply last_last.
Qed.

(** C4 (what the code does). When the delivery of the first message of a tick
    fails for good, the manager records the failure in the error log, which
    never holds more than 10 entries, and stays ready for the next tick
    (running, timer and client untouched).  But the failure is not local to
    the message: the tick ends there, every request of the tick carried the
    failed message, nothing was delivered, and the messages behind it, those
    of the other machines included, were never sent; the activeMachines
    metric is not updated either. *)
Theorem failed_delivery_ends_the_tick
    (Math_sin : Q -> Q) (parseFloat : string -> jsnum) (toISOString : Z -> string)
    (Date_parse : string -> option Z) (env : ProcessEnv)
    (roster : list CNCMachineConfig)
    (s : UMH.UMHSimulationManager) (w : World)
    (client : UMHClient) (m1 : UMHMessage) (rest : list UMHMessage) (e : Thrown) :
  UMH.umhClient s = Some client ->
  UMH.isRunning s = true ->
  Z_or (UMH.batchSize (UMH.config s)) 1 = 1%Z ->
  let gen := generateOperationalReadings Math_sin parseFloat toISOString env roster
               (UMH.dataFactory s) w in
  let adapted := UMH.adapt_all Date_parse roster (fst (fst gen)) [] (snd gen) in
  let after :=
    UMH.publishSensorData Math_sin parseFloat toISOString Date_parse env roster s w in
  fst adapted = m1 :: rest ->
  fst (publish client m1 (snd adapted)) = Threw e ->
  (List.last (UMH.errors (UMH.metrics (fst after))) EmptyString
   = "UMH publishing error: " ++ message_of e /\
   (List.length (UMH.errors (UMH.metrics (fst after))) <= 10)%nat)
  /\ (UMH.isRunning (fst after) = true /\
      UMH.publishTimer (fst after) = UMH.publishTimer s /\
      UMH.umhClient (fst after) = Some client)
  /\ (exists new : list Event,
        trace (snd after) = (trace (snd adapted) ++ new)%list /\
        attempted_of new = repeat m1 (List.length (posts_of new)) /\
        delivered_of new = [])
  /\ UMH.activeMachines (UMH.metrics (fst after))
     = UMH.activeMachines (UMH.metrics s).
Proof.
  cbv zeta. intros Hc Hrun Hb Hmsgs Hthrow.
  rewrite (tick_first_delivery_fails Math_sin parseFloat toISOString Date_parse env
             roster s w client m1 rest e Hc Hrun Hb Hmsgs Hthrow).
  cbn [fst snd UMH.addError UMH.with_metrics UMH.with_dataFactory UMH.metrics
       UMH.errors UMH.isRunning UMH.publishTimer UMH.umhClient UMH.activeMachines].
  split; [| split; [| split]].
  - split; [apply push_error_last | apply push_error_bounded].
  - repeat split; assumption.
  - destruct (publish_messages client m1
                (snd (UMH.adapt_all Date_parse roster
                        (fst (fst (generateOperationalReadings Math_sin parseFloat
                                     toISOString env roster (UMH.dataFactory s) w)))
                        []
                        (snd (generateOperationalReadings Math_sin parseFloat
                                toISOString env roster (UMH.dataFactory s) w)))))
      as (new & Htr & Hatt & Hdel).
    rewrite Hthrow in Hdel.
    exists (new ++ [Logged log_error "Error during UMH sensor data publishing"
                      [message_of e]])%list.
    unfold log, emit. cbn [snd trace].
    rewrite Htr, attempted_of_app, delivered_of_app, posts_of_app, Hatt, Hdel.
    cbn. rewrite !app_nil_r, <- app_assoc. repeat split.
  - reflexivity.
Qed.

(** ** Tool selection and tool wear *)

Lemma cnc_001_in_roster : hd_error (CNC_MACHINES sample_env) = Some cnc_001.
Proof. reflexivity. Qed.

(** While the planned end of the machining phase lies ahead of the clock, the
    selected tool is one of 1..5. *)
Lemma toolNumber_in_range_before_due (c : MachineOperationCycle) (t : Z) (d : Q) :
  duration c = Fin d ->
  (startTime c <= t)%Z ->
  inject_Z (t - startTime c) / 1000 < d ->
  exists k : Z,
    toolNumber_at c t = Fin (inject_Z k + 1) /\ (0 <= k <= 4)%Z.
Proof.
  intros Hd Hle Hlt. unfold toolNumber_at. rewrite Hd.
  set (e := inject_Z (t - startTime c)) in *.
  assert (He : 0 <= e).
  { unfold e. change 0 with (inject_Z 0). rewrite <- Zle_Qle. lia. }
  assert (Hdpos : 0 < d * 1000).
  { assert (0 <= e / 1000) by (apply Qle_shift_div_l; lra). lra. }
  cbn [jmul num jdiv].
  destruct (d * 1000 ?= 0)%Q eqn:Ec.
  - apply Qeq_alt in Ec. lra.
  - apply Qlt_alt in Ec. lra.
  - cbn [jmul Math_floor jadd].
    exists (Qfloor (e / (d * 1000) * 5)). split; [reflexivity |].
    assert (H0 : 0 <= e / (d * 1000)) by (apply Qle_shift_div_l; lra).
    assert (H1 : e / (d * 1000) < 1).
    { apply Qlt_shift_div_r; [exact Hdpos |].
      assert (e / 1000 * 1000 == e) by (field).
      lra. }
    split.
    + change 0%Z with (Qfloor 0). apply Qfloor_resp_le. lra.
    + assert (Hf : (Qfloor (e / (d * 1000) * 5) < 5)%Z).
      { rewrite Zlt_Qlt.
        pose proof (Qfloor_le (e / (d * 1000) * 5)) as Hfl.
        change (inject_Z 5) with 5. lra. }
      lia.
Qed.

(** C6 (what the code does at the planned end of the phase).  The tool number
    is [floor(elapsed / planned * 5) + 1] without any clamp: at an elapsed
    time equal to the planned duration it is 6.  A tick reaches that value
    when the clock passes the planned end between the read of [updateCycle]
    (599.999 s: the phase is not over) and the read of
    [generateCurrentToolPayload] (600 s): the phase is still machining and
    the current-tool reading carries tool 6. *)
Theorem current_tool_is_six_at_planned_end
    (Math_sin : Q -> Q) (parseFloat : string -> jsnum) (toISOString : Z -> string) :
  toolNumber_at (currentCycle machining_generator) 600000 = Fin 6
  /\ value (fst (generateCurrentToolPayload toISOString machining_generator 600000
                   (world_at 600000)))
     = VNum (Fin 6)
  /\ phase (currentCycle
       (snd (fst (generateSensorReadings Math_sin parseFloat toISOString sample_env
                    machining_generator crossing_world)))) = machining
  /\ option_map value
       (reading_named "current-tool"
          (fst (fst (generateSensorReadings Math_sin parseFloat toISOString sample_env
                       machining_generator crossing_world))))
     = Some (VNum (Fin 6)).
Proof.
  repeat match goal with |- _ /\ _ => split end; vm_compute; reflexivity.
Qed.

(** Nothing that a tick does touches the wear table. *)
Lemma advanceCyclePhase_frame (this : CNCDataGenerator) (w : World) :
  let this' := fst (advanceCyclePhase this w) in
  machine this' = machine this /\
  cycleStartTime this' = cycleStartTime this /\
  toolWearFactors this' = toolWearFactors this /\
  vibrationBaseline this' = vibrationBaseline this /\
  temperatureBaseline this' = temperatureBaseline this /\
  lastUpdate this' = lastUpdate this.
Proof.
  unfold advanceCyclePhase, bind, Date_now, Math_random, ret.
  destruct (phase (currentCycle this)); cbn; try (repeat split; reflexivity).
  destruct (Qle_bool 0.05 _); cbn; [| repeat split; reflexivity].
  destruct (Qle_bool 0.15 _); cbn; repeat split; reflexivity.
Qed.

Lemma updateCycle_frame (this : CNCDataGenerator) (w : World) :
  let this' := fst (updateCycle this w) in
  machine this' = machine this /\
  cycleStartTime this' = cycleStartTime this /\
  toolWearFactors this' = toolWearFactors this /\
  vibrationBaseline this' = vibrationBaseline this /\
  temperatureBaseline this' = temperatureBaseline this /\
  lastUpdate this' = lastUpdate this.
Proof.
  cbv zeta. rewrite updateCycle_unfold. cbv zeta.
  destruct (jge _ _).
  - apply advanceCyclePhase_frame.
  - cbn. repeat split; reflexivity.
Qed.

Ltac step_bind :=
  match goal with
  | |- context [let (_, _) := ?c in _] =>
      lazymatch c with
      | context [let (_, _) := _ in _] => fail
      | _ => let a := fresh "a" in let w := fresh "w" in destruct c as [a w]
      end
  end.

Lemma generateSensorReadings_state
    (Math_sin : Q -> Q) (parseFloat : string -> jsnum) (toISOString : Z -> string)
    (env : ProcessEnv) (this : CNCDataGenerator) (w : World) :
  snd (fst (generateSensorReadings Math_sin parseFloat toISOString env this w))
  = with_lastUpdate (fst (updateCycle this w))
      (clock_reads (snd (updateCycle this w)) (reads (snd (updateCycle this w)))).
Proof.
  unfold generateSensorReadings, bind.
  destruct (updateCycle this w) as [this1 w1]. cbn [fst snd Date_now].
  destruct (coolant_system (capabilities (machine this1)));
    unfold bind; repeat step_bind; reflexivity.
Qed.





(** ** Reading generation in two worlds that show the same instant *)

Section Related.
Variable now : Z.

Lemma related_ret {A : Type} (R : A -> A -> Prop) (a1 a2 : A) :
  R a1 a2 -> related now R (ret a1) (ret a2).
Proof. intros H w1 w2 Hw. split; [exact H | exact Hw]. Qed.

Lemma related_bind {A B : Type} (R : A -> A -> Prop) (R' : B -> B -> Prop)
    (c1 c2 : M A) (k1 k2 : A -> M B) :
  related now R c1 c2 ->
  (forall a1 a2, R a1 a2 -> related now R' (k1 a1) (k2 a2)) ->
  related now R' (bind c1 k1) (bind c2 k2).
Proof.
  intros Hc Hk w1 w2 Hw. unfold bind.
  destruct (Hc w1 w2 Hw) as [HR Hw'].
  destruct (c1 w1) as [a1 w1'], (c2 w2) as [a2 w2']. cbn [fst snd] in *.
  exact (Hk a1 a2 HR w1' w2' Hw').
Qed.

Lemma related_Date_now :
  related now (fun t1 t2 => t1 = now /\ t2 = now) Date_now Date_now.
Proof.
  intros w1 w2 [H1 H2]. cbn. repeat split; trivial; intro i; cbn; trivial.
Qed.

Lemma related_Math_random :
  related now (fun _ _ => True) Math_random Math_random.
Proof.
  intros w1 w2 [H1 H2]. cbn. repeat split; trivial; intro i; cbn; trivial.
Qed.

End Related.


Ltac related_inner :=
  repeat first
    [ eapply related_bind;
      [ apply related_Date_now | intros ? ? [-> ->] ]
    | eapply related_bind;
      [ apply related_Math_random | intros ? ? _ ] ];
  apply related_ret.

(** A payload that takes no draw: the same in both worlds. *)
Ltac related_pure now :=
  apply (related_bind now eq);
  [ related_inner; reflexivity
  | intros ? ? ->; apply related_ret; left; reflexivity ].

(** A payload that takes a draw: listed in [drawn_sensors]. *)
Ltac related_drawn now :=
  apply (related_bind now (fun _ _ => True));
  [ related_inner; exact I
  | intros ? ? _; apply related_ret; right; cbn; tauto ].

Section GeneratorsRelated.
Variable Math_sin : Q -> Q.
Variable parseFloat : string -> jsnum.
Variable toISOString : Z -> string.
Variable now : Z.
Variable this : CNCDataGenerator.
Variable ts : Z.

Lemma generateSpindleSpeedPayload_related :
  related now (same_unless_drawn (phase_of this) "spindle-speed")
    (generateSpindleSpeedPayload Math_sin toISOString this ts)
    (generateSpindleSpeedPayload Math_sin toISOString this ts).
Proof.
  unfold generateSpindleSpeedPayload.
  destruct (phase_of this); first [related_pure now | related_drawn now].
Qed.

Lemma generateSpindleLoadPayload_related :
  related now (same_unless_drawn (phase_of this) "spindle-load")
    (generateSpindleLoadPayload Math_sin toISOString this ts)
    (generateSpindleLoadPayload Math_sin toISOString this ts).
Proof.
  unfold generateSpindleLoadPayload.
  destruct (phase_of this); first [related_pure now | related_drawn now].
Qed.

Lemma generateAxisPositionPayload_related (axis : string) :
  related now eq
    (generateAxisPositionPayload Math_sin parseFloat toISOString this axis ts)
    (generateAxisPositionPayload Math_sin parseFloat toISOString this axis ts).
Proof.
  unfold generateAxisPositionPayload. cbv zeta.
  apply (related_bind now eq).
  - destruct (phase_of this); related_inner; reflexivity.
  - intros ? ? ->. apply related_ret. reflexivity.
Qed.

Lemma generateFeedratePayload_related :
  related now (same_unless_drawn (phase_of this) "feedrate")
    (generateFeedratePayload Math_sin toISOString this ts)
    (generateFeedratePayload Math_sin toISOString this ts).
Proof.
  unfold generateFeedratePayload. cbv zeta.
  destruct (phase_of this); first [related_pure now | related_drawn now].
Qed.

Lemma generateVibrationPayload_related :
  related now (same_unless_drawn (phase_of this) "vibration")
    (generateVibrationPayload Math_sin toISOString this ts)
    (generateVibrationPayload Math_sin toISOString this ts).
Proof.
  unfold generateVibrationPayload. cbv zeta.
  destruct (phase_of this); related_drawn now.
Qed.

Lemma generateTemperaturePayload_related :
  related now (same_unless_drawn (phase_of this) "temperature")
    (generateTemperaturePayload toISOString this ts)
    (generateTemperaturePayload toISOString this ts).
Proof.
  unfold generateTemperaturePayload. cbv zeta.
  destruct (phase_of this); related_drawn now.
Qed.

Lemma generateCurrentToolPayload_related :
  related now eq
    (generateCurrentToolPayload toISOString this ts)
    (generateCurrentToolPayload toISOString this ts).
Proof.
  unfold generateCurrentToolPayload.
  apply (related_bind now eq).
  - destruct (phase_of this); related_inner; reflexivity.
  - intros ? ? ->. apply related_ret. reflexivity.
Qed.

Lemma generateCoolantPressurePayload_related :
  related now (same_unless_drawn (phase_of this) "coolant-pressure")
    (generateCoolantPressurePayload Math_sin toISOString this ts)
    (generateCoolantPressurePayload Math_sin toISOString this ts).
Proof.
  unfold generateCoolantPressurePayload.
  destruct (phase_of this); related_drawn now.
Qed.

Lemma generateCoolantFlowPayload_related :
  related now (same_unless_drawn (phase_of this) "coolant-flow")
    (generateCoolantFlowPayload Math_sin toISOString this ts)
    (generateCoolantFlowPayload Math_sin toISOString this ts).
Proof.
  unfold generateCoolantFlowPayload.
  destruct (phase_of this); related_drawn now.
Qed.

Lemma generateOperationalStatusPayload_related :
  related now eq
    (generateOperationalStatusPayload toISOString this ts)
    (generateOperationalStatusPayload toISOString this ts).
Proof.
  unfold generateOperationalStatusPayload. cbv zeta.
  related_inner. reflexivity.
Qed.

Lemma generateCyclePhasePayload_related :
  related now eq
    (generateCyclePhasePayload toISOString this ts)
    (generateCyclePhasePayload toISOString this ts).
Proof.
  unfold generateCyclePhasePayload. cbv zeta.
  related_inner. reflexivity.
Qed.

Lemma generatePartsCountPayload_related :
  related now eq
    (generatePartsCountPayload toISOString this ts)
    (generatePartsCountPayload toISOString this ts).
Proof.
  unfold generatePartsCountPayload. cbv zeta.
  related_inner. reflexivity.
Qed.

Lemma generateEfficiencyPayload_related :
  related now eq
    (generateEfficiencyPayload toISOString this ts)
    (generateEfficiencyPayload toISOString this ts).
Proof.
  unfold generateEfficiencyPayload. cbv zeta.
  eapply related_bind; [apply related_Date_now | intros ? ? [-> ->]].
  apply (related_bind now eq).
  - destruct (phase_of this); related_inner; reflexivity.
  - intros ? ? ->. apply related_ret. reflexivity.
Qed.

Lemma axis_readings_related (prefix : string) (axisLabels : list string) :
  related now eq
    (axis_readings Math_sin parseFloat toISOString this prefix ts axisLabels)
    (axis_readings Math_sin parseFloat toISOString this prefix ts axisLabels).
Proof.
  induction axisLabels as [| axis rest IH]; cbn [axis_readings].
  - apply related_ret. reflexivity.
  - apply (related_bind now eq); [apply generateAxisPositionPayload_related |].
    intros ? ? ->.
    apply (related_bind now eq); [exact IH |].
    intros ? ? ->. apply related_ret. reflexivity.
Qed.

End GeneratorsRelated.

Lemma same_or_drawn_refl (p : Phase) (r : SensorReading) : same_or_drawn p r r.
Proof. split; [reflexivity | left; reflexivity]. Qed.

Lemma Forall2_same_or_drawn_refl (p : Phase) (l : list SensorReading) :
  Forall2 (same_or_drawn p) l l.
Proof. induction l; constructor; [apply same_or_drawn_refl | assumption]. Qed.

Lemma same_or_drawn_of_payloads (p : Phase) (prefix name : string)
    (p1 p2 : MQTTPayload) :
  same_unless_drawn p name p1 p2 ->
  same_or_drawn p {| topicPath := prefix ++ "/" ++ name; payload := p1 |}
                  {| topicPath := prefix ++ "/" ++ name; payload := p2 |}.
Proof.
  intros [-> | Hin]; split; try reflexivity; [left; reflexivity |].
  right. exists prefix, name. split; [exact Hin | reflexivity].
Qed.

Lemma updateCycle_related_not_due (now : Z) (this : CNCDataGenerator) :
  jge (seconds_between now (startTime (currentCycle this)))
      (duration (currentCycle this)) = false ->
  related now (fun a b => a = this /\ b = this) (updateCycle this) (updateCycle this).
Proof.
  intros Hnd w1 w2 [H1 H2]. rewrite !updateCycle_unfold. cbv zeta.
  rewrite (H1 (reads w1)), (H2 (reads w2)), Hnd. cbn [fst snd].
  repeat split; intro i; cbn; trivial.
Qed.

Section ReadingsRelated.
Variable Math_sin : Q -> Q.
Variable parseFloat : string -> jsnum.
Variable toISOString : Z -> string.
Variable env : ProcessEnv.
Variable now : Z.
Variable this : CNCDataGenerator.

Hypothesis not_due :
  jge (seconds_between now (startTime (currentCycle this)))
      (duration (currentCycle this)) = false.

Lemma generateSensorReadings_related :
  related now
    (fun out1 out2 =>
       Forall2 (same_or_drawn (phase (currentCycle this))) (fst out1) (fst out2)
       /\ snd out1 = with_lastUpdate this now
       /\ snd out2 = with_lastUpdate this now)
    (generateSensorReadings Math_sin parseFloat toISOString env this)
    (generateSensorReadings Math_sin parseFloat toISOString env this).
Proof.
  unfold generateSensorReadings.
  eapply related_bind; [apply (updateCycle_related_not_due now this not_due) |].
  intros ? ? [-> ->].
  eapply related_bind; [apply related_Date_now | intros ? ? [-> ->]].
  cbv zeta.
  eapply related_bind; [apply generateSpindleSpeedPayload_related; assumption |].
  intros ss1 ss2 Hss.
  eapply related_bind; [apply generateSpindleLoadPayload_related; assumption |].
  intros sl1 sl2 Hsl.
  eapply related_bind; [apply axis_readings_related; assumption |].
  intros ? positions ->.
  eapply related_bind; [apply generateFeedratePayload_related; assumption |].
  intros fr1 fr2 Hfr.
  eapply related_bind; [apply generateVibrationPayload_related; assumption |].
  intros vb1 vb2 Hvb.
  eapply related_bind; [apply generateTemperaturePayload_related; assumption |].
  intros tp1 tp2 Htp.
  eapply related_bind; [apply generateCurrentToolPayload_related; assumption |].
  intros ? tool ->.
  apply (related_bind now (Forall2 (same_or_drawn (phase (currentCycle this))))).
  { destruct (coolant_system (capabilities (machine this))).
    - eapply related_bind; [apply generateCoolantPressurePayload_related; assumption |].
      intros cp1 cp2 Hcp.
      eapply related_bind; [apply generateCoolantFlowPayload_related; assumption |].
      intros cf1 cf2 Hcf.
      apply related_ret.
      constructor; [exact (same_or_drawn_of_payloads _ _ _ _ _ Hcp) |].
      constructor; [exact (same_or_drawn_of_payloads _ _ _ _ _ Hcf) |].
      constructor.
    - apply related_ret. constructor. }
  intros coolant1 coolant2 Hcoolant.
  eapply related_bind; [apply generateOperationalStatusPayload_related; assumption |].
  intros ? operational ->.
  eapply related_bind; [apply generateCyclePhasePayload_related; assumption |].
  intros ? cyclePhase ->.
  eapply related_bind; [apply generatePartsCountPayload_related; assumption |].
  intros ? partsCount ->.
  eapply related_bind; [apply generateEfficiencyPayload_related; assumption |].
  intros ? efficiency ->.
  apply related_ret. cbn [fst snd]. split; [| split; reflexivity].
  constructor; [exact (same_or_drawn_of_payloads _ _ _ _ _ Hss) |].
  constructor; [exact (same_or_drawn_of_payloads _ _ _ _ _ Hsl) |].
  apply Forall2_app; [apply Forall2_same_or_drawn_refl |].
  constructor; [exact (same_or_drawn_of_payloads _ _ _ _ _ Hfr) |].
  constructor; [exact (same_or_drawn_of_payloads _ _ _ _ _ Hvb) |].
  constructor; [exact (same_or_drawn_of_payloads _ _ _ _ _ Htp) |].
  constructor; [apply same_or_drawn_refl |].
  apply Forall2_app; [exact Hcoolant |].
  apply Forall2_same_or_drawn_refl.
Qed.

End ReadingsRelated.

(** C8 as stated fails: from one profile, one state and one instant, two
    calls that meet different [Math.random()] draws give different readings.
    An idle machine with a temperature baseline of 50 reports 52.5 on a draw
    of 1/2 and 50 on a draw of 0; no choice of the runtime's built-ins makes
    the two reading sets equal. *)
Lemma readings_differ_with_the_draws :
  ~ exists (Math_sin : Q -> Q) (parseFloat : string -> jsnum)
           (toISOString : Z -> string),
      forall (env : ProcessEnv) (this : CNCDataGenerator) (w1 w2 : World) (now : Z),
        frozen_clock now w1 -> frozen_clock now w2 ->
        fst (fst (generateSensorReadings Math_sin parseFloat toISOString env this w1))
        = fst (fst (generateSensorReadings Math_sin parseFloat toISOString env this w2)).
Proof.
  intros (Math_sin & parseFloat & toISOString & H).
  specialize (H sample_env idle_generator calm_world low_world sample_now
                (fun _ => eq_refl) (fun _ => eq_refl)).
  apply (f_equal (fun rs => option_map value (reading_named "temperature" rs))) in H.
  vm_compute in H. discriminate H.
Qed.

(** C8, amended.  From one profile, one state and one instant at which no
    phase change is due, two calls of [generateSensorReadings] give reading
    lists with the same topics in the same order, and the same payload at
    every position except those of the sensors that take a fresh
    [Math.random()] draw in the current phase (vibration, temperature, coolant
    pressure and flow; spindle load in loading, machining and unloading;
    spindle speed and feedrate in machining).  The call changes nothing of the
    generator but [lastUpdate]. *)
Theorem readings_agree_up_to_draws
    (Math_sin : Q -> Q) (parseFloat : string -> jsnum) (toISOString : Z -> string)
    (env : ProcessEnv) (this : CNCDataGenerator) (w1 w2 : World) (now : Z) :
  frozen_clock now w1 -> frozen_clock now w2 ->
  jge (seconds_between now (startTime (currentCycle this)))
      (duration (currentCycle this)) = false ->
  Forall2 (same_or_drawn (phase (currentCycle this)))
    (fst (fst (generateSensorReadings Math_sin parseFloat toISOString env this w1)))
    (fst (fst (generateSensorReadings Math_sin parseFloat toISOString env this w2)))
  /\ snd (fst (generateSensorReadings Math_sin parseFloat toISOString env this w1))
     = with_lastUpdate this now
  /\ snd (fst (generateSensorReadings Math_sin parseFloat toISOString env this w2))
     = with_lastUpdate this now.
Proof.
  intros H1 H2 Hnd.
  exact (proj1 (generateSensorReadings_related Math_sin parseFloat toISOString env
                  now this Hnd w1 w2 (conj H1 H2))).
Qed.

(** ** The statements at concrete inputs *)

Lemma calm_draws (t : Z) : unit_draws (world_at t).
Proof. intros i. cbn. split; [discriminate | reflexivity]. Defined.

(** C1 at a machining generator: the unloading phase gets 45 s. *)
Lemma advanceCyclePhase_duration_in_range_witness :
  unit_draws (world_at 600000) /\
  exists lo hi d,
    spec_duration_range (phase (currentCycle machining_generator))
      (phase (currentCycle (fst (advanceCyclePhase machining_generator
                                   (world_at 600000))))) = Some (lo, hi) /\
    duration (currentCycle (fst (advanceCyclePhase machining_generator
                                   (world_at 600000)))) = Fin d /\
    lo <= d /\ d <= hi.
Proof.
  split; [exact (calm_draws 600000) |].
  exact (advanceCyclePhase_duration_in_range machining_generator (world_at 600000)
           (calm_draws 600000)).
Defined.

(** C5 at the planned end of a machining phase: the first call moves on to
    unloading, the second changes nothing. *)
Lemma updateCycle_idempotent_same_instant_witness :
  phase (currentCycle (fst (updateCycle machining_generator (world_at 600000))))
  = unloading /\
  fst (updateCycle (fst (updateCycle machining_generator (world_at 600000)))
                   (snd (updateCycle machining_generator (world_at 600000))))
  = fst (updateCycle machining_generator (world_at 600000)).
Proof.
  split; [reflexivity |].
  exact (updateCycle_idempotent_same_instant machining_generator (world_at 600000)
           600000 (calm_draws 600000) (fun _ => eq_refl)).
Defined.

(** C10 at a message that is well-formed but for its timestamp 0. *)
Lemma validateUMHMessage_rejects_epoch_zero_witness :
  valid (validateUMHMessage epoch_message) = false /\
  errors (validateUMHMessage epoch_message)
  = ["Payload missing or invalid timestamp_ms"].
Proof.
  split; [| reflexivity].
  exact (proj1 (proj2
    (validateUMHMessage_rejects_epoch_zero epoch_message
       {| umh_value := VNum (Fin 1200); timestamp_ms := VNum (Fin 0) |} 0
       eq_refl eq_refl (Qeq_refl 0)))).
Defined.

(** C2 at a reading without a value: rejected, logged, dropped. *)
Lemma produced_message_validation_witness :
  spec_must_reject (message_for sample_Date_parse cnc_001 valueless_reading) = true /\
  fst (UMH.adapt_reading sample_Date_parse "cnc-001" cnc_001 valueless_reading
         calm_world) = None /\
  trace (snd (UMH.adapt_reading sample_Date_parse "cnc-001" cnc_001 valueless_reading
                calm_world))
  = [Logged log_warn "Invalid UMH message format"
       ["cnc-001"; "spindle-speed"; "Payload missing value"]].
Proof.
  split; [reflexivity |].
  destruct (proj1 (produced_message_validation sample_Date_parse
                     (CNC_MACHINES sample_env) "cnc-001" cnc_001 valueless_reading []
                     calm_world) eq_refl) as (_ & Hnone & Htrace).
  split; [exact Hnone | exact Htrace].
Defined.

(** C3 with the default ceiling, at a sink that refuses twice. *)
Lemma publish_retry_policy_witness :
  (1 <= retries sample_client)%Z /\
  fst (publish sample_client epoch_message flaky_world) = Returned tt /\
  delays_of (trace (snd (publish sample_client epoch_message flaky_world)))
  = [1000; 2000]%Z /\
  delivered_of (trace (snd (publish sample_client epoch_message flaky_world)))
  = [epoch_message].
Proof.
  assert (Hpos : (1 <= retries sample_client)%Z) by (cbn; discriminate).
  split; [exact Hpos |].
  destruct (proj2 (proj2 (publish_retry_policy sample_client epoch_message flaky_world
                            Hpos))
              (ErrorObj "ETIMEDOUT") (ErrorObj "ETIMEDOUT") 200%Z
              eq_refl eq_refl eq_refl eq_refl)
    as (new & Htr & Hret & _ & Hdel & Hdelays).
  rewrite Htr. cbn [trace flaky_world app].
  split; [exact Hret |]. split; [exact Hdelays | exact Hdel].
Defined.

(** C9 on a broker that accepts the connection: 9 after the first tick. *)
Lemma activeMachines_excludes_offline_witness :
  exists s,
    fst (MQTT.session sample_sin sample_parseFloat sample_toISOString
           sample_Date_parse sample_env (CNC_MACHINES sample_env)
           sample_mqtt_config [MQTT.Tick] calm_world) = Some s
    /\ MQTT.activeMachines (MQTT.metrics s) = 9%Z.
Proof.
  exact (proj2 (proj2 (proj2
    (activeMachines_excludes_offline sample_sin sample_parseFloat sample_toISOString
       sample_Date_parse sample_env sample_mqtt_config calm_world [] []
       ltac:(vm_compute; reflexivity))))).
Defined.

(** C8 at an idle generator, on draws of 1/2 and of 0. *)
Lemma readings_agree_up_to_draws_witness :
  Forall2 (same_or_drawn idle)
    (fst (fst (generateSensorReadings sample_sin sample_parseFloat sample_toISOString
                 sample_env idle_generator calm_world)))
    (fst (fst (generateSensorReadings sample_sin sample_parseFloat sample_toISOString
                 sample_env idle_generator low_world))).
Proof.
  exact (proj1
    (readings_agree_up_to_draws sample_sin sample_parseFloat sample_toISOString
       sample_env idle_generator calm_world low_world sample_now
       (fun _ => eq_refl) (fun _ => eq_refl) eq_refl)).
Defined.


(** C4 at a sink that refuses the three attempts for the first message of the
    first tick and would accept everything after them. *)
Lemma failed_delivery_ends_the_tick_witness :
  List.last (UMH.errors (UMH.metrics (fst (umh_first_tick refusing_world)))) EmptyString
  = "UMH publishing error: Failed to publish to UMH-Core after 3 attempts: ECONNREFUSED"
  /\ UMH.isRunning (fst (umh_first_tick refusing_world)) = true
  /\ UMH.activeMachines (UMH.metrics (fst (umh_first_tick refusing_world)))
     = UMH.activeMachines (UMH.metrics (fst (umh_started refusing_world))).
Proof.
  unfold umh_first_tick.
  change "UMH publishing error: Failed to publish to UMH-Core after 3 attempts: ECONNREFUSED"
    with ("UMH publishing error: "
          ++ message_of
               (ErrorObj "Failed to publish to UMH-Core after 3 attempts: ECONNREFUSED")).
  destruct (failed_delivery_ends_the_tick sample_sin sample_parseFloat
              sample_toISOString sample_Date_parse sample_env (CNC_MACHINES sample_env)
              (fst (umh_started refusing_world)) (snd (umh_started refusing_world))
              manager_client
              (hd epoch_message (fst (umh_first_tick_messages refusing_world)))
              (tl (fst (umh_first_tick_messages refusing_world)))
              (ErrorObj "Failed to publish to UMH-Core after 3 attempts: ECONNREFUSED")
              ltac:(vm_compute; reflexivity)
              ltac:(vm_compute; reflexivity)
              ltac:(vm_compute; reflexivity)
              ltac:(vm_compute; reflexivity)
              ltac:(vm_compute; reflexivity))
    as ((Hlast & _) & (Hrun & _) & _ & Hact).
  split; [exact Hlast |]. split; [exact Hrun | exact Hact].
Defined.

(** The same first tick on a sink that accepts everything delivers 136
    messages for 9 machines; on the refusing sink it makes three requests,
    all for the first message, and delivers none of the 136. *)
Example first_tick_with_and_without_refusals :
  List.length (fst (umh_first_tick_messages refusing_world)) = 136%nat
  /\ List.length (delivered_of (trace (snd (umh_first_tick calm_world)))) = 136%nat
  /\ UMH.activeMachines (UMH.metrics (fst (umh_first_tick calm_world))) = 9%Z
  /\ attempted_of (trace (snd (umh_first_tick refusing_world)))
     = repeat (hd epoch_message (fst (umh_first_tick_messages refusing_world))) 3
  /\ delivered_of (trace (snd (umh_first_tick refusing_world))) = []
  /\ UMH.activeMachines (UMH.metrics (fst (umh_first_tick refusing_world))) = 0%Z.
Proof.
  repeat match goal with |- _ /\ _ => split end; vm_compute; reflexivity.
Qed.

(** ** Starting the UMH simulation *)

(** [connect] fails exactly when the sink refuses both the health check and
    the request for the root. *)
Lemma connect_outcome (client : UMHClient) (w : World) :
  match fst (connect client w) with
  | Returned _ =>
      exists status,
        sink_results w (requests w) = SinkOk status \/
        sink_results w (S (requests w)) = SinkOk status
  | Threw e =>
      exists e0 e1,
        sink_results w (requests w) = SinkFail e0 /\
        sink_results w (S (requests w)) = SinkFail e1 /\
        e = ErrorObj ("UMH-Core connection failed: " ++ as_Error_message e1)
  end.
Proof.
  unfold connect, bind, log, emit, http_get, sink_request, ret.
  cbn [fst snd sink_results requests].
  destruct (sink_results w (requests w)) as [st0 | e0] eqn:E0;
    cbn [fst snd sink_results requests].
  - exists st0. now left.
  - destruct (sink_results w (S (requests w))) as [st1 | e1] eqn:E1;
      cbn [fst snd].
    + exists st1. now right.
    + exists e0, e1. repeat split.
Qed.

(** A manager that is not running fails to start exactly when the connection
    fails: the error is the connection error, and the manager is left
    stopped, without timer; otherwise it runs, with its timer set. *)
Lemma UMH_start_fails_only_on_connection_failure
    (s : UMH.UMHSimulationManager) (w : World) (s' : UMH.UMHSimulationManager)
    (out : Outcome unit) (w' : World) :
  UMH.isRunning s = false ->
  UMH.start s w = ((s', out), w') ->
  match out with
  | Returned _ =>
      UMH.isRunning s' = true /\
      UMH.publishTimer s' = Some (UMH.publishInterval (UMH.config s)) /\
      exists status,
        sink_results w (requests w) = SinkOk status \/
        sink_results w (S (requests w)) = SinkOk status
  | Threw e =>
      UMH.isRunning s' = false /\
      UMH.publishTimer s' = None /\
      exists e0 e1,
        sink_results w (requests w) = SinkFail e0 /\
        sink_results w (S (requests w)) = SinkFail e1 /\
        e = ErrorObj ("UMH-Core connection failed: " ++ as_Error_message e1)
  end.
Proof.
  intros Hrun E. unfold UMH.start in E. rewrite Hrun in E.
  unfold UMH.connectUMH, bind in E.
  destruct (log log_info "Starting UMH-Core Direct Integration CNC Simulation Service"
              [] w) as [u0 w0] eqn:E0.
  destruct (log log_info "Connecting to UMH-Core..." [UMH.cfg_umhCoreUrl (UMH.config s)]
              w0) as [u1 w1] eqn:E1.
  assert (Hsink : sink_results w1 = sink_results w /\ requests w1 = requests w).
  { unfold log, emit in E0, E1.
    apply (f_equal snd) in E0. apply (f_equal snd) in E1. cbn [snd] in E0, E1.
    subst w0 w1. split; reflexivity. }
  destruct Hsink as [Hs Hr].
  match type of E with
  | context [connect ?c w1] =>
      pose proof (connect_outcome c w1) as Hc;
      destruct (connect c w1) as [r w2]
  end.
  rewrite Hs, Hr in Hc. cbn [fst] in Hc.
  destruct r as [u | e].
  - unfold bind, log, emit, ret, UMH.startPublishing, Date_now in E.
    cbn [fst snd] in E.
    apply (f_equal fst) in E. cbn [fst] in E.
    pose proof (f_equal fst E) as Es. pose proof (f_equal snd E) as Eo.
    cbn [fst snd] in Es, Eo. subst s' out.
    repeat split. exact Hc.
  - unfold bind, log, emit, ret, UMH.cleanup, UMH.disconnectUMH, disconnect in E.
    cbn [fst snd UMH.umhClient UMH.with_timer UMH.addError UMH.with_metrics
         UMH.with_client] in E.
    unfold bind, log, emit, ret in E. cbn [fst snd] in E.
    apply (f_equal fst) in E. cbn [fst] in E.
    pose proof (f_equal fst E) as Es. pose proof (f_equal snd E) as Eo.
    cbn [fst snd] in Es, Eo. subst s' out.
    repeat split. exact Hc.
Qed.

(** * Further properties of the code *)

(** ** The cycle of one machine *)

Lemma advanceCyclePhase_step (this : CNCDataGenerator) (w : World) :
  cycle_step (phase (currentCycle this))
             (phase (currentCycle (fst (advanceCyclePhase this w)))) = true /\
  totalPartsProduced (fst (advanceCyclePhase this w))
  = (totalPartsProduced this
     + match phase (currentCycle this) with machining => 1 | _ => 0 end)%Z.
Proof.
  unfold advanceCyclePhase, bind, Date_now, Math_random, ret.
  destruct (phase (currentCycle this)); cbn; try (split; [reflexivity | lia]).
  destruct (Qle_bool 0.05 _); cbn; [| split; [reflexivity | lia]].
  destruct (Qle_bool 0.15 _); cbn; split; try reflexivity; lia.
Qed.

(** X1. One call of [updateCycle] either leaves the cycle and the parts
    counter alone (the phase is not over), or, when the elapsed time has
    reached the planned duration, takes exactly one transition of the cycle
    idle -> loading -> machining -> unloading -> idle | maintenance | error
    -> idle, restarts the phase clock at the instant read by
    [advanceCyclePhase], and counts one part exactly when the phase left is
    machining. *)
Theorem updateCycle_takes_at_most_one_transition
    (this : CNCDataGenerator) (w : World) :
  (jge (seconds_between (clock_reads w (reads w)) (startTime (currentCycle this)))
       (duration (currentCycle this)) = false /\
   fst (updateCycle this w) = this)
  \/
  (jge (seconds_between (clock_reads w (reads w)) (startTime (currentCycle this)))
       (duration (currentCycle this)) = true /\
   cycle_step (phase (currentCycle this))
              (phase (currentCycle (fst (updateCycle this w)))) = true /\
   startTime (currentCycle (fst (updateCycle this w)))
   = clock_reads w (S (reads w)) /\
   totalPartsProduced (fst (updateCycle this w))
   = (totalPartsProduced this
      + match phase (currentCycle this) with machining => 1 | _ => 0 end)%Z).
Proof.
  rewrite updateCycle_unfold. cbv zeta.
  destruct (jge _ _) eqn:Edue.
  - right. split; [reflexivity |].
    destruct (advanceCyclePhase_step this (snd (Date_now w))) as [Hs Hp].
    split; [exact Hs |]. split; [| exact Hp].
    unfold advanceCyclePhase, bind, Date_now, Math_random, ret.
    destruct (phase (currentCycle this)); cbn; try reflexivity.
    destruct (Qle_bool 0.05 _); cbn; [| reflexivity].
    destruct (Qle_bool 0.15 _); reflexivity.
  - left. split; reflexivity.
Qed.

Lemma generateSensorReadings_parts
    (Math_sin : Q -> Q) (parseFloat : string -> jsnum) (toISOString : Z -> string)
    (env : ProcessEnv) (this : CNCDataGenerator) (w : World) :
  (totalPartsProduced this
   <= totalPartsProduced
        (snd (fst (generateSensorReadings Math_sin parseFloat toISOString env this w)))
   <= totalPartsProduced this + 1)%Z.
Proof.
  rewrite generateSensorReadings_state. cbn [with_lastUpdate totalPartsProduced].
  rewrite updateCycle_unfold. cbv zeta.
  destruct (jge _ _).
  - destruct (advanceCyclePhase_step this (snd (Date_now w))) as [_ Hp].
    rewrite Hp. destruct (phase (currentCycle this)); lia.
  - cbn. lia.
Qed.

(** X2. The parts counter never decreases: over [n] consecutive calls of
    [generateSensorReadings] it grows by at most [n], whatever the clock and
    the draws do. *)
Theorem parts_counter_is_monotone
    (Math_sin : Q -> Q) (parseFloat : string -> jsnum) (toISOString : Z -> string)
    (env : ProcessEnv) (n : nat) (this : CNCDataGenerator) (w : World) :
  (totalPartsProduced this
   <= totalPartsProduced
        (fst (generate_n Math_sin parseFloat toISOString env n this w))
   <= totalPartsProduced this + Z.of_nat n)%Z.
Proof.
  revert this w. induction n as [| n IH]; intros this w.
  - cbn. lia.
  - cbn [generate_n]. unfold bind.
    pose proof (generateSensorReadings_parts Math_sin parseFloat toISOString env this w)
      as H.
    destruct (generateSensorReadings Math_sin parseFloat toISOString env this w)
      as [out w1].
    cbn [fst snd] in *. specialize (IH (snd out) w1). lia.
Qed.

Lemma never_due_when_unbounded (t : Z) (c : MachineOperationCycle) :
  duration c = PInf -> jge (seconds_between t (startTime c)) (duration c) = false.
Proof. intros ->. reflexivity. Qed.

Lemma generate_n_unbounded
    (Math_sin : Q -> Q) (parseFloat : string -> jsnum) (toISOString : Z -> string)
    (env : ProcessEnv) (n : nat) :
  forall (this : CNCDataGenerator) (w : World),
    duration (currentCycle this) = PInf ->
    currentCycle (fst (generate_n Math_sin parseFloat toISOString env n this w))
    = currentCycle this /\
    totalPartsProduced (fst (generate_n Math_sin parseFloat toISOString env n this w))
    = totalPartsProduced this.
Proof.
  induction n as [| n IH]; intros this w Hinf; [split; reflexivity |].
  cbn [generate_n]. unfold bind.
  pose proof (generateSensorReadings_state Math_sin parseFloat toISOString env this w)
    as Hst.
  rewrite updateCycle_unfold in Hst. cbv zeta in Hst.
  rewrite (never_due_when_unbounded _ _ Hinf) in Hst. cbn [fst snd] in Hst.
  destruct (generateSensorReadings Math_sin parseFloat toISOString env this w)
    as [out w1].
  cbn [fst snd] in *. rewrite Hst.
  destruct (IH (with_lastUpdate this
                  (clock_reads (snd (Date_now w)) (reads (snd (Date_now w))))) w1 Hinf)
    as [H1 H2].
  rewrite H1, H2. split; reflexivity.
Qed.

(** X3. A generator constructed for a machine whose status is 'offline'
    starts idle with an infinite planned duration and never leaves that
    phase: after any number of calls of [generateSensorReadings], at any
    clock values, its cycle is the initial one and it has produced no part. *)
Theorem offline_generator_stays_idle
    (Math_sin : Q -> Q) (parseFloat : string -> jsnum) (toISOString : Z -> string)
    (env : ProcessEnv) (m : CNCMachineConfig) (w w' : World) (n : nat) :
  operational_status m = st_offline ->
  phase (currentCycle (fst (new_CNCDataGenerator m w))) = idle /\
  duration (currentCycle (fst (new_CNCDataGenerator m w))) = PInf /\
  currentCycle (fst (generate_n Math_sin parseFloat toISOString env n
                       (fst (new_CNCDataGenerator m w)) w'))
  = currentCycle (fst (new_CNCDataGenerator m w)) /\
  totalPartsProduced (fst (generate_n Math_sin parseFloat toISOString env n
                             (fst (new_CNCDataGenerator m w)) w')) = 0%Z.
Proof.
  intros Hoff.
  assert (Hc : phase (currentCycle (fst (new_CNCDataGenerator m w))) = idle /\
               duration (currentCycle (fst (new_CNCDataGenerator m w))) = PInf /\
               totalPartsProduced (fst (new_CNCDataGenerator m w)) = 0%Z).
  { unfold new_CNCDataGenerator, bind, initializeCycle. rewrite Hoff.
    unfold bind, Date_now, Math_random, ret. cbn [fst snd].
    destruct (init_tool_wear 20 1 [] _) as [wear w1]. cbn. repeat split. }
  destruct Hc as (Hph & Hinf & Hparts).
  destruct (generate_n_unbounded Math_sin parseFloat toISOString env n
              (fst (new_CNCDataGenerator m w)) w' Hinf) as [H1 H2].
  repeat split; try assumption. now rewrite H2.
Qed.

(** ** The constructor *)

Lemma Map_set_Z_fresh (m : list (Z * Q)) (k : Z) (v : Q) :
  ~ In k (List.map fst m) -> Map_set Z.eqb m k v = (m ++ [(k, v)])%list.
Proof.
  induction m as [| [k' v'] m IH]; cbn; intros Hk; [reflexivity |].
  destruct (Z.eqb k' k) eqn:E.
  - apply Z.eqb_eq in E. tauto.
  - f_equal. apply IH. tauto.
Qed.

Lemma init_tool_wear_spec (n : nat) :
  forall (i : Z) (acc : list (Z * Q)) (w : World),
    (forall k, In k (List.map fst acc) -> (k < i)%Z) ->
    fst (init_tool_wear n i acc w)
    = (acc ++ List.map (fun j => ((i + Z.of_nat j)%Z,
                                  random_draws w (drawn w + j)%nat * 0.3))
                       (seq 0 n))%list
    /\ random_draws (snd (init_tool_wear n i acc w)) = random_draws w
    /\ clock_reads (snd (init_tool_wear n i acc w)) = clock_reads w
    /\ reads (snd (init_tool_wear n i acc w)) = reads w.
Proof.
  induction n as [| n IH]; intros i acc w Hfresh.
  - cbn. rewrite app_nil_r. repeat split.
  - cbn [init_tool_wear]. unfold bind, Math_random. cbn [fst snd].
    rewrite Map_set_Z_fresh
      by (intros Hin; specialize (Hfresh i Hin); lia).
    set (w1 := mkWorld _ _ _ _ _ _ _).
    destruct (IH (i + 1)%Z (acc ++ [(i, random_draws w (drawn w) * 0.3)])%list w1)
      as (H1 & H2 & H3 & H4).
    { intros k Hin. rewrite map_app in Hin. apply in_app_or in Hin as [Hin | Hin].
      - specialize (Hfresh k Hin). lia.
      - cbn in Hin. destruct Hin as [<- | []]. lia. }
    rewrite H1, H2, H3, H4. repeat split.
    rewrite <- app_assoc. f_equal. cbn [seq List.map app].
    rewrite Z.add_0_r, Nat.add_0_r. f_equal.
    rewrite <- seq_shift, map_map. apply map_ext. intros j.
    unfold w1. cbn [random_draws drawn]. f_equal; [lia |].
    f_equal. f_equal. lia.
Qed.

Lemma Map_get_Z_table (f : nat -> Q) (i : Z) (n : nat) (tool : Z) :
  Map_get Z.eqb (List.map (fun j => ((i + Z.of_nat j)%Z, f j)) (seq 0 n)) tool
  = if ((i <=? tool) && (tool <? i + Z.of_nat n))%Z
    then Some (f (Z.to_nat (tool - i)))
    else None.
Proof.
  assert (G : forall a,
    Map_get Z.eqb (List.map (fun j => ((i + Z.of_nat j)%Z, f j)) (seq a n)) tool
    = if ((i + Z.of_nat a <=? tool) && (tool <? i + Z.of_nat a + Z.of_nat n))%Z
      then Some (f (Z.to_nat (tool - i)))
      else None).
  { induction n as [| n IH]; intros a.
    - cbn [seq List.map Map_get].
      destruct (Z.leb_spec (i + Z.of_nat a) tool),
               (Z.ltb_spec tool (i + Z.of_nat a + Z.of_nat 0));
        cbn [andb]; try reflexivity; lia.
    - cbn [seq List.map Map_get].
      destruct (Z.eqb (i + Z.of_nat a) tool) eqn:E.
      + apply Z.eqb_eq in E.
        destruct (Z.leb_spec (i + Z.of_nat a) tool),
                 (Z.ltb_spec tool (i + Z.of_nat a + Z.of_nat (S n)));
          cbn [andb]; try lia.
        do 2 f_equal. lia.
      + apply Z.eqb_neq in E. rewrite IH.
        destruct (Z.leb_spec (i + Z.of_nat (S a)) tool),
                 (Z.ltb_spec tool (i + Z.of_nat (S a) + Z.of_nat n)),
                 (Z.leb_spec (i + Z.of_nat a) tool),
                 (Z.ltb_spec tool (i + Z.of_nat a + Z.of_nat (S n)));
          cbn [andb]; try reflexivity; lia. }
  specialize (G 0%nat). rewrite Z.add_0_r in G. exact G.
Qed.

Lemma new_CNCDataGenerator_state
    (m : CNCMachineConfig) (w : World) (tool : Z) :
  unit_draws w ->
  let this := fst (new_CNCDataGenerator m w) in
  machine this = m /\
  totalPartsProduced this = 0%Z /\
  (0.1 <= vibrationBaseline this /\ vibrationBaseline this < 0.6) /\
  (45 <= temperatureBaseline this /\ temperatureBaseline this < 55) /\
  match Map_get Z.eqb (toolWearFactors this) tool with
  | Some v => (1 <= tool <= 20)%Z /\ 0 <= v /\ v < 0.3
  | None => (tool < 1 \/ 20 < tool)%Z
  end /\
  match operational_status m with
  | st_maintenance =>
      phase (currentCycle this) = maintenance /\
      duration (currentCycle this) = Fin 3600
  | st_offline =>
      phase (currentCycle this) = idle /\ duration (currentCycle this) = PInf
  | _ =>
      phase (currentCycle this) = idle /\
      exists d, duration (currentCycle this) = Fin d /\ 60 <= d /\ d < 360
  end.
Proof.
  intros Hd. cbv zeta.
  unfold new_CNCDataGenerator, bind, Date_now, Math_random.
  cbn [fst snd random_draws drawn clock_reads reads sink_results requests trace].
  set (w2 := mkWorld _ _ _ _ _ _ _).
  destruct (initializeCycle m w2) as [cycle w3] eqn:Ecycle.
  assert (Hcycle :
    random_draws w3 = random_draws w /\
    match operational_status m with
    | st_maintenance => phase cycle = maintenance /\ duration cycle = Fin 3600
    | st_offline => phase cycle = idle /\ duration cycle = PInf
    | _ => phase cycle = idle /\
           exists d, duration cycle = Fin d /\ 60 <= d /\ d < 360
    end).
  { unfold initializeCycle, bind, Date_now, Math_random, ret in Ecycle.
    pose proof (Hd (drawn w2)) as [Ha Hb].
    destruct (operational_status m); cbn in Ecycle;
      apply (f_equal fst) in Ecycle as Ec1;
      pose proof (f_equal snd Ecycle) as Ec2; cbn [fst snd] in Ec1, Ec2;
      subst cycle w3; cbn [random_draws phase duration];
      (split; [reflexivity |]); (split; [reflexivity |]);
      try reflexivity;
      (eexists; split; [reflexivity |]; unfold w2 in *; cbn in *; lra). }
  destruct Hcycle as [Hrd Hcycle].
  destruct (init_tool_wear_spec 20 1 [] w3 (fun k Hin => match Hin with end))
    as (Hwear & _).
  destruct (init_tool_wear 20 1 [] w3) as [wear w4]. cbn [fst snd] in *.
  unfold ret. cbn [fst machine totalPartsProduced vibrationBaseline
                   temperatureBaseline toolWearFactors currentCycle].
  pose proof (Hd (drawn w)) as [H0 H1]. pose proof (Hd (S (drawn w))) as [H2 H3].
  split; [reflexivity |]. split; [reflexivity |].
  split; [split; lra |]. split; [split; lra |].
  split; [| exact Hcycle].
  rewrite Hwear. cbn [app]. rewrite Map_get_Z_table.
  destruct ((1 <=? tool) && (tool <? 1 + Z.of_nat 20))%Z eqn:E.
  - apply andb_true_iff in E as [E1 E2].
    apply Z.leb_le in E1. apply Z.ltb_lt in E2.
    rewrite Hrd. pose proof (Hd (drawn w3 + Z.to_nat (tool - 1))%nat) as [Ha Hb].
    split; [lia |]. split; lra.
  - apply andb_false_iff in E as [E | E];
      [apply Z.leb_gt in E | apply Z.ltb_ge in E]; lia.
Qed.


(** ** The last segment of a topic path *)

Lemma split_nonempty (c : ascii) (s : string) : split c s <> [].
Proof.
  destruct s as [| a r]; cbn; [discriminate |].
  destruct (Ascii.eqb a c); [discriminate |].
  destruct (split c r); discriminate.
Qed.

Lemma split_app (c : ascii) (p n : string) :
  split c (p ++ String c n) = (split c p ++ split c n)%list.
Proof.
  induction p as [| a r IH]; cbn [append split].
  - now rewrite Ascii.eqb_refl.
  - destruct (Ascii.eqb a c); [now rewrite IH |].
    rewrite IH. pose proof (split_nonempty c r) as Hne.
    destruct (split c r) as [| h t]; [contradiction | reflexivity].
Qed.

Lemma split_none (c : ascii) (n : string) :
  has_char c n = false -> split c n = [n].
Proof.
  induction n as [| a r IH]; cbn [has_char split]; [reflexivity |].
  intros H. apply orb_false_iff in H as [Ha Hr].
  rewrite Ha, (IH Hr). reflexivity.
Qed.

Lemma last_cons_nonempty {A : Type} (x d : A) (l : list A) :
  l <> [] -> List.last (x :: l) d = List.last l d.
Proof. destruct l; [contradiction | reflexivity]. Qed.

Lemma last_part_no_separator (c : ascii) (s : string) :
  has_char c (last_part (split c s)) = false.
Proof.
  unfold last_part. induction s as [| a r IH]; cbn [split]; [reflexivity |].
  destruct (Ascii.eqb a c) eqn:E.
  - rewrite last_cons_nonempty by apply split_nonempty. exact IH.
  - destruct (split c r) as [| h [| h' t]]; [cbn; now rewrite E | |].
    + cbn in *. now rewrite E, IH.
    + exact IH.
Qed.

Lemma extractSensorType_suffix (prefix name : string) :
  has_char "/" name = false ->
  extractSensorType (prefix ++ String "/" name) = name.
Proof.
  intros H. unfold extractSensorType, last_part.
  rewrite split_app, (split_none _ _ H).
  apply last_last.
Qed.

(** ** The readings of one call *)

Lemma yields_ret {A : Type} (P : A -> Prop) (a : A) : P a -> yields P (ret a).
Proof. intros H w. exact H. Qed.

Lemma yields_bind {A B : Type} (P : A -> Prop) (Q : B -> Prop)
    (c : M A) (k : A -> M B) :
  yields P c -> (forall a, P a -> yields Q (k a)) -> yields Q (bind c k).
Proof.
  intros Hc Hk w. unfold bind. specialize (Hc w).
  destruct (c w) as [a w1]. exact (Hk a Hc w1).
Qed.

Lemma yields_any {A : Type} (c : M A) : yields (fun _ => True) c.
Proof. intros w. exact I. Qed.

(** Binds whose intermediate results do not matter, then the payload. *)
Ltac stamped_payload :=
  cbv zeta;
  repeat (eapply (yields_bind (fun _ => True)); [apply yields_any | intros ? _]);
  apply yields_ret; repeat split; discriminate.

Section Stamps.
Variable Math_sin : Q -> Q.
Variable parseFloat : string -> jsnum.
Variable toISOString : Z -> string.
Variable this : CNCDataGenerator.
Variable ts : Z.

Let ok := stamped toISOString (machine this) ts.

Lemma generateSpindleSpeedPayload_stamped :
  yields ok (generateSpindleSpeedPayload Math_sin toISOString this ts).
Proof. unfold generateSpindleSpeedPayload. stamped_payload. Qed.

Lemma generateSpindleLoadPayload_stamped :
  yields ok (generateSpindleLoadPayload Math_sin toISOString this ts).
Proof. unfold generateSpindleLoadPayload. stamped_payload. Qed.

Lemma generateAxisPositionPayload_stamped (axis : string) :
  yields ok (generateAxisPositionPayload Math_sin parseFloat toISOString this axis ts).
Proof. unfold generateAxisPositionPayload. stamped_payload. Qed.

Lemma generateFeedratePayload_stamped :
  yields ok (generateFeedratePayload Math_sin toISOString this ts).
Proof. unfold generateFeedratePayload. stamped_payload. Qed.

Lemma generateVibrationPayload_stamped :
  yields ok (generateVibrationPayload Math_sin toISOString this ts).
Proof. unfold generateVibrationPayload. stamped_payload. Qed.

Lemma generateTemperaturePayload_stamped :
  yields ok (generateTemperaturePayload toISOString this ts).
Proof. unfold generateTemperaturePayload. stamped_payload. Qed.

Lemma generateCurrentToolPayload_stamped :
  yields ok (generateCurrentToolPayload toISOString this ts).
Proof. unfold generateCurrentToolPayload. stamped_payload. Qed.

Lemma generateCoolantPressurePayload_stamped :
  yields ok (generateCoolantPressurePayload Math_sin toISOString this ts).
Proof. unfold generateCoolantPressurePayload. stamped_payload. Qed.

Lemma generateCoolantFlowPayload_stamped :
  yields ok (generateCoolantFlowPayload Math_sin toISOString this ts).
Proof. unfold generateCoolantFlowPayload. stamped_payload. Qed.

Lemma generateOperationalStatusPayload_stamped :
  yields ok (generateOperationalStatusPayload toISOString this ts).
Proof. unfold generateOperationalStatusPayload. stamped_payload. Qed.

Lemma generateCyclePhasePayload_stamped :
  yields ok (generateCyclePhasePayload toISOString this ts).
Proof. unfold generateCyclePhasePayload. stamped_payload. Qed.

Lemma generatePartsCountPayload_stamped :
  yields ok (generatePartsCountPayload toISOString this ts).
Proof. unfold generatePartsCountPayload. stamped_payload. Qed.

Lemma generateEfficiencyPayload_stamped :
  yields ok (generateEfficiencyPayload toISOString this ts).
Proof. unfold generateEfficiencyPayload. stamped_payload. Qed.

Lemma axis_readings_stamped (prefix : string) (axisLabels : list string) :
  yields (fun l => List.map topicPath l
                   = List.map (fun axis => prefix ++ "/position-" ++ axis) axisLabels
                   /\ Forall (fun r => ok (payload r)) l)
    (axis_readings Math_sin parseFloat toISOString this prefix ts axisLabels).
Proof.
  induction axisLabels as [| axis rest IH]; cbn [axis_readings].
  - apply yields_ret. split; [reflexivity | constructor].
  - eapply yields_bind; [apply generateAxisPositionPayload_stamped |].
    intros p Hp. eapply yields_bind; [exact IH |].
    intros more [Hlen Hall]. apply yields_ret. split.
    + cbn. now rewrite Hlen.
    + constructor; [exact Hp | exact Hall].
Qed.

End Stamps.

Lemma In_firstn {A : Type} (n : nat) (l : list A) (x : A) :
  In x (firstn n l) -> In x l.
Proof.
  revert l. induction n as [| n IH]; intros [| a l] H; cbn in *; try contradiction.
  destruct H as [-> | H]; [now left | right; now apply IH].
Qed.

Lemma axis_sensor_names (prefix : string) (n : nat) :
  List.map extractSensorType
    (List.map (fun axis => prefix ++ "/position-" ++ axis) (firstn n axis_names))
  = List.map (fun axis => "position-" ++ axis) (firstn n axis_names).
Proof.
  rewrite map_map. apply map_ext_in. intros axis Hin.
  apply In_firstn in Hin.
  apply (extractSensorType_suffix prefix ("position-" ++ axis)).
  cbn in Hin.
  repeat (destruct Hin as [<- | Hin]; [reflexivity |]). contradiction.
Qed.

Ltac sensor_suffixes :=
  repeat match goal with
         | |- context [extractSensorType (?p ++ String "/" ?n)] =>
             rewrite (extractSensorType_suffix p n eq_refl)
         end.

Lemma generateSensorReadings_yields
    (Math_sin : Q -> Q) (parseFloat : string -> jsnum) (toISOString : Z -> string)
    (env : ProcessEnv) (this0 : CNCDataGenerator) :
  yields (fun out =>
            machine (snd out) = machine this0 /\
            List.map (fun r => extractSensorType (topicPath r)) (fst out)
            = sensor_names (machine this0) /\
            Forall (fun r => stamped toISOString (machine this0)
                               (lastUpdate (snd out)) (payload r)) (fst out))
    (generateSensorReadings Math_sin parseFloat toISOString env this0).
Proof.
  unfold generateSensorReadings.
  eapply (yields_bind (fun this => machine this = machine this0)).
  { intros w. apply updateCycle_frame. }
  intros this Hm.
  eapply (yields_bind (fun _ => True)); [apply yields_any | intros now _].
  cbv zeta.
  eapply yields_bind; [apply generateSpindleSpeedPayload_stamped | intros p1 H1].
  eapply yields_bind; [apply generateSpindleLoadPayload_stamped | intros p2 H2].
  eapply yields_bind; [apply axis_readings_stamped | intros ps [Hps1 Hps2]].
  eapply yields_bind; [apply generateFeedratePayload_stamped | intros p3 H3].
  eapply yields_bind; [apply generateVibrationPayload_stamped | intros p4 H4].
  eapply yields_bind; [apply generateTemperaturePayload_stamped | intros p5 H5].
  eapply yields_bind; [apply generateCurrentToolPayload_stamped | intros p6 H6].
  eapply (yields_bind (fun cs =>
            List.map (fun r => extractSensorType (topicPath r)) cs
            = (if coolant_system (capabilities (machine this0))
               then ["coolant-pressure"; "coolant-flow"] else []) /\
            Forall (fun r => stamped toISOString (machine this) now (payload r)) cs)).
  { rewrite <- Hm. destruct (coolant_system (capabilities (machine this))).
    - eapply yields_bind; [apply generateCoolantPressurePayload_stamped | intros q1 G1].
      eapply yields_bind; [apply generateCoolantFlowPayload_stamped | intros q2 G2].
      apply yields_ret. split.
      + cbn [List.map topicPath]. sensor_suffixes. reflexivity.
      + repeat (apply Forall_cons; [assumption |]); apply Forall_nil.
    - apply yields_ret. split; [reflexivity | constructor]. }
  intros cs [Hcs1 Hcs2].
  eapply yields_bind; [apply generateOperationalStatusPayload_stamped | intros p7 H7].
  eapply yields_bind; [apply generateCyclePhasePayload_stamped | intros p8 H8].
  eapply yields_bind; [apply generatePartsCountPayload_stamped | intros p9 H9].
  eapply yields_bind; [apply generateEfficiencyPayload_stamped | intros p10 H10].
  apply yields_ret. cbn [fst snd with_lastUpdate machine lastUpdate].
  split; [exact Hm | split].
  - unfold sensor_names. rewrite !map_app, Hcs1.
    rewrite <- (map_map topicPath extractSensorType ps), Hps1, axis_sensor_names, Hm.
    cbn [List.map topicPath]. sensor_suffixes. reflexivity.
  - rewrite <- Hm.
    repeat (apply Forall_app; split); try assumption;
      repeat (apply Forall_cons; [assumption |]); apply Forall_nil.
Qed.

Lemma sensor_names_length (m : CNCMachineConfig) :
  List.length (sensor_names m)
  = (10 + Nat.min (axes (capabilities m)) 6
     + (if coolant_system (capabilities m) then 2 else 0))%nat.
Proof.
  unfold sensor_names. rewrite !length_app, length_map, length_firstn.
  change (List.length axis_names) with 6%nat.
  destruct (coolant_system (capabilities m)); cbn [List.length]; lia.
Qed.

(** X5. One call of [generateSensorReadings] returns ten readings, one more
    for each of the machine's axes (six at most) and two more when the
    machine has a coolant system.  Every one of them carries the machine's id
    as its source and the instant that the call stores in [lastUpdate] as its
    timestamp, and has a value; the generator stays the one of its machine. *)
Theorem readings_of_one_call
    (Math_sin : Q -> Q) (parseFloat : string -> jsnum) (toISOString : Z -> string)
    (env : ProcessEnv) (this0 : CNCDataGenerator) (w : World) :
  let out := fst (generateSensorReadings Math_sin parseFloat toISOString env this0 w) in
  let m := machine this0 in
  machine (snd out) = m /\
  List.length (fst out)
  = (10 + Nat.min (axes (capabilities m)) 6
     + (if coolant_system (capabilities m) then 2 else 0))%nat /\
  Forall (fun r => timestamp (payload r) = toISOString (lastUpdate (snd out)) /\
                   source (payload r) = machine_id m /\
                   value (payload r) <> VUndefined /\
                   value (payload r) <> VNull) (fst out).
Proof.
  cbv zeta.
  destruct (generateSensorReadings_yields Math_sin parseFloat toISOString env this0 w)
    as (Hm & Hnames & Hall).
  split; [exact Hm | split; [| exact Hall]].
  rewrite <- sensor_names_length, <- Hnames. now rewrite length_map.
Qed.

(** ** The extras at concrete inputs *)

(** X3 at the offline machine of the roster, three calls one hour after the
    construction. *)
Lemma offline_generator_stays_idle_witness :
  operational_status cnc_010 = st_offline /\
  (phase (currentCycle (fst (new_CNCDataGenerator cnc_010 (world_at 0)))) = idle /\
   duration (currentCycle (fst (new_CNCDataGenerator cnc_010 (world_at 0)))) = PInf /\
   currentCycle (fst (generate_n sample_sin sample_parseFloat sample_toISOString
                        sample_env 3
                        (fst (new_CNCDataGenerator cnc_010 (world_at 0)))
                        (world_at 3600000)))
   = currentCycle (fst (new_CNCDataGenerator cnc_010 (world_at 0))) /\
   totalPartsProduced (fst (generate_n sample_sin sample_parseFloat sample_toISOString
                              sample_env 3
                              (fst (new_CNCDataGenerator cnc_010 (world_at 0)))
                              (world_at 3600000))) = 0%Z).
Proof.
  split; [reflexivity |].
  exact (offline_generator_stays_idle sample_sin sample_parseFloat sample_toISOString
           sample_env cnc_010 (world_at 0) (world_at 3600000) 3 eq_refl).
Defined.


(** ** The clamps of the spindle and feed readings *)

Lemma Math_max_zero (q : Q) :
  exists r, Math_max (Fin 0) (Fin q) = Fin r /\ 0 <= r.
Proof.
  unfold Math_max, jge. destruct (Qle_bool q 0) eqn:E.
  - exists 0. split; [reflexivity | lra].
  - exists q. apply Qle_bool_false in E. split; [reflexivity | lra].
Qed.

Lemma clamp_percent (a : Q) :
  exists r, Math_max (Fin 0) (Math_min (Fin 100) (jdiv (Fin a) (Fin 10))) = Fin r
            /\ 0 <= r /\ r <= 100.
Proof.
  change (jdiv (Fin a) (Fin 10)) with (Fin (a / 10)).
  unfold Math_min, jge. destruct (Qle_bool (a / 10) 100) eqn:E1.
  - unfold Math_max, jge. destruct (Qle_bool (a / 10) 0) eqn:E2.
    + exists 0. split; [reflexivity | lra].
    + exists (a / 10). apply Qle_bool_iff in E1. apply Qle_bool_false in E2.
      split; [reflexivity | lra].
  - exists 100. split; [reflexivity | lra].
Qed.

(** X6. Whatever the phase, the draws, the clock and the sine, the spindle
    speed and the feedrate reported are numbers that are not negative, and
    the spindle load reported is a number between 0 and 100.  While the
    machine is at rest (idle, in maintenance or in error) all three are 0. *)
Theorem spindle_and_feed_values_are_clamped
    (Math_sin : Q -> Q) (toISOString : Z -> string)
    (this : CNCDataGenerator) (ts : Z) (w : World) :
  let speed := value (fst (generateSpindleSpeedPayload Math_sin toISOString this ts w)) in
  let load := value (fst (generateSpindleLoadPayload Math_sin toISOString this ts w)) in
  let feed := value (fst (generateFeedratePayload Math_sin toISOString this ts w)) in
  (exists q, speed = VNum (Fin q) /\ 0 <= q) /\
  (exists q, load = VNum (Fin q) /\ 0 <= q /\ q <= 100) /\
  (exists q, feed = VNum (Fin q) /\ 0 <= q) /\
  (if at_rest (phase_of this)
   then speed = VNum (Fin 0) /\ load = VNum (Fin 0) /\ feed = VNum (Fin 0)
   else True).
Proof.
  cbv zeta.
  assert (H1 : yields (fun p => exists q, value p = VNum (Fin q) /\ 0 <= q)
                 (generateSpindleSpeedPayload Math_sin toISOString this ts)).
  { unfold generateSpindleSpeedPayload. cbv zeta.
    eapply (yields_bind (fun _ => True)); [apply yields_any | intros rpm _].
    apply yields_ret. cbn [value Math_round].
    destruct (Math_max_zero (inject_Z (Qfloor (rpm + (1 # 2))))) as (r & Hr & Hr0).
    exists r. now rewrite Hr. }
  assert (H2 : yields (fun p => exists q, value p = VNum (Fin q) /\ 0 <= q /\ q <= 100)
                 (generateSpindleLoadPayload Math_sin toISOString this ts)).
  { unfold generateSpindleLoadPayload.
    eapply (yields_bind (fun _ => True)); [apply yields_any | intros l _].
    apply yields_ret. cbn [value Math_round].
    destruct (clamp_percent (inject_Z (Qfloor (l * 10 + (1 # 2))))) as (r & Hr & Hr0).
    exists r. now rewrite Hr. }
  assert (H3 : yields (fun p => exists q, value p = VNum (Fin q) /\ 0 <= q)
                 (generateFeedratePayload Math_sin toISOString this ts)).
  { unfold generateFeedratePayload. cbv zeta.
    eapply (yields_bind (fun _ => True)); [apply yields_any | intros f _].
    apply yields_ret. cbn [value Math_round].
    destruct (Math_max_zero (inject_Z (Qfloor (f + (1 # 2))))) as (r & Hr & Hr0).
    exists r. now rewrite Hr. }
  split; [exact (H1 w) | split; [exact (H2 w) | split; [exact (H3 w) |]]].
  unfold generateSpindleSpeedPayload, generateSpindleLoadPayload,
    generateFeedratePayload.
  destruct (phase_of this); cbn [at_rest]; try exact I;
    repeat match goal with |- _ /\ _ => split end; reflexivity.
Qed.

(** ** Quality flags that a constructed generator never raises *)

Lemma generate_n_frame
    (Math_sin : Q -> Q) (parseFloat : string -> jsnum) (toISOString : Z -> string)
    (env : ProcessEnv) (n : nat) :
  forall (this : CNCDataGenerator) (w : World),
    let this' := fst (generate_n Math_sin parseFloat toISOString env n this w) in
    machine this' = machine this /\
    toolWearFactors this' = toolWearFactors this /\
    vibrationBaseline this' = vibrationBaseline this /\
    temperatureBaseline this' = temperatureBaseline this.
Proof.
  induction n as [| n IH]; intros this w; [repeat split |].
  cbv zeta. cbn [generate_n]. unfold bind.
  pose proof (generateSensorReadings_state Math_sin parseFloat toISOString env this w)
    as Hst.
  destruct (updateCycle_frame this w) as (F1 & _ & F3 & F4 & F5 & _).
  destruct (generateSensorReadings Math_sin parseFloat toISOString env this w)
    as [out w1].
  cbn [fst snd] in *.
  destruct (IH (snd out) w1) as (G1 & G2 & G3 & G4).
  rewrite G1, G2, G3, G4, Hst.
  cbn [with_lastUpdate machine toolWearFactors vibrationBaseline temperatureBaseline].
  repeat split; assumption.
Qed.

Lemma jgt_Fin_false (a b : Q) : a <= b -> jgt (Fin a) (Fin b) = false.
Proof. intros H. cbn. apply Qle_bool_iff in H. now rewrite H. Qed.

Lemma toolWear_of_bound (wear : list (Z * Q)) (toolNumber : jsnum) :
  (forall tool v, Map_get Z.eqb wear tool = Some v -> v < 0.3) ->
  toolWear_of wear toolNumber < 0.3.
Proof.
  intros H. unfold toolWear_of. destruct toolNumber as [q | | |]; try reflexivity.
  destruct (Qeq_bool _ _); [| reflexivity].
  destruct (Map_get Z.eqb wear (Qfloor q)) as [v |] eqn:E; [| reflexivity].
  exact (H _ _ E).
Qed.

(** X7. A generator built by the constructor and used for any number of
    calls, with draws in [0,1) and a sine in [-1,1]: its temperature reading
    never has quality 'bad' (the alarm at 90 degrees is out of reach), its
    coolant pressure and current tool readings always have quality 'good',
    and its vibration reading has quality 'bad' in the error phase only. *)
Theorem quality_flags_never_raised
    (Math_sin : Q -> Q) (parseFloat : string -> jsnum) (toISOString : Z -> string)
    (env : ProcessEnv) (m : CNCMachineConfig) (w0 w1 w : World) (n : nat) (ts : Z) :
  (forall x, -1 <= Math_sin x /\ Math_sin x <= 1) ->
  unit_draws w0 -> unit_draws w ->
  let this := fst (generate_n Math_sin parseFloat toISOString env n
                     (fst (new_CNCDataGenerator m w0)) w1) in
  quality (fst (generateTemperaturePayload toISOString this ts w)) <> Some bad /\
  quality (fst (generateCoolantPressurePayload Math_sin toISOString this ts w))
  = Some good /\
  quality (fst (generateCurrentToolPayload toISOString this ts w)) = Some good /\
  (quality (fst (generateVibrationPayload Math_sin toISOString this ts w)) = Some bad ->
   phase_of this = error).
Proof.
  intros Hsin Hd0 Hd. cbv zeta.
  destruct (generate_n_frame Math_sin parseFloat toISOString env n
              (fst (new_CNCDataGenerator m w0)) w1) as (_ & Fw & Fv & Ft).
  set (this := fst (generate_n Math_sin parseFloat toISOString env n
                      (fst (new_CNCDataGenerator m w0)) w1)) in *.
  assert (Ht : 45 <= temperatureBaseline this /\ temperatureBaseline this < 55).
  { rewrite Ft. apply (new_CNCDataGenerator_state m w0 0%Z Hd0). }
  assert (Hv : 0.1 <= vibrationBaseline this /\ vibrationBaseline this < 0.6).
  { rewrite Fv. apply (new_CNCDataGenerator_state m w0 0%Z Hd0). }
  assert (Hw : forall tool v,
             Map_get Z.eqb (toolWearFactors this) tool = Some v -> v < 0.3).
  { intros tool v E. rewrite Fw in E.
    destruct (new_CNCDataGenerator_state m w0 tool Hd0) as (_ & _ & _ & _ & H & _).
    cbv zeta in H. rewrite E in H. apply H. }
  clearbody this. clear Fw Fv Ft.
  pose proof (Hd (drawn w)) as [Hr0 Hr1].
  split; [| split; [| split]].
  - unfold generateTemperaturePayload, bind, Math_random, ret. cbv zeta.
    destruct (phase_of this); cbn [fst snd quality];
      match goal with |- context [jgt (Fin ?a) (Fin 90)] =>
        rewrite (jgt_Fin_false a 90) by lra end;
      destruct (jgt _ _); discriminate.
  - unfold generateCoolantPressurePayload, bind, Math_random, Date_now, ret.
    cbv zeta.
    destruct (phase_of this); cbn [fst snd quality]; rewrite ?andb_false_r;
      try reflexivity.
    unfold jlt.
    match goal with |- context [jgt (Fin 2.0) (Fin ?a)] =>
      rewrite (jgt_Fin_false 2.0 a); [reflexivity |] end.
    match goal with |- context [Math_sin ?x] => pose proof (Hsin x) end. lra.
  - assert (H : yields (fun p => quality p = Some good)
                  (generateCurrentToolPayload toISOString this ts)).
    { unfold generateCurrentToolPayload.
      eapply (yields_bind (fun _ => True)); [apply yields_any | intros tn _].
      apply yields_ret. cbv zeta. cbn [quality].
      rewrite jgt_Fin_false; [reflexivity |].
      pose proof (toolWear_of_bound (toolWearFactors this) tn Hw). lra. }
    exact (H w).
  - unfold generateVibrationPayload, bind, Math_random, Date_now, ret. cbv zeta.
    destruct (phase_of this); cbn [fst snd quality]; try reflexivity;
      match goal with |- context [jgt (Fin ?a) (Fin 5.0)] =>
        rewrite (jgt_Fin_false a 5.0);
          [destruct (jgt _ _); discriminate |] end;
      try match goal with |- context [Math_sin ?x] => pose proof (Hsin x) end;
      cbn [random_draws drawn] in *; lra.
Qed.

(** X7 at the first machine of the roster after two calls, with the sine
    that is 0 everywhere. *)
Lemma quality_flags_never_raised_witness :
  (forall x, -1 <= sample_sin x /\ sample_sin x <= 1) /\
  unit_draws (world_at 0) /\ unit_draws (world_at 2000) /\
  (let this := fst (generate_n sample_sin sample_parseFloat sample_toISOString
                      sample_env 2
                      (fst (new_CNCDataGenerator cnc_001 (world_at 0)))
                      (world_at 1000)) in
   quality (fst (generateTemperaturePayload sample_toISOString this 2000
                   (world_at 2000))) <> Some bad /\
   quality (fst (generateCoolantPressurePayload sample_sin sample_toISOString this
                   2000 (world_at 2000))) = Some good /\
   quality (fst (generateCurrentToolPayload sample_toISOString this 2000
                   (world_at 2000))) = Some good /\
   (quality (fst (generateVibrationPayload sample_sin sample_toISOString this 2000
                    (world_at 2000))) = Some bad ->
    phase_of this = error)).
Proof.
  assert (Hsin : forall x, -1 <= sample_sin x /\ sample_sin x <= 1).
  { intros x. split; discriminate. }
  split; [exact Hsin |]. split; [exact (calm_draws 0) |].
  split; [exact (calm_draws 2000) |].
  exact (quality_flags_never_raised sample_sin sample_parseFloat sample_toISOString
           sample_env cnc_001 (world_at 0) (world_at 1000) (world_at 2000) 2 2000
           Hsin (calm_draws 0) (calm_draws 2000)).
Defined.

(** ** The adapter *)

(** X8. [extractSensorType] gives the part of the topic path after its last
    slash: the result never contains a slash, a path without slash is returned
    as it is, and a path [prefix/name] whose [name] has no slash gives
    [name]. *)
Theorem extractSensorType_is_last_segment (topicPath prefix name : string) :
  has_char "/" (extractSensorType topicPath) = false /\
  (has_char "/" topicPath = false -> extractSensorType topicPath = topicPath) /\
  (has_char "/" name = false ->
   extractSensorType (prefix ++ "/" ++ name) = name).
Proof.
  split; [apply last_part_no_separator | split].
  - intros H. unfold extractSensorType. now rewrite (split_none _ _ H).
  - apply extractSensorType_suffix.
Qed.

(** X8 at a path without slash and at a topic path of the first machine. *)
Lemma extractSensorType_is_last_segment_witness :
  has_char "/" "spindle-speed" = false /\
  has_char "/" (extractSensorType "plain") = false /\
  extractSensorType "plain" = "plain" /\
  extractSensorType
    ("demo-factory/plant1/machining/cell-01/cnc-001/info/sensors"
       ++ "/" ++ "spindle-speed") = "spindle-speed".
Proof.
  split; [reflexivity |].
  destruct (extractSensorType_is_last_segment "plain"
              "demo-factory/plant1/machining/cell-01/cnc-001/info/sensors"
              "spindle-speed") as (H1 & H2 & H3).
  exact (conj H1 (conj (H2 eq_refl) (H3 eq_refl))).
Defined.

Lemma nonempty_dotted (a b : string) : nonempty (a ++ "." ++ b) = true.
Proof. destruct a; reflexivity. Qed.

Lemma nonempty_map_string (f : ascii -> ascii) (s : string) :
  nonempty (map_string f s) = nonempty s.
Proof. destruct s; reflexivity. Qed.

Lemma nonempty_true (s : string) : nonempty s = true <-> s <> EmptyString.
Proof.
  unfold nonempty. destruct (String.eqb_spec s EmptyString) as [-> | Hne]; cbn.
  - split; [discriminate | congruence].
  - split; [intros _; exact Hne | reflexivity].
Qed.

Lemma truthy_getTime_of (Date_parse : string -> option Z) (s : string) :
  truthy (VNum (getTime_of Date_parse s)) = true <->
  exists t, Date_parse s = Some t /\ t <> 0%Z.
Proof.
  unfold getTime_of. destruct (Date_parse s) as [t |]; cbn.
  - split.
    + intros H. exists t. split; [reflexivity |]. intros ->. discriminate.
    + intros (t' & [= <-] & Hne).
      destruct (Qeq_bool (inject_Z t) 0) eqn:E; [| reflexivity].
      apply Qeq_bool_iff in E. unfold Qeq in E. cbn in E. lia.
  - split; [discriminate | intros (t & [=] & _)].
Qed.

Lemma validate_errors_convertToUMHMessage
    (Date_parse : string -> option Z) (reading : SensorReadingWithMachine) :
  validate_errors (convertToUMHMessage Date_parse reading)
  = push_if (negb (nonempty (sensorType reading))) "Metadata missing tag_name"
      (push_if (negb (truthy (VNum (getTime_of Date_parse
                                      (timestamp (r_payload reading))))))
               "Payload missing or invalid timestamp_ms"
         (push_if (match value (r_payload reading) with
                   | VUndefined | VNull => true
                   | _ => false
                   end) "Payload missing value" [])).
Proof.
  unfold validate_errors, convertToUMHMessage, buildLocationPath, buildUMHTopic.
  cbv zeta.
  cbn [umh_payload umh_metadata topic umh_value timestamp_ms location_path
       data_contract tag_name typeof_number negb].
  unfold replace_hyphens.
  rewrite orb_false_r, nonempty_dotted, nonempty_map_string.
  match goal with |- context [("umh.v1." ++ ?x)%string] => generalize x end.
  intros rest.
  change (nonempty ("umh.v1." ++ rest)) with true.
  replace (prefix "umh.v1." ("umh.v1." ++ rest)) with true
    by (cbn; now destruct rest).
  reflexivity.
Qed.

(** X9. The message that [convertToUMHMessage] builds passes
    [validateUMHMessage] exactly when the reading has a value (neither
    undefined nor null), its timestamp denotes a date whose time value is not
    0, and its sensor type is not empty: the checks of the location path, the
    data contract and the topic can never fail for a converted reading. *)
Theorem converted_message_valid_iff
    (Date_parse : string -> option Z) (reading : SensorReadingWithMachine) :
  valid (validateUMHMessage (convertToUMHMessage Date_parse reading)) = true <->
  (value (r_payload reading) <> VUndefined /\
   value (r_payload reading) <> VNull /\
   (exists t, Date_parse (timestamp (r_payload reading)) = Some t /\ t <> 0%Z) /\
   sensorType reading <> EmptyString).
Proof.
  rewrite valid_iff_no_errors, validate_errors_convertToUMHMessage.
  rewrite <- truthy_getTime_of, <- nonempty_true.
  split.
  - intros H. apply push_if_nil in H as [H3 H].
    apply push_if_nil in H as [H2 H]. apply push_if_nil in H as [H1 _].
    apply negb_false_iff in H3, H2.
    repeat split; try assumption; intros E; rewrite E in H1; discriminate.
  - intros (H1 & H1' & H2 & H3). rewrite H2, H3. cbn [negb push_if].
    destruct (value (r_payload reading)); try reflexivity; congruence.
Qed.

Lemma converted_valid (Date_parse : string -> option Z)
    (reading : SensorReadingWithMachine) (t : Z) :
  value (r_payload reading) <> VUndefined ->
  value (r_payload reading) <> VNull ->
  Date_parse (timestamp (r_payload reading)) = Some t -> t <> 0%Z ->
  sensorType reading <> EmptyString ->
  valid (validateUMHMessage (convertToUMHMessage Date_parse reading)) = true.
Proof.
  intros H1 H1' H2 Ht H3.
  apply valid_iff_no_errors. rewrite validate_errors_convertToUMHMessage.
  apply nonempty_true in H3. rewrite H3.
  assert (Htr : truthy (VNum (getTime_of Date_parse (timestamp (r_payload reading))))
                = true).
  { apply truthy_getTime_of. now exists t. }
  rewrite Htr. cbn [negb push_if].
  destruct (value (r_payload reading)); try reflexivity; congruence.
Qed.

Lemma sensor_names_nonempty (m : CNCMachineConfig) (name : string) :
  In name (sensor_names m) -> name <> EmptyString.
Proof.
  unfold sensor_names. intros Hin.
  repeat (apply in_app_or in Hin as [Hin | Hin]).
  - cbn in Hin. repeat (destruct Hin as [<- | Hin]; [discriminate |]). contradiction.
  - apply in_map_iff in Hin as (axis & <- & _). discriminate.
  - cbn in Hin. repeat (destruct Hin as [<- | Hin]; [discriminate |]). contradiction.
  - destruct (coolant_system (capabilities m)); cbn in Hin;
      repeat (destruct Hin as [<- | Hin]; [discriminate |]); contradiction.
  - cbn in Hin. repeat (destruct Hin as [<- | Hin]; [discriminate |]). contradiction.
Qed.

(** X10. The readings of one call of [generateSensorReadings] have, in order,
    the sensor types spindle-speed, spindle-load, position-x ... (one for
    each axis), feedrate, vibration, temperature, current-tool,
    coolant-pressure and coolant-flow (with a coolant system), operational,
    cycle-phase, parts-count, efficiency; and when the timestamp that the call
    writes is read back as a date whose time value is not 0, every one of them
    is converted, for any machine, into a message that passes
    [validateUMHMessage]. *)
Theorem generated_readings_convert_to_valid_messages
    (Math_sin : Q -> Q) (parseFloat : string -> jsnum) (toISOString : Z -> string)
    (Date_parse : string -> option Z) (env : ProcessEnv)
    (this0 : CNCDataGenerator) (m : CNCMachineConfig) (w : World) (t : Z) :
  let out := fst (generateSensorReadings Math_sin parseFloat toISOString env this0 w) in
  Date_parse (toISOString (lastUpdate (snd out))) = Some t -> t <> 0%Z ->
  List.map (fun r => extractSensorType (topicPath r)) (fst out)
  = sensor_names (machine this0) /\
  Forall (fun r => valid (validateUMHMessage (message_for Date_parse m r)) = true)
    (fst out).
Proof.
  cbv zeta. intros Hdate Ht.
  destruct (generateSensorReadings_yields Math_sin parseFloat toISOString env this0 w)
    as (_ & Hnames & Hall).
  split; [exact Hnames |].
  apply Forall_forall. intros r Hin.
  rewrite Forall_forall in Hall. destruct (Hall r Hin) as (Hts & _ & Hv1 & Hv2).
  unfold message_for.
  apply (converted_valid Date_parse _ t); cbn [r_payload sensorType];
    try assumption.
  - now rewrite Hts.
  - apply (sensor_names_nonempty (machine this0)). rewrite <- Hnames.
    apply (in_map (fun r => extractSensorType (topicPath r))). exact Hin.
Qed.

(** X10 at a machining generator of the first machine. *)
Lemma generated_readings_convert_to_valid_messages_witness :
  sample_Date_parse
    (sample_toISOString
       (lastUpdate (snd (fst (generateSensorReadings sample_sin sample_parseFloat
                                sample_toISOString sample_env machining_generator
                                (world_at 1000))))))
  = Some sample_now /\
  sample_now <> 0%Z /\
  List.map (fun r => extractSensorType (topicPath r))
    (fst (fst (generateSensorReadings sample_sin sample_parseFloat sample_toISOString
                 sample_env machining_generator (world_at 1000))))
  = sensor_names (machine machining_generator) /\
  Forall (fun r => valid (validateUMHMessage
                            (message_for sample_Date_parse cnc_001 r)) = true)
    (fst (fst (generateSensorReadings sample_sin sample_parseFloat sample_toISOString
                 sample_env machining_generator (world_at 1000)))).
Proof.
  assert (Hne : sample_now <> 0%Z) by discriminate.
  split; [reflexivity |]. split; [exact Hne |].
  exact (generated_readings_convert_to_valid_messages sample_sin sample_parseFloat
           sample_toISOString sample_Date_parse sample_env machining_generator
           cnc_001 (world_at 1000) sample_now eq_refl Hne).
Defined.

(** ** The life cycle of the managers *)

(** X11. [start] on a UMH manager that is not running succeeds exactly when
    the sink answers the health check or, failing that, the request for the
    root: the manager then runs with its timer set to the publish interval.
    When both requests fail, [start] throws the connection error and leaves
    the manager stopped, without timer. *)
Theorem UMH_start_runs_iff_connected (s : UMH.UMHSimulationManager) (w : World) :
  UMH.isRunning s = false ->
  let s' := fst (fst (UMH.start s w)) in
  match snd (fst (UMH.start s w)) with
  | Returned _ =>
      UMH.isRunning s' = true /\
      UMH.publishTimer s' = Some (UMH.publishInterval (UMH.config s)) /\
      exists status,
        sink_results w (requests w) = SinkOk status \/
        sink_results w (S (requests w)) = SinkOk status
  | Threw e =>
      UMH.isRunning s' = false /\
      UMH.publishTimer s' = None /\
      exists e0 e1,
        sink_results w (requests w) = SinkFail e0 /\
        sink_results w (S (requests w)) = SinkFail e1 /\
        e = ErrorObj ("UMH-Core connection failed: " ++ as_Error_message e1)
  end.
Proof.
  intros Hrun. cbv zeta.
  destruct (UMH.start s w) as [[s' out] w'] eqn:E. cbn [fst snd].
  exact (UMH_start_fails_only_on_connection_failure s w s' out w' Hrun E).
Qed.

(** X11 at a fresh manager and a sink that refuses every request. *)
Lemma UMH_start_runs_iff_connected_witness :
  UMH.isRunning fresh_umh_manager = false /\
  (let w := world_refusing_all in
   let s' := fst (fst (UMH.start fresh_umh_manager w)) in
   match snd (fst (UMH.start fresh_umh_manager w)) with
   | Returned _ =>
       UMH.isRunning s' = true /\
       UMH.publishTimer s' = Some (UMH.publishInterval (UMH.config fresh_umh_manager)) /\
       exists status,
         sink_results w (requests w) = SinkOk status \/
         sink_results w (S (requests w)) = SinkOk status
   | Threw e =>
       UMH.isRunning s' = false /\
       UMH.publishTimer s' = None /\
       exists e0 e1,
         sink_results w (requests w) = SinkFail e0 /\
         sink_results w (S (requests w)) = SinkFail e1 /\
         e = ErrorObj ("UMH-Core connection failed: " ++ as_Error_message e1)
   end).
Proof.
  split; [reflexivity |].
  exact (UMH_start_runs_iff_connected fresh_umh_manager world_refusing_all eq_refl).
Defined.

(** X12. [stop] on a running UMH manager makes no request, keeps the metrics
    and the generators, and leaves a manager that is inert: it is not running
    and has no timer, so that the timer never fires again, a call of
    [publishSensorData] that is still pending returns at once without any
    effect, and a second [stop] does nothing.  While the manager runs, a
    second [start] throws 'UMH simulation is already running' and changes
    nothing. *)
Theorem UMH_stop_leaves_an_inert_manager
    (Math_sin : Q -> Q) (parseFloat : string -> jsnum) (toISOString : Z -> string)
    (Date_parse : string -> option Z) (env : ProcessEnv)
    (roster : list CNCMachineConfig)
    (s : UMH.UMHSimulationManager) (w : World) :
  UMH.isRunning s = true ->
  let s' := fst (UMH.stop s w) in
  let w' := snd (UMH.stop s w) in
  UMH.start s w
  = ((s, Threw (ErrorObj "UMH simulation is already running")), w) /\
  UMH.isRunning s' = false /\ UMH.publishTimer s' = None /\
  UMH.metrics s' = UMH.metrics s /\ UMH.dataFactory s' = UMH.dataFactory s /\
  requests w' = requests w /\ posts_of (trace w') = posts_of (trace w) /\
  (forall w1, UMH.stop s' w1 = (s', w1)) /\
  (forall w1,
     UMH.publishSensorData Math_sin parseFloat toISOString Date_parse env roster s' w1
     = (s', w1)) /\
  (forall tick n w1, UMH.timer_fires tick n s' w1 = (s', w1)).
Proof.
  intros Hrun. cbv zeta.
  split; [unfold UMH.start; now rewrite Hrun |].
  unfold UMH.stop. rewrite Hrun. cbn [negb].
  unfold bind, log, emit, ret, UMH.disconnectUMH, disconnect.
  cbn [fst snd UMH.umhClient UMH.with_timer UMH.with_running].
  destruct (UMH.umhClient s) as [client |] eqn:Ec;
    unfold bind, log, emit, ret;
    cbn [fst snd UMH.isRunning UMH.publishTimer UMH.metrics UMH.dataFactory
         requests trace UMH.with_timer UMH.with_running];
    (repeat match goal with |- _ /\ _ => split end; try reflexivity;
     [ rewrite ?posts_of_app; cbn [posts_of]; now rewrite ?app_nil_r
     | intros w1; unfold UMH.publishSensorData;
       cbn [UMH.umhClient UMH.isRunning UMH.with_timer UMH.with_running negb];
       rewrite ?Ec; reflexivity
     | intros tick [| n] w1; reflexivity ]).
Qed.

(** X12 at a manager started against a sink that accepts. *)
Lemma UMH_stop_leaves_an_inert_manager_witness :
  UMH.isRunning running_umh_manager = true /\
  (let s' := fst (UMH.stop running_umh_manager calm_world) in
   let w' := snd (UMH.stop running_umh_manager calm_world) in
   UMH.start running_umh_manager calm_world
   = ((running_umh_manager, Threw (ErrorObj "UMH simulation is already running")),
      calm_world) /\
   UMH.isRunning s' = false /\ UMH.publishTimer s' = None /\
   UMH.metrics s' = UMH.metrics running_umh_manager /\
   UMH.dataFactory s' = UMH.dataFactory running_umh_manager /\
   requests w' = requests calm_world /\
   posts_of (trace w') = posts_of (trace calm_world) /\
   (forall w1, UMH.stop s' w1 = (s', w1)) /\
   (forall w1,
      UMH.publishSensorData sample_sin sample_parseFloat sample_toISOString
        sample_Date_parse sample_env [] s' w1 = (s', w1)) /\
   (forall tick n w1, UMH.timer_fires tick n s' w1 = (s', w1))).
Proof.
  split; [reflexivity |].
  exact (UMH_stop_leaves_an_inert_manager sample_sin sample_parseFloat
           sample_toISOString sample_Date_parse sample_env []
           running_umh_manager calm_world eq_refl).
Defined.

(** X13. [start] on an MQTT manager that is not running makes one connection
    attempt.  When the broker accepts, the manager runs with its timer set to
    the publish interval and its metrics untouched; when the broker refuses,
    [start] throws the broker's error, the error log ends with
    'MQTT connection error: ...', and the manager is left stopped, without
    timer. *)
Theorem MQTT_start_runs_iff_connected (s : MQTT.SimulationManager) (w : World) :
  MQTT.isRunning s = false ->
  let s' := fst (fst (MQTT.start s w)) in
  let w' := snd (MQTT.start s w) in
  requests w' = S (requests w) /\
  match sink_results w (requests w) with
  | SinkOk _ =>
      snd (fst (MQTT.start s w)) = Returned tt /\
      MQTT.isRunning s' = true /\
      MQTT.publishTimer s' = Some (MQTT.publishInterval (MQTT.config s)) /\
      MQTT.startTime s' = clock_reads w (reads w) /\
      MQTT.metrics s' = MQTT.metrics s
  | SinkFail e =>
      snd (fst (MQTT.start s w)) = Threw e /\
      MQTT.isRunning s' = false /\
      MQTT.publishTimer s' = None /\
      List.last (MQTT.errors (MQTT.metrics s')) EmptyString
      = "MQTT connection error: " ++ message_of e
  end.
Proof.
  intros Hrun. cbv zeta. unfold MQTT.start. rewrite Hrun.
  unfold MQTT.connectMQTT, bind, log, emit, sink_request, ret.
  cbn [fst snd random_draws drawn clock_reads reads sink_results requests trace].
  destruct (sink_results w (requests w)) as [status | e].
  - unfold MQTT.startPublishing, bind, log, emit, ret.
    cbn [fst snd random_draws drawn clock_reads reads sink_results requests trace].
    unfold Date_now.
    cbn [fst snd random_draws drawn clock_reads reads sink_results requests trace
         MQTT.isRunning MQTT.publishTimer MQTT.startTime MQTT.metrics
         MQTT.with_running MQTT.with_timer MQTT.with_client MQTT.config].
    repeat match goal with |- _ /\ _ => split end; reflexivity.
  - unfold MQTT.cleanup, MQTT.disconnectMQTT, bind, log, emit, ret.
    cbn [fst snd random_draws drawn clock_reads reads sink_results requests trace
         MQTT.mqttClient MQTT.with_timer MQTT.with_client MQTT.addError
         MQTT.with_metrics].
    unfold log, emit.
    cbn [fst snd random_draws drawn clock_reads reads sink_results requests trace
         MQTT.isRunning MQTT.publishTimer MQTT.startTime MQTT.metrics MQTT.errors
         MQTT.with_running MQTT.with_timer MQTT.with_client MQTT.config].
    do 4 (split; [reflexivity |]). apply push_error_last.
Qed.

(** X13 at a fresh manager and a broker that refuses. *)
Lemma MQTT_start_runs_iff_connected_witness :
  MQTT.isRunning fresh_mqtt_manager = false /\
  (let s' := fst (fst (MQTT.start fresh_mqtt_manager world_refusing_all)) in
   let w' := snd (MQTT.start fresh_mqtt_manager world_refusing_all) in
   requests w' = S (requests world_refusing_all) /\
   match sink_results world_refusing_all (requests world_refusing_all) with
   | SinkOk _ =>
       snd (fst (MQTT.start fresh_mqtt_manager world_refusing_all)) = Returned tt /\
       MQTT.isRunning s' = true /\
       MQTT.publishTimer s'
       = Some (MQTT.publishInterval (MQTT.config fresh_mqtt_manager)) /\
       MQTT.startTime s' = clock_reads world_refusing_all (reads world_refusing_all) /\
       MQTT.metrics s' = MQTT.metrics fresh_mqtt_manager
   | SinkFail e =>
       snd (fst (MQTT.start fresh_mqtt_manager world_refusing_all)) = Threw e /\
       MQTT.isRunning s' = false /\
       MQTT.publishTimer s' = None /\
       List.last (MQTT.errors (MQTT.metrics s')) EmptyString
       = "MQTT connection error: " ++ message_of e
   end).
Proof.
  split; [reflexivity |].
  exact (MQTT_start_runs_iff_connected fresh_mqtt_manager world_refusing_all eq_refl).
Defined.

(** X14. [stop] on a running MQTT manager makes no request, keeps the metrics
    and the generators, and leaves a manager that is not running and has no
    timer: a timer tick or a pending [publishSensorData] then has no effect,
    and a second [stop] does nothing.  A callback of a message published
    before the stop is still counted. While the manager runs, a second
    [start] throws 'Simulation is already running' and changes nothing. *)
Theorem MQTT_stop_leaves_an_inert_manager
    (Math_sin : Q -> Q) (parseFloat : string -> jsnum) (toISOString : Z -> string)
    (Date_parse : string -> option Z) (env : ProcessEnv)
    (roster : list CNCMachineConfig)
    (s : MQTT.SimulationManager) (w : World) :
  MQTT.isRunning s = true ->
  let s' := fst (MQTT.stop s w) in
  let w' := snd (MQTT.stop s w) in
  MQTT.start s w = ((s, Threw (ErrorObj "Simulation is already running")), w) /\
  MQTT.isRunning s' = false /\ MQTT.publishTimer s' = None /\
  MQTT.metrics s' = MQTT.metrics s /\ MQTT.dataFactory s' = MQTT.dataFactory s /\
  requests w' = requests w /\
  (forall w1, MQTT.stop s' w1 = (s', w1)) /\
  (forall w1,
     MQTT.publishSensorData Math_sin parseFloat toISOString Date_parse env roster s' w1
     = (s', w1)) /\
  (forall w1,
     MQTT.step Math_sin parseFloat toISOString Date_parse env roster s' MQTT.Tick w1
     = (s', w1)) /\
  (forall topic w1,
     MQTT.totalMessagesPublished
       (MQTT.metrics (fst (MQTT.publish_callback s' topic None w1)))
     = (MQTT.totalMessagesPublished (MQTT.metrics s) + 1)%Z).
Proof.
  intros Hrun. cbv zeta.
  split; [unfold MQTT.start; now rewrite Hrun |].
  unfold MQTT.stop. rewrite Hrun. cbn [negb].
  unfold bind, log, emit, ret, MQTT.disconnectMQTT.
  cbn [fst snd MQTT.mqttClient MQTT.with_timer MQTT.with_running].
  destruct (MQTT.mqttClient s) as [client |] eqn:Ec;
    unfold bind, log, emit, ret;
    cbn [fst snd MQTT.isRunning MQTT.publishTimer MQTT.metrics MQTT.dataFactory
         requests trace MQTT.with_timer MQTT.with_running];
    (repeat match goal with |- _ /\ _ => split end; try reflexivity;
     intros w1; unfold MQTT.step, MQTT.publishSensorData;
     cbn [MQTT.mqttClient MQTT.isRunning MQTT.publishTimer MQTT.with_timer
          MQTT.with_running negb];
     rewrite ?Ec; reflexivity).
Qed.

(** X14 at a manager started against a broker that accepts. *)
Lemma MQTT_stop_leaves_an_inert_manager_witness :
  MQTT.isRunning running_mqtt_manager = true /\
  (let s' := fst (MQTT.stop running_mqtt_manager calm_world) in
   let w' := snd (MQTT.stop running_mqtt_manager calm_world) in
   MQTT.start running_mqtt_manager calm_world
   = ((running_mqtt_manager, Threw (ErrorObj "Simulation is already running")),
      calm_world) /\
   MQTT.isRunning s' = false /\ MQTT.publishTimer s' = None /\
   MQTT.metrics s' = MQTT.metrics running_mqtt_manager /\
   MQTT.dataFactory s' = MQTT.dataFactory running_mqtt_manager /\
   requests w' = requests calm_world /\
   (forall w1, MQTT.stop s' w1 = (s', w1)) /\
   (forall w1,
      MQTT.publishSensorData sample_sin sample_parseFloat sample_toISOString
        sample_Date_parse sample_env [] s' w1 = (s', w1)) /\
   (forall w1,
      MQTT.step sample_sin sample_parseFloat sample_toISOString sample_Date_parse
        sample_env [] s' MQTT.Tick w1 = (s', w1)) /\
   (forall topic w1,
      MQTT.totalMessagesPublished
        (MQTT.metrics (fst (MQTT.publish_callback s' topic None w1)))
      = (MQTT.totalMessagesPublished (MQTT.metrics running_mqtt_manager) + 1)%Z)).
Proof.
  split; [reflexivity |].
  exact (MQTT_stop_leaves_an_inert_manager sample_sin sample_parseFloat
           sample_toISOString sample_Date_parse sample_env []
           running_mqtt_manager calm_world eq_refl).
Defined.

(** ** The error log *)

Lemma push_error_skipn (errs : list string) (e : string) :
  push_error errs e = skipn (List.length errs + 1 - 10) (errs ++ [e])%list.
Proof.
  unfold push_error. rewrite length_app. cbn [List.length].
  destruct (10 <? List.length errs + 1)%nat eqn:E; [reflexivity |].
  apply Nat.ltb_ge in E.
  replace (List.length errs + 1 - 10)%nat with 0%nat by lia. reflexivity.
Qed.

Lemma fold_left_push_error (es : list string) :
  forall errs : list string,
    (List.length errs <= 10)%nat ->
    fold_left push_error es errs
    = skipn (List.length (errs ++ es) - 10) (errs ++ es)%list.
Proof.
  induction es as [| e es IH]; intros errs Hlen.
  - cbn [fold_left]. rewrite app_nil_r.
    replace (List.length errs - 10)%nat with 0%nat by lia. reflexivity.
  - cbn [fold_left]. rewrite (IH _ (push_error_bounded errs e)).
    rewrite push_error_skipn.
    set (k := (List.length errs + 1 - 10)%nat).
    assert (Hk : (k <= List.length (errs ++ [e]))%nat).
    { rewrite length_app. cbn [List.length]. lia. }
    replace (skipn k (errs ++ [e]) ++ es)%list
      with (skipn k ((errs ++ [e]) ++ es))%list.
    2:{ rewrite skipn_app.
        replace (k - List.length (errs ++ [e]))%nat with 0%nat by lia.
        reflexivity. }
    rewrite skipn_skipn, length_skipn, <- app_assoc. cbn [app].
    f_equal. rewrite !length_app. cbn [List.length]. lia.
Qed.

Lemma UMH_addError_fold (es : list string) :
  forall s : UMH.UMHSimulationManager,
    UMH.errors (UMH.metrics (fold_left UMH.addError es s))
    = fold_left push_error es (UMH.errors (UMH.metrics s)) /\
    UMH.totalMessagesPublished (UMH.metrics (fold_left UMH.addError es s))
    = UMH.totalMessagesPublished (UMH.metrics s) /\
    UMH.batchesSent (UMH.metrics (fold_left UMH.addError es s))
    = UMH.batchesSent (UMH.metrics s) /\
    UMH.activeMachines (UMH.metrics (fold_left UMH.addError es s))
    = UMH.activeMachines (UMH.metrics s) /\
    UMH.isRunning (fold_left UMH.addError es s) = UMH.isRunning s.
Proof.
  induction es as [| e es IH]; intros s; [repeat split |].
  cbn [fold_left]. destruct (IH (UMH.addError s e)) as (H1 & H2 & H3 & H4 & H5).
  rewrite H1, H2, H3, H4, H5. repeat split.
Qed.

Lemma MQTT_addError_fold (es : list string) :
  forall s : MQTT.SimulationManager,
    MQTT.errors (MQTT.metrics (fold_left MQTT.addError es s))
    = fold_left push_error es (MQTT.errors (MQTT.metrics s)) /\
    MQTT.totalMessagesPublished (MQTT.metrics (fold_left MQTT.addError es s))
    = MQTT.totalMessagesPublished (MQTT.metrics s) /\
    MQTT.activeMachines (MQTT.metrics (fold_left MQTT.addError es s))
    = MQTT.activeMachines (MQTT.metrics s) /\
    MQTT.isRunning (fold_left MQTT.addError es s) = MQTT.isRunning s.
Proof.
  induction es as [| e es IH]; intros s; [repeat split |].
  cbn [fold_left]. destruct (IH (MQTT.addError s e)) as (H1 & H2 & H3 & H4).
  rewrite H1, H2, H3, H4. repeat split.
Qed.

(** X15. The error log of a manager keeps the last ten errors, oldest first:
    after any sequence of [addError] on a log of at most ten entries, the log
    is the old log followed by the new errors, cut down to its last ten
    entries.  [addError] changes nothing else: the counters and the running
    flag stay as they are.  This holds for both managers. *)
Theorem error_log_keeps_the_last_ten
    (u : UMH.UMHSimulationManager) (m : MQTT.SimulationManager) (es : list string) :
  (List.length (UMH.errors (UMH.metrics u)) <= 10)%nat ->
  (List.length (MQTT.errors (MQTT.metrics m)) <= 10)%nat ->
  let u' := fold_left UMH.addError es u in
  let m' := fold_left MQTT.addError es m in
  let last_ten (l : list string) := skipn (List.length l - 10) l in
  UMH.errors (UMH.metrics u') = last_ten (UMH.errors (UMH.metrics u) ++ es)%list /\
  MQTT.errors (MQTT.metrics m') = last_ten (MQTT.errors (MQTT.metrics m) ++ es)%list /\
  UMH.totalMessagesPublished (UMH.metrics u')
  = UMH.totalMessagesPublished (UMH.metrics u) /\
  UMH.batchesSent (UMH.metrics u') = UMH.batchesSent (UMH.metrics u) /\
  UMH.activeMachines (UMH.metrics u') = UMH.activeMachines (UMH.metrics u) /\
  UMH.isRunning u' = UMH.isRunning u /\
  MQTT.totalMessagesPublished (MQTT.metrics m')
  = MQTT.totalMessagesPublished (MQTT.metrics m) /\
  MQTT.activeMachines (MQTT.metrics m') = MQTT.activeMachines (MQTT.metrics m) /\
  MQTT.isRunning m' = MQTT.isRunning m.
Proof.
  intros Hu Hm. cbv zeta.
  destruct (UMH_addError_fold es u) as (U1 & U2 & U3 & U4 & U5).
  destruct (MQTT_addError_fold es m) as (M1 & M2 & M3 & M4).
  rewrite U1, M1, (fold_left_push_error es _ Hu), (fold_left_push_error es _ Hm).
  repeat split; assumption.
Qed.

(** X15 at fresh managers and twelve errors: the first two are dropped. *)
Lemma error_log_keeps_the_last_ten_witness :
  (List.length (UMH.errors (UMH.metrics fresh_umh_manager)) <= 10)%nat /\
  (List.length (MQTT.errors (MQTT.metrics fresh_mqtt_manager)) <= 10)%nat /\
  UMH.errors (UMH.metrics
                (fold_left UMH.addError
                   ["e01"; "e02"; "e03"; "e04"; "e05"; "e06"; "e07"; "e08"; "e09";
                    "e10"; "e11"; "e12"] fresh_umh_manager))
  = ["e03"; "e04"; "e05"; "e06"; "e07"; "e08"; "e09"; "e10"; "e11"; "e12"].
Proof.
  assert (Hu : (List.length (UMH.errors (UMH.metrics fresh_umh_manager)) <= 10)%nat).
  { cbn. lia. }
  assert (Hm : (List.length (MQTT.errors (MQTT.metrics fresh_mqtt_manager)) <= 10)%nat).
  { cbn. lia. }
  split; [exact Hu |]. split; [exact Hm |].
  exact (proj1 (error_log_keeps_the_last_ten fresh_umh_manager fresh_mqtt_manager
                  ["e01"; "e02"; "e03"; "e04"; "e05"; "e06"; "e07"; "e08"; "e09";
                   "e10"; "e11"; "e12"] Hu Hm)).
Defined.

(** ** What a tick sends and what it counts *)

Lemma quiet_ret {A : Type} (a : A) : quiet (ret a).
Proof. intros w. repeat split. Qed.

Lemma quiet_bind {A B : Type} (c : M A) (k : A -> M B) :
  quiet c -> (forall a, quiet (k a)) -> quiet (bind c k).
Proof.
  intros Hc Hk w. unfold bind. destruct (Hc w) as (H1 & H2 & H3).
  destruct (c w) as [a w1]. cbn [snd] in *.
  destruct (Hk a w1) as (K1 & K2 & K3).
  rewrite K1, K2, K3. repeat split; assumption.
Qed.

Lemma quiet_Date_now : quiet Date_now.
Proof. intros w. repeat split. Qed.

Lemma quiet_Math_random : quiet Math_random.
Proof. intros w. repeat split. Qed.

Create HintDb quiet.
#[local] Hint Resolve quiet_ret quiet_Date_now quiet_Math_random : quiet.

Ltac quiet_tac :=
  repeat first
    [ solve [auto with quiet]
    | progress cbv zeta
    | apply quiet_bind; [| intros ?]
    | match goal with
      | |- quiet (match ?x with _ => _ end) => destruct x
      end ].

Lemma quiet_advanceCyclePhase (this : CNCDataGenerator) : quiet (advanceCyclePhase this).
Proof. unfold advanceCyclePhase. quiet_tac. Qed.

Lemma quiet_updateCycle (this : CNCDataGenerator) : quiet (updateCycle this).
Proof.
  unfold updateCycle. apply quiet_bind; [apply quiet_Date_now | intros now].
  cbv zeta. destruct (jge _ _); [apply quiet_advanceCyclePhase | apply quiet_ret].
Qed.

Section QuietGenerators.
Variable Math_sin : Q -> Q.
Variable parseFloat : string -> jsnum.
Variable toISOString : Z -> string.
Variable env : ProcessEnv.
Variable this : CNCDataGenerator.
Variable ts : Z.

Lemma quiet_generateSpindleSpeedPayload :
  quiet (generateSpindleSpeedPayload Math_sin toISOString this ts).
Proof. unfold generateSpindleSpeedPayload. quiet_tac. Qed.

Lemma quiet_generateSpindleLoadPayload :
  quiet (generateSpindleLoadPayload Math_sin toISOString this ts).
Proof. unfold generateSpindleLoadPayload. quiet_tac. Qed.

Lemma quiet_generateAxisPositionPayload (axis : string) :
  quiet (generateAxisPositionPayload Math_sin parseFloat toISOString this axis ts).
Proof. unfold generateAxisPositionPayload. quiet_tac. Qed.

Lemma quiet_generateFeedratePayload :
  quiet (generateFeedratePayload Math_sin toISOString this ts).
Proof. unfold generateFeedratePayload. quiet_tac. Qed.

Lemma quiet_generateVibrationPayload :
  quiet (generateVibrationPayload Math_sin toISOString this ts).
Proof. unfold generateVibrationPayload. quiet_tac. Qed.

Lemma quiet_generateTemperaturePayload :
  quiet (generateTemperaturePayload toISOString this ts).
Proof. unfold generateTemperaturePayload. quiet_tac. Qed.

Lemma quiet_generateCurrentToolPayload :
  quiet (generateCurrentToolPayload toISOString this ts).
Proof. unfold generateCurrentToolPayload. quiet_tac. Qed.

Lemma quiet_generateCoolantPressurePayload :
  quiet (generateCoolantPressurePayload Math_sin toISOString this ts).
Proof. unfold generateCoolantPressurePayload. quiet_tac. Qed.

Lemma quiet_generateCoolantFlowPayload :
  quiet (generateCoolantFlowPayload Math_sin toISOString this ts).
Proof. unfold generateCoolantFlowPayload. quiet_tac. Qed.

Lemma quiet_generateOperationalStatusPayload :
  quiet (generateOperationalStatusPayload toISOString this ts).
Proof. unfold generateOperationalStatusPayload. quiet_tac. Qed.

Lemma quiet_generateCyclePhasePayload :
  quiet (generateCyclePhasePayload toISOString this ts).
Proof. unfold generateCyclePhasePayload. quiet_tac. Qed.

Lemma quiet_generatePartsCountPayload :
  quiet (generatePartsCountPayload toISOString this ts).
Proof. unfold generatePartsCountPayload. quiet_tac. Qed.

Lemma quiet_generateEfficiencyPayload :
  quiet (generateEfficiencyPayload toISOString this ts).
Proof. unfold generateEfficiencyPayload. quiet_tac. Qed.

Lemma quiet_axis_readings (prefix : string) (axisLabels : list string) :
  quiet (axis_readings Math_sin parseFloat toISOString this prefix ts axisLabels).
Proof.
  induction axisLabels as [| axis rest IH]; cbn [axis_readings].
  - apply quiet_ret.
  - apply quiet_bind; [apply quiet_generateAxisPositionPayload | intros p].
    apply quiet_bind; [exact IH | intros more]. apply quiet_ret.
Qed.

End QuietGenerators.

#[local] Hint Resolve quiet_updateCycle quiet_generateSpindleSpeedPayload
  quiet_generateSpindleLoadPayload quiet_generateAxisPositionPayload
  quiet_generateFeedratePayload quiet_generateVibrationPayload
  quiet_generateTemperaturePayload quiet_generateCurrentToolPayload
  quiet_generateCoolantPressurePayload quiet_generateCoolantFlowPayload
  quiet_generateOperationalStatusPayload quiet_generateCyclePhasePayload
  quiet_generatePartsCountPayload quiet_generateEfficiencyPayload
  quiet_axis_readings : quiet.

Lemma quiet_generateSensorReadings
    (Math_sin : Q -> Q) (parseFloat : string -> jsnum) (toISOString : Z -> string)
    (env : ProcessEnv) (this0 : CNCDataGenerator) :
  quiet (generateSensorReadings Math_sin parseFloat toISOString env this0).
Proof. unfold generateSensorReadings. quiet_tac. Qed.

Lemma quiet_generateOperationalReadings_loop
    (Math_sin : Q -> Q) (parseFloat : string -> jsnum) (toISOString : Z -> string)
    (env : ProcessEnv) (roster : list CNCMachineConfig) (gens : Generators) :
  forall acc,
    quiet (generateOperationalReadings_loop Math_sin parseFloat toISOString env roster
             gens acc).
Proof.
  induction gens as [| [machineId generator] rest IH]; intros acc;
    cbn [generateOperationalReadings_loop].
  - apply quiet_ret.
  - destruct (is_operational_id roster machineId).
    + apply quiet_bind; [apply quiet_generateSensorReadings | intros out].
      apply quiet_bind; [apply IH | intros res]. apply quiet_ret.
    + apply quiet_bind; [apply IH | intros res]. apply quiet_ret.
Qed.

Lemma counted_more_refl (s : UMH.UMHSimulationManager) : counted_more s s 0.
Proof. unfold counted_more. rewrite Z.add_0_r. repeat split. Qed.

Lemma counted_more_trans (s s1 s2 : UMH.UMHSimulationManager) (n m : Z) :
  counted_more s s1 n -> counted_more s1 s2 m -> counted_more s s2 (n + m).
Proof.
  intros (A1 & A2 & A3 & A4 & A5) (B1 & B2 & B3 & B4 & B5). unfold counted_more.
  rewrite B1, B2, B3, B4, B5, A1, A2, A3, A4, A5. repeat split. lia.
Qed.

Lemma counted_more_add_published (s : UMH.UMHSimulationManager) (n b : Z) :
  counted_more s (UMH.add_published s n b) n.
Proof. repeat split. Qed.

(** The loop of single deliveries: what the sink accepted is an initial
    segment of the messages, all of them when nothing was thrown, and the
    counter grows by its length. *)
Lemma publish_each_accounting (client : UMHClient) (msgs : list UMHMessage) :
  forall (s : UMH.UMHSimulationManager) (w : World),
    exists (new : list Event) (k : nat),
      trace (snd (UMH.publish_each client s msgs w)) = (trace w ++ new)%list /\
      delivered_of new = firstn k msgs /\
      counted_more s (fst (fst (UMH.publish_each client s msgs w)))
        (Z.of_nat (List.length (delivered_of new))) /\
      (snd (fst (UMH.publish_each client s msgs w)) = None ->
       delivered_of new = msgs).
Proof.
  induction msgs as [| m rest IH]; intros s w.
  - exists [], 0%nat. cbn. rewrite app_nil_r.
    repeat split; try reflexivity. apply counted_more_refl.
  - cbn [UMH.publish_each]. unfold bind.
    destruct (publish_messages client m w) as (new1 & T1 & _ & D1).
    destruct (publish client m w) as [[u | e] w1]; cbn [fst snd] in *.
    + destruct (IH (UMH.add_published s 1 0) w1) as (new2 & k & T2 & D2 & C2 & N2).
      exists (new1 ++ new2)%list, (S k).
      rewrite T2, T1, app_assoc, delivered_of_app, D1, D2.
      split; [reflexivity |]. split; [reflexivity |]. split.
      * cbn [app List.length]. rewrite Nat2Z.inj_succ, <- Z.add_1_l.
        rewrite D2 in C2.
        exact (counted_more_trans _ _ _ _ _
                 (counted_more_add_published s 1 0) C2).
      * intros Hn. cbn [app]. f_equal. rewrite <- D2. exact (N2 Hn).
    + exists new1, 0%nat. unfold ret. cbn [fst snd]. rewrite T1, D1.
      repeat split; try reflexivity; [apply counted_more_refl | discriminate].
Qed.

Lemma quiet_stamp_all (messages : list UMHMessage) : quiet (stamp_all messages).
Proof.
  induction messages as [| m rest IH]; cbn [stamp_all]; [apply quiet_ret |].
  apply quiet_bind; [apply quiet_Date_now | intros _; exact IH].
Qed.

(** One batch request: one POST, no second attempt. *)
Lemma publishBatch_messages (client : UMHClient) (batch : list UMHMessage) (w : World) :
  exists new : list Event,
    trace (snd (publishBatch client batch w)) = (trace w ++ new)%list /\
    attempted_of new = batch /\
    List.length (posts_of new) = 1%nat /\
    delivered_of new
    = match fst (publishBatch client batch w) with
      | Returned _ => batch
      | Threw _ => []
      end.
Proof.
  unfold publishBatch, bind.
  destruct (quiet_stamp_all batch w) as (_ & _ & Ht).
  destruct (stamp_all batch w) as [u w1]. cbn [snd] in Ht.
  unfold http_post, sink_request, log, emit, ret. cbn [fst snd].
  destruct (sink_results w1 (requests w1)) as [status | e]; cbn [fst snd trace];
    rewrite Ht, <- app_assoc; eexists; (split; [reflexivity |]);
    cbn; rewrite ?app_nil_r; repeat split.
Qed.

Lemma firstn_skipn_add {A : Type} (a b : nat) (l : list A) :
  (firstn a l ++ firstn b (skipn a l))%list = firstn (a + b) l.
Proof.
  revert l. induction a as [| a IH]; intros l; [reflexivity |].
  destruct l as [| x l]; cbn [firstn skipn app Nat.add].
  - now rewrite firstn_nil.
  - now rewrite IH.
Qed.

(** The loop of batches, for a batch size of at least 1 and enough fuel. *)
Lemma publish_batches_accounting (client : UMHClient) (batchSize : nat) :
  (1 <= batchSize)%nat ->
  forall (fuel : nat) (remaining : list UMHMessage)
         (s : UMH.UMHSimulationManager) (w : World),
    (List.length remaining <= fuel)%nat ->
    exists (new : list Event) (k : nat),
      trace (snd (UMH.publish_batches fuel client s batchSize remaining w))
      = (trace w ++ new)%list /\
      delivered_of new = firstn k remaining /\
      counted_more s
        (fst (fst (UMH.publish_batches fuel client s batchSize remaining w)))
        (Z.of_nat (List.length (delivered_of new))) /\
      (snd (fst (UMH.publish_batches fuel client s batchSize remaining w)) = None ->
       delivered_of new = remaining).
Proof.
  intros Hb fuel. induction fuel as [| fuel IH]; intros remaining s w Hfuel.
  - destruct remaining as [| m rest]; [| cbn in Hfuel; lia].
    exists [], 0%nat. cbn. rewrite app_nil_r.
    repeat split; try reflexivity. apply counted_more_refl.
  - destruct remaining as [| m rest].
    { exists [], 0%nat. cbn. rewrite app_nil_r.
      repeat split; try reflexivity. apply counted_more_refl. }
    cbn [UMH.publish_batches]. cbv zeta. unfold bind.
    set (remaining := m :: rest) in *.
    destruct (publishBatch_messages client (firstn batchSize remaining) w)
      as (new1 & T1 & _ & _ & D1).
    destruct (publishBatch client (firstn batchSize remaining) w) as [[u | e] w1];
      cbn [fst snd] in *.
    + assert (Hlen : (List.length (skipn batchSize remaining) <= fuel)%nat).
      { rewrite length_skipn. unfold remaining in *. cbn [List.length] in *. lia. }
      destruct (IH (skipn batchSize remaining)
                  (UMH.add_published s
                     (Z.of_nat (List.length (firstn batchSize remaining))) 1)
                  w1 Hlen) as (new2 & k & T2 & D2 & C2 & N2).
      exists (new1 ++ new2)%list, (batchSize + k)%nat.
      rewrite T2, T1, app_assoc, delivered_of_app, D1.
      split; [reflexivity |]. split; [| split].
      * rewrite D2. apply firstn_skipn_add.
      * rewrite length_app, Nat2Z.inj_add.
        exact (counted_more_trans _ _ _ _ _
                 (counted_more_add_published s _ 1) C2).
      * intros Hn. rewrite (N2 Hn). apply firstn_skipn.
    + exists new1, 0%nat. unfold ret. cbn [fst snd]. rewrite T1, D1.
      repeat split; try reflexivity; [apply counted_more_refl | discriminate].
Qed.

Lemma posts_nothing_of_quiet {A : Type} (c : M A) : quiet c -> posts_nothing c.
Proof.
  intros H w. exists []. destruct (H w) as (Hs & Hr & Ht).
  rewrite Ht, app_nil_r. repeat split; assumption.
Qed.

Lemma posts_nothing_ret {A : Type} (a : A) : posts_nothing (ret a).
Proof. apply posts_nothing_of_quiet, quiet_ret. Qed.

Lemma posts_nothing_log (level : LogLevel) (text : string) (details : list string) :
  posts_nothing (log level text details).
Proof. intros w. exists [Logged level text details]. repeat split. Qed.

Lemma posts_nothing_bind {A B : Type} (c : M A) (k : A -> M B) :
  posts_nothing c -> (forall a, posts_nothing (k a)) -> posts_nothing (bind c k).
Proof.
  intros Hc Hk w. unfold bind.
  destruct (Hc w) as (n1 & H1 & P1 & A1 & D1 & W1 & S1 & R1).
  destruct (c w) as [a w1]. cbn [snd] in *.
  destruct (Hk a w1) as (n2 & H2 & P2 & A2 & D2 & W2 & S2 & R2).
  exists (n1 ++ n2)%list.
  rewrite H2, H1, app_assoc, posts_of_app, attempted_of_app, delivered_of_app,
    delays_of_app, P1, P2, A1, A2, D1, D2, W1, W2, S2, S1, R2, R1.
  repeat split.
Qed.

Section Adapting.
Variable Date_parse : string -> option Z.
Variable roster : list CNCMachineConfig.

Lemma posts_nothing_adapt_reading (machineId : string) (machine : CNCMachineConfig)
    (reading : SensorReading) :
  posts_nothing (UMH.adapt_reading Date_parse machineId machine reading).
Proof.
  unfold UMH.adapt_reading. cbv zeta. destruct (negb _).
  - apply posts_nothing_bind; [apply posts_nothing_log | intros _].
    apply posts_nothing_ret.
  - apply posts_nothing_ret.
Qed.

Lemma posts_nothing_adapt_readings (machineId : string) (machine : CNCMachineConfig)
    (readings : list SensorReading) :
  forall acc,
    posts_nothing (UMH.adapt_readings Date_parse machineId machine readings acc).
Proof.
  induction readings as [| reading rest IH]; intros acc; cbn [UMH.adapt_readings].
  - apply posts_nothing_ret.
  - apply posts_nothing_bind; [apply posts_nothing_adapt_reading | intros m].
    apply IH.
Qed.

Lemma posts_nothing_adapt_all (allReadings : list (string * list SensorReading)) :
  forall acc, posts_nothing (UMH.adapt_all Date_parse roster allReadings acc).
Proof.
  induction allReadings as [| [machineId readings] rest IH]; intros acc;
    cbn [UMH.adapt_all].
  - apply posts_nothing_ret.
  - destruct (find_machine roster machineId) as [machine |].
    + apply posts_nothing_bind; [apply posts_nothing_adapt_readings | intros msgs].
      apply IH.
    + apply posts_nothing_bind; [apply posts_nothing_log | intros _]. apply IH.
Qed.

End Adapting.


Lemma bind_eq {A B : Type} (c : M A) (k : A -> M B) (w : World) :
  bind c k w = k (fst (c w)) (snd (c w)).
Proof. unfold bind. now destruct (c w). Qed.

Lemma UMH_tick_total
    (Math_sin : Q -> Q) (parseFloat : string -> jsnum) (toISOString : Z -> string)
    (Date_parse : string -> option Z) (env : ProcessEnv)
    (roster : list CNCMachineConfig)
    (s : UMH.UMHSimulationManager) (w : World) (client : UMHClient) :
  UMH.umhClient s = Some client -> UMH.isRunning s = true ->
  let gen := generateOperationalReadings Math_sin parseFloat toISOString env roster
               (UMH.dataFactory s) w in
  let msgs := fst (UMH.adapt_all Date_parse roster (fst (fst gen)) [] (snd gen)) in
  let r := UMH.publishSensorData Math_sin parseFloat toISOString Date_parse env roster
             s w in
  exists (new : list Event) (k : nat),
    trace (snd r) = (trace w ++ new)%list /\
    delivered_of new = firstn k msgs /\
    UMH.totalMessagesPublished (UMH.metrics (fst r))
    = (UMH.totalMessagesPublished (UMH.metrics s)
       + Z.of_nat (List.length (delivered_of new)))%Z /\
    UMH.umhClient (fst r) = Some client /\
    UMH.isRunning (fst r) = true /\
    UMH.publishTimer (fst r) = UMH.publishTimer s.
Proof.
  intros Hc Hrun. cbv zeta. unfold UMH.publishSensorData. rewrite Hc, Hrun.
  cbn [negb]. rewrite bind_eq.
  destruct (quiet_generateOperationalReadings_loop Math_sin parseFloat toISOString env
              roster (UMH.dataFactory s) [] w) as (_ & _ & T0).
  fold (generateOperationalReadings Math_sin parseFloat toISOString env roster
          (UMH.dataFactory s)) in T0.
  destruct (generateOperationalReadings Math_sin parseFloat toISOString env roster
              (UMH.dataFactory s) w) as [out w1].
  cbn [fst snd] in *. rewrite bind_eq.
  destruct (posts_nothing_adapt_all Date_parse roster (fst out) [] w1)
    as (n1 & T1 & _ & _ & D1 & _).
  destruct (UMH.adapt_all Date_parse roster (fst out) [] w1) as [msgs w2].
  cbn [fst snd] in *. rewrite bind_eq.
  set (s0 := UMH.with_dataFactory s (snd out)).
  set (b := Z_or (UMH.batchSize (UMH.config s0)) 1).
  match goal with
  | |- context [snd (?X w2)] => set (loop := X)
  end.
  assert (Hloop : exists (new : list Event) (k : nat),
             trace (snd (loop w2)) = (trace w2 ++ new)%list /\
             delivered_of new = firstn k msgs /\
             counted_more s0 (fst (fst (loop w2)))
               (Z.of_nat (List.length (delivered_of new))) /\
             (snd (fst (loop w2)) = None -> delivered_of new = msgs)).
  { unfold loop. destruct (0 <? List.length msgs)%nat eqn:E0.
    - destruct ((1 <? b)%Z && (b <? Z.of_nat (List.length msgs))%Z) eqn:Eb.
      + apply andb_true_iff in Eb as [Eb _]. apply Z.ltb_lt in Eb.
        apply publish_batches_accounting; lia.
      + apply publish_each_accounting.
    - exists [], 0%nat. cbn. rewrite app_nil_r.
      repeat split; try reflexivity; [apply counted_more_refl |].
      intros _. apply Nat.ltb_ge in E0. destruct msgs; [reflexivity | cbn in E0; lia]. }
  destruct Hloop as (n2 & k & T2 & D2 & (C1 & C2 & C3 & C4 & C5) & _).
  clearbody loop. destruct (loop w2) as [[s3 err] w3]. cbn [fst snd] in *.
  assert (H0 : UMH.umhClient s0 = Some client /\ UMH.isRunning s0 = true /\
               UMH.publishTimer s0 = UMH.publishTimer s /\
               UMH.totalMessagesPublished (UMH.metrics s0)
               = UMH.totalMessagesPublished (UMH.metrics s)).
  { unfold s0. cbn. repeat split; assumption. }
  destruct H0 as (I1 & I2 & I3 & I4).
  rewrite I1 in C2. rewrite I2 in C5. rewrite I3 in C3. rewrite I4 in C1.
  destruct err as [err |].
  - exists (n1 ++ n2 ++ [Logged log_error "Error during UMH sensor data publishing"
                           [message_of err]])%list, k.
    unfold bind, log, emit, ret.
    cbn [fst snd trace UMH.addError UMH.with_metrics UMH.metrics
         UMH.totalMessagesPublished UMH.umhClient UMH.isRunning UMH.publishTimer].
    rewrite T2, T1, T0, !delivered_of_app, D1, D2, <- !app_assoc.
    cbn [delivered_of app]. rewrite app_nil_r.
    repeat split; try assumption. now rewrite <- D2.
  - eexists (n1 ++ n2 ++ [_])%list, k.
    unfold UMH.updateMetrics, bind, log, emit, ret, Date_now.
    cbn [fst snd trace UMH.set_activeMachines UMH.with_metrics UMH.metrics
         UMH.totalMessagesPublished UMH.umhClient UMH.isRunning UMH.publishTimer].
    rewrite T2, T1, T0, <- !app_assoc. split; [reflexivity |].
    rewrite !delivered_of_app, D1, D2.
    cbn [delivered_of app]. rewrite app_nil_r.
    repeat split; try assumption. now rewrite <- D2.
Qed.

(** X16. A tick of the running UMH manager counts what the sink accepted:
    whatever the sink answers and whether the messages go one by one or in
    batches, the messages delivered during the tick are an initial segment of
    the validated messages of the tick, in their order, each once, and
    [totalMessagesPublished] grows by exactly their number.  The manager
    keeps its client, its timer and stays running, also when a delivery
    fails. *)
Theorem UMH_tick_counts_what_the_sink_accepted
    (Math_sin : Q -> Q) (parseFloat : string -> jsnum) (toISOString : Z -> string)
    (Date_parse : string -> option Z) (env : ProcessEnv)
    (roster : list CNCMachineConfig)
    (s : UMH.UMHSimulationManager) (w : World) (client : UMHClient) :
  UMH.umhClient s = Some client -> UMH.isRunning s = true ->
  let gen := generateOperationalReadings Math_sin parseFloat toISOString env roster
               (UMH.dataFactory s) w in
  let msgs := fst (UMH.adapt_all Date_parse roster (fst (fst gen)) [] (snd gen)) in
  let r := UMH.publishSensorData Math_sin parseFloat toISOString Date_parse env roster
             s w in
  exists (new : list Event) (k : nat),
    trace (snd r) = (trace w ++ new)%list /\
    delivered_of new = firstn k msgs /\
    UMH.totalMessagesPublished (UMH.metrics (fst r))
    = (UMH.totalMessagesPublished (UMH.metrics s)
       + Z.of_nat (List.length (delivered_of new)))%Z /\
    UMH.umhClient (fst r) = Some client /\
    UMH.isRunning (fst r) = true /\
    UMH.publishTimer (fst r) = UMH.publishTimer s.
Proof.
  intros Hc Hrun.
  exact (UMH_tick_total Math_sin parseFloat toISOString Date_parse env roster s w
           client Hc Hrun).
Qed.

(** X16 at the manager started on the built-in roster, when the sink refuses
    the three attempts for the first message. *)
Lemma UMH_tick_counts_what_the_sink_accepted_witness :
  UMH.umhClient (fst (umh_started refusing_world)) = Some manager_client /\
  UMH.isRunning (fst (umh_started refusing_world)) = true /\
  (let gen := generateOperationalReadings sample_sin sample_parseFloat
                sample_toISOString sample_env (CNC_MACHINES sample_env)
                (UMH.dataFactory (fst (umh_started refusing_world)))
                (snd (umh_started refusing_world)) in
   let msgs := fst (UMH.adapt_all sample_Date_parse (CNC_MACHINES sample_env)
                      (fst (fst gen)) [] (snd gen)) in
   let r := UMH.publishSensorData sample_sin sample_parseFloat sample_toISOString
              sample_Date_parse sample_env (CNC_MACHINES sample_env)
              (fst (umh_started refusing_world))
              (snd (umh_started refusing_world)) in
   exists (new : list Event) (k : nat),
     trace (snd r) = (trace (snd (umh_started refusing_world)) ++ new)%list /\
     delivered_of new = firstn k msgs /\
     UMH.totalMessagesPublished (UMH.metrics (fst r))
     = (UMH.totalMessagesPublished
          (UMH.metrics (fst (umh_started refusing_world)))
        + Z.of_nat (List.length (delivered_of new)))%Z /\
     UMH.umhClient (fst r) = Some manager_client /\
     UMH.isRunning (fst r) = true /\
     UMH.publishTimer (fst r)
     = UMH.publishTimer (fst (umh_started refusing_world))).
Proof.
  assert (Hc : UMH.umhClient (fst (umh_started refusing_world))
               = Some manager_client) by (vm_compute; reflexivity).
  assert (Hr : UMH.isRunning (fst (umh_started refusing_world)) = true)
    by (vm_compute; reflexivity).
  split; [exact Hc |]. split; [exact Hr |].
  exact (UMH_tick_counts_what_the_sink_accepted sample_sin sample_parseFloat
           sample_toISOString sample_Date_parse sample_env (CNC_MACHINES sample_env)
           (fst (umh_started refusing_world)) (snd (umh_started refusing_world))
           manager_client Hc Hr).
Defined.

(** ** The MQTT manager *)

Lemma mqtt_of_app (a b : list Event) :
  mqtt_of (a ++ b) = (mqtt_of a ++ mqtt_of b)%list.
Proof.
  induction a as [| e a IH]; [reflexivity |].
  destruct e; cbn; rewrite ?IH; reflexivity.
Qed.

Section MQTTTick.
Variable Math_sin : Q -> Q.
Variable parseFloat : string -> jsnum.
Variable toISOString : Z -> string.
Variable Date_parse : string -> option Z.
Variable env : ProcessEnv.
Variable roster : list CNCMachineConfig.

Lemma publish_readings_uns (machineId : string) (machine : CNCMachineConfig)
    (readings : list SensorReading) :
  forall w, exists new,
    trace (snd (MQTT.publish_readings Date_parse "uns" machineId machine readings w))
    = (trace w ++ new)%list /\
    mqtt_of new = List.map (fun r => (topicPath r, inl (payload r))) readings.
Proof.
  induction readings as [| r rest IH]; intros w.
  - exists []. cbn. now rewrite app_nil_r.
  - cbn [MQTT.publish_readings]. unfold bind at 1.
    unfold MQTT.publish_reading. cbn [String.eqb Ascii.eqb Bool.eqb orb].
    unfold bind, MQTT.publishMessage, emit, ret. cbn [fst snd].
    match goal with |- context [MQTT.publish_readings _ _ _ _ _ ?w1] =>
      destruct (IH w1) as (new & T & P) end.
    exists (MqttPublish (topicPath r) (inl (payload r)) :: new).
    rewrite T. cbn [trace mqtt_of List.map]. rewrite <- app_assoc, P.
    split; reflexivity.
Qed.

Lemma publish_all_uns (allReadings : list (string * list SensorReading)) :
  forall w, exists new,
    trace (snd (MQTT.publish_all Date_parse roster "uns" allReadings w))
    = (trace w ++ new)%list /\
    mqtt_of new = uns_messages roster allReadings.
Proof.
  induction allReadings as [| [machineId readings] rest IH]; intros w.
  - exists []. cbn. now rewrite app_nil_r.
  - cbn [MQTT.publish_all]. unfold uns_messages. cbn [flat_map fst snd].
    fold (uns_messages roster rest).
    destruct (find_machine roster machineId) as [machine |].
    + rewrite bind_eq.
      destruct (publish_readings_uns machineId machine readings w) as (n1 & T1 & P1).
      destruct (IH (snd (MQTT.publish_readings Date_parse "uns" machineId machine
                           readings w))) as (n2 & T2 & P2).
      exists (n1 ++ n2)%list. rewrite T2, T1, mqtt_of_app, P1, P2, app_assoc.
      split; reflexivity.
    + rewrite bind_eq. unfold log, emit. cbn [fst snd].
      match goal with |- context [MQTT.publish_all _ _ _ _ ?w1] =>
        destruct (IH w1) as (n2 & T2 & P2) end.
      eexists (_ :: n2). rewrite T2. cbn [trace]. rewrite <- app_assoc.
      split; [reflexivity |]. cbn [mqtt_of app]. exact P2.
Qed.

Lemma publish_readings_other (outputFormat machineId : string)
    (machine : CNCMachineConfig) (readings : list SensorReading) :
  String.eqb outputFormat "uns" = false ->
  String.eqb outputFormat "umh" = false ->
  String.eqb outputFormat "both" = false ->
  forall w,
    MQTT.publish_readings Date_parse outputFormat machineId machine readings w
    = (tt, w).
Proof.
  intros H1 H2 H3. induction readings as [| r rest IH]; intros w; [reflexivity |].
  cbn [MQTT.publish_readings]. unfold MQTT.publish_reading.
  rewrite H1, H2, H3. cbn [orb]. unfold bind, ret. apply IH.
Qed.

Lemma publish_all_other (outputFormat : string)
    (allReadings : list (string * list SensorReading)) :
  String.eqb outputFormat "uns" = false ->
  String.eqb outputFormat "umh" = false ->
  String.eqb outputFormat "both" = false ->
  forall w,
    mqtt_of (trace (snd (MQTT.publish_all Date_parse roster outputFormat allReadings w)))
    = mqtt_of (trace w).
Proof.
  intros H1 H2 H3.
  induction allReadings as [| [machineId readings] rest IH]; intros w; [reflexivity |].
  cbn [MQTT.publish_all].
  destruct (find_machine roster machineId) as [machine |]; rewrite bind_eq.
  - rewrite (publish_readings_other _ _ _ _ H1 H2 H3). cbn [fst snd]. apply IH.
  - rewrite IH. unfold log, emit. cbn [snd trace].
    rewrite mqtt_of_app. cbn. now rewrite app_nil_r.
Qed.

End MQTTTick.

Section MQTTRequests.
Variable Date_parse : string -> option Z.
Variable roster : list CNCMachineConfig.

Lemma publish_readings_requests (outputFormat machineId : string)
    (machine : CNCMachineConfig) (readings : list SensorReading) :
  forall w,
    requests (snd (MQTT.publish_readings Date_parse outputFormat machineId machine
                     readings w)) = requests w.
Proof.
  induction readings as [| r rs IH]; intros w; [reflexivity |].
  cbn [MQTT.publish_readings]. rewrite bind_eq, IH.
  unfold MQTT.publish_reading. rewrite bind_eq.
  destruct (_ || _), (_ || _); cbv zeta;
    try destruct (negb _);
    try destruct (topic _); try destruct (umh_payload _);
    reflexivity.
Qed.

Lemma publish_all_requests (outputFormat : string)
    (allReadings : list (string * list SensorReading)) :
  forall w,
    requests (snd (MQTT.publish_all Date_parse roster outputFormat allReadings w))
    = requests w.
Proof.
  induction allReadings as [| [machineId readings] rest IH]; intros w;
    [reflexivity |].
  cbn [MQTT.publish_all].
  destruct (find_machine roster machineId) as [machine |]; rewrite bind_eq, IH.
  - apply publish_readings_requests.
  - reflexivity.
Qed.

End MQTTRequests.

Section MQTTManager.
Variable Math_sin : Q -> Q.
Variable parseFloat : string -> jsnum.
Variable toISOString : Z -> string.
Variable Date_parse : string -> option Z.
Variable env : ProcessEnv.
Variable roster : list CNCMachineConfig.

(** A tick of the MQTT manager leaves the message counter and the error log
    alone: they change in the callbacks only. *)
Lemma MQTT_tick_keeps_counters (s : MQTT.SimulationManager) (w : World) :
  let s' := fst (MQTT.publishSensorData Math_sin parseFloat toISOString Date_parse
                   env roster s w) in
  MQTT.totalMessagesPublished (MQTT.metrics s')
  = MQTT.totalMessagesPublished (MQTT.metrics s) /\
  MQTT.errors (MQTT.metrics s') = MQTT.errors (MQTT.metrics s) /\
  MQTT.publishTimer s' = MQTT.publishTimer s.
Proof.
  cbv zeta. unfold MQTT.publishSensorData.
  destruct (MQTT.mqttClient s); [| repeat split].
  destruct (MQTT.isRunning s); cbn [negb]; [| repeat split].
  rewrite bind_eq. cbv zeta. rewrite bind_eq.
  unfold MQTT.updateMetrics. rewrite !bind_eq. unfold ret, Date_now.
  cbn [fst snd MQTT.metrics MQTT.with_metrics MQTT.set_activeMachines
       MQTT.with_dataFactory MQTT.totalMessagesPublished MQTT.errors
       MQTT.publishTimer].
  repeat split.
Qed.

Lemma MQTT_run_accounting (steps : list MQTT.Step) :
  forall (s : MQTT.SimulationManager) (w : World),
    let s' := fst (MQTT.run Math_sin parseFloat toISOString Date_parse env roster
                     steps s w) in
    MQTT.totalMessagesPublished (MQTT.metrics s')
    = (MQTT.totalMessagesPublished (MQTT.metrics s) + Z.of_nat (acknowledged steps))%Z
    /\ MQTT.errors (MQTT.metrics s')
       = fold_left push_error (failures steps) (MQTT.errors (MQTT.metrics s)).
Proof.
  induction steps as [| e rest IH]; intros s w.
  - cbn. split; [lia | reflexivity].
  - cbv zeta. cbn [MQTT.run]. rewrite bind_eq.
    specialize (IH (fst (MQTT.step Math_sin parseFloat toISOString Date_parse env
                           roster s e w))
                   (snd (MQTT.step Math_sin parseFloat toISOString Date_parse env
                           roster s e w))).
    cbv zeta in IH. destruct IH as [IH1 IH2]. rewrite IH1, IH2.
    destruct e as [| topic [err |]]; cbn [MQTT.step acknowledged failures fold_left].
    + assert (H : MQTT.totalMessagesPublished
                    (MQTT.metrics (fst (MQTT.step Math_sin parseFloat toISOString
                                          Date_parse env roster s MQTT.Tick w)))
                  = MQTT.totalMessagesPublished (MQTT.metrics s) /\
                  MQTT.errors
                    (MQTT.metrics (fst (MQTT.step Math_sin parseFloat toISOString
                                          Date_parse env roster s MQTT.Tick w)))
                  = MQTT.errors (MQTT.metrics s)).
      { cbn [MQTT.step]. destruct (MQTT.publishTimer s); [| split; reflexivity].
        destruct (MQTT_tick_keeps_counters s w) as (H1 & H2 & _). now split. }
      cbn [MQTT.step] in H. destruct H as [H1 H2]. rewrite H1, H2.
      split; reflexivity.
    + unfold MQTT.publish_callback. rewrite bind_eq. unfold ret.
      cbn [fst snd MQTT.addError MQTT.with_metrics MQTT.metrics
           MQTT.totalMessagesPublished MQTT.errors].
      split; reflexivity.
    + unfold MQTT.publish_callback, ret.
      cbn [fst snd MQTT.count_published MQTT.with_metrics MQTT.metrics
           MQTT.totalMessagesPublished MQTT.errors].
      split; [lia | reflexivity].
Qed.

End MQTTManager.

(** X17. A tick of the running MQTT manager hands to the client, in the
    default 'uns' format, exactly the readings of the machines served: each
    under its own topic path with its own payload, machine after machine in
    the order of the readings; with an output format that is none of 'uns',
    'umh' and 'both' it hands over nothing at all.  In every format the tick
    makes no request of its own, sets [activeMachines] to the number of
    machines served and leaves the message counter and the error log as they
    are. *)
Theorem MQTT_tick_publishes_the_readings
    (Math_sin : Q -> Q) (parseFloat : string -> jsnum) (toISOString : Z -> string)
    (Date_parse : string -> option Z) (env : ProcessEnv)
    (roster : list CNCMachineConfig)
    (s : MQTT.SimulationManager) (w : World) (url : string) :
  MQTT.mqttClient s = Some url -> MQTT.isRunning s = true ->
  let gen := generateOperationalReadings Math_sin parseFloat toISOString env roster
               (MQTT.dataFactory s) w in
  let fmt := str_or (MQTT.outputFormat (MQTT.config s)) "uns" in
  let r := MQTT.publishSensorData Math_sin parseFloat toISOString Date_parse env
             roster s w in
  (fmt = "uns" ->
   exists new, trace (snd r) = (trace w ++ new)%list /\
               mqtt_of new = uns_messages roster (fst (fst gen))) /\
  (String.eqb fmt "uns" = false -> String.eqb fmt "umh" = false ->
   String.eqb fmt "both" = false ->
   mqtt_of (trace (snd r)) = mqtt_of (trace w)) /\
  requests (snd r) = requests w /\
  MQTT.activeMachines (MQTT.metrics (fst r))
  = Z.of_nat (List.length (fst (fst gen))) /\
  MQTT.totalMessagesPublished (MQTT.metrics (fst r))
  = MQTT.totalMessagesPublished (MQTT.metrics s) /\
  MQTT.errors (MQTT.metrics (fst r)) = MQTT.errors (MQTT.metrics s).
Proof.
  intros Hc Hrun. cbv zeta.
  destruct (MQTT_tick_keeps_counters Math_sin parseFloat toISOString Date_parse env
              roster s w) as (K1 & K2 & _).
  cbv zeta in K1, K2. rewrite K1, K2. clear K1 K2.
  unfold MQTT.publishSensorData. rewrite Hc, Hrun. cbn [negb].
  rewrite bind_eq.
  destruct (quiet_generateOperationalReadings_loop Math_sin parseFloat toISOString env
              roster (MQTT.dataFactory s) [] w) as (_ & R0 & T0).
  fold (generateOperationalReadings Math_sin parseFloat toISOString env roster
          (MQTT.dataFactory s)) in R0, T0.
  destruct (generateOperationalReadings Math_sin parseFloat toISOString env roster
              (MQTT.dataFactory s) w) as [out w1].
  cbn [fst snd] in *. cbv zeta.
  cbn [MQTT.config MQTT.with_dataFactory].
  set (fmt := str_or (MQTT.outputFormat (MQTT.config s)) "uns").
  rewrite bind_eq. unfold MQTT.updateMetrics. rewrite !bind_eq.
  unfold ret, Date_now, log, emit.
  cbn [fst snd trace requests MQTT.metrics MQTT.with_metrics MQTT.set_activeMachines
       MQTT.activeMachines].
  set (w2 := snd (MQTT.publish_all Date_parse roster fmt (fst out) w1)).
  assert (R2 : requests w2 = requests w1)
    by apply (publish_all_requests Date_parse roster).
  split; [| split; [| split; [| split; [| split]]]]; try reflexivity.
  - intros Hfmt.
    destruct (publish_all_uns Date_parse roster (fst out) w1) as (new & T & P).
    subst w2. rewrite Hfmt.
    eexists (new ++ [_])%list. rewrite T, T0, <- app_assoc.
    split; [reflexivity |]. rewrite mqtt_of_app, P. cbn. now rewrite app_nil_r.
  - intros H1 H2 H3. rewrite mqtt_of_app. cbn [mqtt_of]. rewrite app_nil_r.
    unfold w2. rewrite (publish_all_other Date_parse roster fmt (fst out) H1 H2 H3).
    now rewrite T0.
  - now rewrite R2.
Qed.

(** X17 at the manager started on the built-in roster. *)
Lemma MQTT_tick_publishes_the_readings_witness :
  MQTT.mqttClient (fst mqtt_started) = Some "mqtt://localhost:1883" /\
  MQTT.isRunning (fst mqtt_started) = true /\
  str_or (MQTT.outputFormat (MQTT.config (fst mqtt_started))) "uns" = "uns" /\
  exists new,
    trace (snd (MQTT.publishSensorData sample_sin sample_parseFloat sample_toISOString
                  sample_Date_parse sample_env (CNC_MACHINES sample_env)
                  (fst mqtt_started) (snd mqtt_started)))
    = (trace (snd mqtt_started) ++ new)%list /\
    mqtt_of new
    = uns_messages (CNC_MACHINES sample_env)
        (fst (fst (generateOperationalReadings sample_sin sample_parseFloat
                     sample_toISOString sample_env (CNC_MACHINES sample_env)
                     (MQTT.dataFactory (fst mqtt_started)) (snd mqtt_started)))).
Proof.
  assert (Hc : MQTT.mqttClient (fst mqtt_started) = Some "mqtt://localhost:1883")
    by (vm_compute; reflexivity).
  assert (Hr : MQTT.isRunning (fst mqtt_started) = true) by (vm_compute; reflexivity).
  assert (Hf : str_or (MQTT.outputFormat (MQTT.config (fst mqtt_started))) "uns"
               = "uns") by (vm_compute; reflexivity).
  split; [exact Hc |]. split; [exact Hr |]. split; [exact Hf |].
  exact (proj1 (MQTT_tick_publishes_the_readings sample_sin sample_parseFloat
                  sample_toISOString sample_Date_parse sample_env
                  (CNC_MACHINES sample_env) (fst mqtt_started) (snd mqtt_started)
                  "mqtt://localhost:1883" Hc Hr) Hf).
Defined.

(** X18. Over any run of a MQTT manager (timer ticks and callbacks of the
    client in any order), [totalMessagesPublished] grows by the number of
    callbacks that report a success, and the error log is what it was,
    followed by one 'Publish error for <topic>: <message>' for each callback
    that reports a failure, cut down to its last ten entries. *)
Theorem MQTT_run_counts_the_acknowledged_messages
    (Math_sin : Q -> Q) (parseFloat : string -> jsnum) (toISOString : Z -> string)
    (Date_parse : string -> option Z) (env : ProcessEnv)
    (roster : list CNCMachineConfig)
    (steps : list MQTT.Step) (s : MQTT.SimulationManager) (w : World) :
  (List.length (MQTT.errors (MQTT.metrics s)) <= 10)%nat ->
  let s' := fst (MQTT.run Math_sin parseFloat toISOString Date_parse env roster
                   steps s w) in
  let log := (MQTT.errors (MQTT.metrics s) ++ failures steps)%list in
  MQTT.totalMessagesPublished (MQTT.metrics s')
  = (MQTT.totalMessagesPublished (MQTT.metrics s) + Z.of_nat (acknowledged steps))%Z
  /\ MQTT.errors (MQTT.metrics s') = skipn (List.length log - 10) log.
Proof.
  intros Hlen. cbv zeta.
  destruct (MQTT_run_accounting Math_sin parseFloat toISOString Date_parse env roster
              steps s w) as [H1 H2].
  split; [exact H1 |]. rewrite H2. now apply fold_left_push_error.
Qed.

(** X18 at the manager started on the built-in roster: a tick, a success, a
    failure, a tick. *)
Lemma MQTT_run_counts_the_acknowledged_messages_witness :
  (List.length (MQTT.errors (MQTT.metrics (fst mqtt_started))) <= 10)%nat /\
  (let steps := [MQTT.Tick; MQTT.Callback "a/b" None;
                 MQTT.Callback "a/c" (Some (ErrorObj "not connected")); MQTT.Tick] in
   let s' := fst (MQTT.run sample_sin sample_parseFloat sample_toISOString
                    sample_Date_parse sample_env (CNC_MACHINES sample_env) steps
                    (fst mqtt_started) (snd mqtt_started)) in
   let log := (MQTT.errors (MQTT.metrics (fst mqtt_started)) ++ failures steps)%list in
   MQTT.totalMessagesPublished (MQTT.metrics s')
   = (MQTT.totalMessagesPublished (MQTT.metrics (fst mqtt_started))
      + Z.of_nat (acknowledged steps))%Z
   /\ MQTT.errors (MQTT.metrics s') = skipn (List.length log - 10) log).
Proof.
  assert (Hlen : (List.length (MQTT.errors (MQTT.metrics (fst mqtt_started))) <= 10)%nat)
    by (vm_compute; lia).
  split; [exact Hlen |].
  exact (MQTT_run_counts_the_acknowledged_messages sample_sin sample_parseFloat
           sample_toISOString sample_Date_parse sample_env (CNC_MACHINES sample_env)
           [MQTT.Tick; MQTT.Callback "a/b" None;
            MQTT.Callback "a/c" (Some (ErrorObj "not connected")); MQTT.Tick]
           (fst mqtt_started) (snd mqtt_started) Hlen).
Defined.

(** ** The factory *)

Lemma new_CNCDataGenerator_machine (m : CNCMachineConfig) :
  yields (fun g => machine g = m) (new_CNCDataGenerator m).
Proof.
  unfold new_CNCDataGenerator.
  repeat (eapply (yields_bind (fun _ => True)); [apply yields_any | intros ? _]).
  apply yields_ret. reflexivity.
Qed.

Lemma Map_get_In {V : Type} (l : list (string * V)) (k : string) (v : V) :
  NoDup (keys l) -> In (k, v) l -> Map_get String.eqb l k = Some v.
Proof.
  induction l as [| [k' v'] l IH]; intros Hnd Hin; [destruct Hin |].
  cbn [keys List.map fst] in Hnd. inversion Hnd as [| ? ? Hfresh Hnd']; subst.
  cbn [Map_get]. destruct Hin as [[= -> ->] | Hin].
  - now rewrite String.eqb_refl.
  - destruct (String.eqb_spec k' k) as [-> | _].
    + exfalso. apply Hfresh. change (In (fst (k, v)) (List.map fst l)).
      now apply in_map.
    + now apply IH.
Qed.

Lemma Map_get_not_In {V : Type} (l : list (string * V)) (k : string) :
  ~ In k (keys l) -> Map_get String.eqb l k = None.
Proof.
  induction l as [| [k' v'] l IH]; intros Hk; [reflexivity |].
  cbn [Map_get]. cbn in Hk. destruct (String.eqb_spec k' k) as [-> | _].
  - tauto.
  - apply IH. tauto.
Qed.

Lemma Map_set_fresh {V : Type} (l : list (string * V)) (k : string) (v : V) :
  ~ In k (keys l) -> Map_set String.eqb l k v = (l ++ [(k, v)])%list.
Proof.
  induction l as [| [k' v'] l IH]; cbn; intros Hk; [reflexivity |].
  destruct (String.eqb_spec k' k) as [-> | _]; [tauto |].
  f_equal. apply IH. tauto.
Qed.

Lemma new_generators_entries (ms : list CNCMachineConfig) :
  forall (acc : Generators) (w : World),
    NoDup (keys acc ++ List.map machine_id ms) ->
    forall m, In m ms ->
      exists g, In (machine_id m, g) (fst (new_generators ms acc w)) /\ machine g = m.
Proof.
  induction ms as [| m0 ms IH]; intros acc w Hnd m Hin; [destruct Hin |].
  cbn [new_generators]. rewrite bind_eq.
  cbn [List.map] in Hnd. apply NoDup_app_cons_fresh in Hnd as [Hfresh Hnd].
  assert (Hk : keys (Map_set String.eqb acc (machine_id m0)
                       (fst (new_CNCDataGenerator m0 w)))
               = (keys acc ++ [machine_id m0])%list)
    by now apply keys_Map_set_fresh.
  destruct Hin as [-> | Hin].
  - exists (fst (new_CNCDataGenerator m w)).
    split; [| apply new_CNCDataGenerator_machine].
    assert (Hpre : forall ms' acc' w',
               In (machine_id m, fst (new_CNCDataGenerator m w)) acc' ->
               NoDup (keys acc' ++ List.map machine_id ms') ->
               In (machine_id m, fst (new_CNCDataGenerator m w))
                  (fst (new_generators ms' acc' w'))).
    { clear. induction ms' as [| m1 ms' IH']; intros acc' w' Hin' Hnd'; [exact Hin' |].
      cbn [new_generators]. rewrite bind_eq.
      cbn [List.map] in Hnd'. apply NoDup_app_cons_fresh in Hnd' as [Hfresh' Hnd'].
      apply IH'.
      - rewrite Map_set_fresh by exact Hfresh'. apply in_or_app. now left.
      - now rewrite keys_Map_set_fresh. }
    apply Hpre.
    + rewrite Map_set_fresh by exact Hfresh. apply in_or_app. right. now left.
    + now rewrite Hk.
  - apply IH; [now rewrite Hk | exact Hin].
Qed.

Section AllReadings.
Variable Math_sin : Q -> Q.
Variable parseFloat : string -> jsnum.
Variable toISOString : Z -> string.
Variable env : ProcessEnv.

Lemma generateAllReadings_loop_keys (gens : Generators) :
  forall (acc : list (string * list SensorReading)) (w : World),
    NoDup (keys acc ++ keys gens) ->
    keys (fst (fst (generateAllReadings_loop Math_sin parseFloat toISOString env
                      gens acc w)))
    = (keys acc ++ keys gens)%list /\
    keys (snd (fst (generateAllReadings_loop Math_sin parseFloat toISOString env
                      gens acc w)))
    = keys gens.
Proof.
  induction gens as [| [machineId generator] gens IH]; intros acc w Hnd.
  - cbn. now rewrite app_nil_r.
  - cbn [generateAllReadings_loop]. rewrite !bind_eq. unfold ret. cbn [fst snd].
    cbn [keys List.map fst] in Hnd. apply NoDup_app_cons_fresh in Hnd as [Hfresh Hnd].
    match goal with
    | |- context [generateAllReadings_loop _ _ _ _ gens ?a ?w1] =>
        destruct (IH a w1) as [H1 H2];
          [rewrite keys_Map_set_fresh by exact Hfresh; exact Hnd |]
    end.
    rewrite H1, keys_Map_set_fresh by exact Hfresh.
    cbn [keys List.map fst]. fold (keys gens).
    fold (keys (snd (fst (generateAllReadings_loop Math_sin parseFloat toISOString env
                            gens
                            (Map_set String.eqb acc machineId
                               (fst (fst (generateSensorReadings Math_sin parseFloat
                                            toISOString env generator w))))
                            (snd (generateSensorReadings Math_sin parseFloat
                                    toISOString env generator w)))))).
    rewrite H2, <- app_assoc. split; reflexivity.
Qed.

End AllReadings.

(** X19. The factory holds one generator per machine of a roster with
    distinct ids, in the order of the roster: [getGenerator] returns the
    generator of the machine for an id of the roster and nothing for any
    other id.  [generateAllReadings] returns an entry for every machine of
    the roster, those that are offline included, while
    [generateOperationalReadings] returns one only for the machines whose
    status is not 'offline'; both keep the generators in place. *)
Theorem factory_holds_one_generator_per_machine
    (Math_sin : Q -> Q) (parseFloat : string -> jsnum) (toISOString : Z -> string)
    (env : ProcessEnv) (roster : list CNCMachineConfig) (w w' : World) :
  NoDup (List.map machine_id roster) ->
  let gens := fst (new_CNCDataGeneratorFactory roster w) in
  let all := fst (generateAllReadings Math_sin parseFloat toISOString env gens w') in
  let some := fst (generateOperationalReadings Math_sin parseFloat toISOString env
                     roster gens w') in
  keys gens = List.map machine_id roster /\
  (forall m, In m roster ->
     exists g, getGenerator gens (machine_id m) = Some g /\ machine g = m) /\
  (forall id, ~ In id (List.map machine_id roster) -> getGenerator gens id = None) /\
  keys (fst all) = List.map machine_id roster /\
  keys (snd all) = List.map machine_id roster /\
  keys (fst some)
  = filter (is_operational_id roster) (List.map machine_id roster) /\
  keys (snd some) = List.map machine_id roster.
Proof.
  intros Hnd. cbv zeta.
  assert (Hk : keys (fst (new_CNCDataGeneratorFactory roster w))
               = List.map machine_id roster).
  { unfold new_CNCDataGeneratorFactory.
    now rewrite (new_generators_keys roster [] w Hnd). }
  split; [exact Hk |]. split; [| split].
  - intros m Hin.
    destruct (new_generators_entries roster [] w Hnd m Hin) as (g & Hg & Hm).
    exists g. split; [| exact Hm]. unfold getGenerator.
    apply Map_get_In; [| exact Hg].
    fold (new_CNCDataGeneratorFactory roster w). now rewrite Hk.
  - intros id Hid. unfold getGenerator. apply Map_get_not_In. now rewrite Hk.
  - assert (Hnd' : NoDup (keys (fst (new_CNCDataGeneratorFactory roster w))))
      by now rewrite Hk.
    destruct (generateAllReadings_loop_keys Math_sin parseFloat toISOString env
                (fst (new_CNCDataGeneratorFactory roster w)) [] w' Hnd') as [A1 A2].
    destruct (generateOperationalReadings_keys Math_sin parseFloat toISOString env
                roster (fst (new_CNCDataGeneratorFactory roster w)) w' Hnd')
      as [O1 O2].
    unfold generateAllReadings. rewrite A1, A2, O1, O2, Hk.
    repeat split.
Qed.

(** X19 at the built-in roster: ten machines, of which the scheduler serves
    nine. *)
Lemma factory_holds_one_generator_per_machine_witness :
  NoDup (List.map machine_id (CNC_MACHINES sample_env)) /\
  (let gens := fst (new_CNCDataGeneratorFactory (CNC_MACHINES sample_env)
                      calm_world) in
   let all := fst (generateAllReadings sample_sin sample_parseFloat sample_toISOString
                     sample_env gens calm_world) in
   let some := fst (generateOperationalReadings sample_sin sample_parseFloat
                      sample_toISOString sample_env (CNC_MACHINES sample_env) gens
                      calm_world) in
   keys (fst all) = roster_ids /\
   keys (fst some)
   = ["cnc-001"; "cnc-002"; "cnc-003"; "cnc-004"; "cnc-005";
      "cnc-006"; "cnc-007"; "cnc-008"; "cnc-009"]).
Proof.
  assert (Hnd : NoDup (List.map machine_id (CNC_MACHINES sample_env))).
  { rewrite CNC_MACHINES_ids. exact roster_ids_NoDup. }
  split; [exact Hnd |]. cbv zeta.
  destruct (factory_holds_one_generator_per_machine sample_sin sample_parseFloat
              sample_toISOString sample_env (CNC_MACHINES sample_env)
              calm_world calm_world Hnd) as (_ & _ & _ & H1 & _ & H2 & _).
  rewrite H1, H2, CNC_MACHINES_ids, CNC_MACHINES_operational. split; reflexivity.
Defined.

(** ** The UMH client *)

(** X20. The options of the client: a [retries] or [timeout] that is missing
    or 0 is replaced by the default (3 attempts, 5000 ms), so that neither is
    ever 0; a negative [retries] is kept, and [publish] on such a client makes
    no request, reads no clock, logs nothing and throws
    'Failed to publish to UMH-Core after <retries> attempts: undefined'. *)
Theorem client_options_and_negative_retries
    (options : UMHClientOptions) (message : UMHMessage) (w : World) :
  let client := new_UMHClient options in
  retries client <> 0%Z /\ timeout client <> 0%Z /\
  (opt_retries options = None \/ opt_retries options = Some 0%Z ->
   retries client = 3%Z) /\
  (opt_timeout options = None \/ opt_timeout options = Some 0%Z ->
   timeout client = 5000%Z) /\
  ((retries client < 0)%Z ->
   opt_retries options = Some (retries client) /\
   publish client message w
   = (Threw (ErrorObj ("Failed to publish to UMH-Core after "
                       ++ string_of_Z (retries client) ++ " attempts: undefined")),
      w)).
Proof.
  cbv zeta. unfold new_UMHClient. cbn [retries timeout umhCoreUrl].
  split; [| split; [| split; [| split]]].
  - unfold Z_or. destruct (opt_retries options) as [n |]; [| discriminate].
    destruct (Z.eqb_spec n 0); [discriminate | assumption].
  - unfold Z_or. destruct (opt_timeout options) as [n |]; [| discriminate].
    destruct (Z.eqb_spec n 0); [discriminate | assumption].
  - intros [-> | ->]; reflexivity.
  - intros [-> | ->]; reflexivity.
  - intros Hneg. split.
    + unfold Z_or in *. destruct (opt_retries options) as [n |]; [| discriminate].
      destruct (Z.eqb_spec n 0); [discriminate | reflexivity].
    + unfold publish. cbn [retries].
      destruct (Z_or (opt_retries options) 3) as [| p | p]; try discriminate.
      reflexivity.
Qed.

(** X20 at a client built with [retries: -1]. *)
Lemma client_options_and_negative_retries_witness :
  (retries (new_UMHClient {| opt_umhCoreUrl := "http://umh-core:8090";
                             opt_timeout := Some 0%Z;
                             opt_retries := Some (-1)%Z |}) < 0)%Z /\
  publish (new_UMHClient {| opt_umhCoreUrl := "http://umh-core:8090";
                            opt_timeout := Some 0%Z;
                            opt_retries := Some (-1)%Z |}) epoch_message calm_world
  = (Threw (ErrorObj "Failed to publish to UMH-Core after -1 attempts: undefined"),
     calm_world).
Proof.
  assert (Hneg : (retries (new_UMHClient {| opt_umhCoreUrl := "http://umh-core:8090";
                                            opt_timeout := Some 0%Z;
                                            opt_retries := Some (-1)%Z |}) < 0)%Z)
    by reflexivity.
  split; [exact Hneg |].
  exact (proj2 (proj2 (proj2 (proj2 (proj2
           (client_options_and_negative_retries
              {| opt_umhCoreUrl := "http://umh-core:8090";
                 opt_timeout := Some 0%Z;
                 opt_retries := Some (-1)%Z |} epoch_message calm_world)))) Hneg)).
Defined.

(** X21. [publishBatch] reads the clock once for each message, then sends
    the whole batch in one POST to '/api/v1/data/batch' and never tries
    again: when the sink accepts, the call returns; when it refuses, the call
    logs the failure and throws the sink's own error, without waiting. *)
Theorem publishBatch_sends_once
    (client : UMHClient) (batch : list UMHMessage) (w : World) :
  let r := publishBatch client batch w in
  reads (snd r) = (reads w + List.length batch)%nat /\
  requests (snd r) = S (requests w) /\
  exists evs,
    trace (snd r)
    = (trace w ++ Posted "/api/v1/data/batch" batch (sink_results w (requests w))
          :: evs)%list /\
    posts_of evs = [] /\ delays_of evs = [] /\
    fst r = match sink_results w (requests w) with
            | SinkOk _ => Returned tt
            | SinkFail e => Threw e
            end.
Proof.
  cbv zeta. unfold publishBatch. rewrite bind_eq.
  assert (Hs : forall l w0,
             reads (snd (stamp_all l w0)) = (reads w0 + List.length l)%nat /\
             requests (snd (stamp_all l w0)) = requests w0 /\
             sink_results (snd (stamp_all l w0)) = sink_results w0 /\
             trace (snd (stamp_all l w0)) = trace w0).
  { induction l as [| m l IH]; intros w0.
    - cbn. rewrite Nat.add_0_r. repeat split.
    - cbn [stamp_all]. rewrite bind_eq.
      destruct (IH (snd (Date_now w0))) as (H1 & H2 & H3 & H4).
      rewrite H1, H2, H3, H4. cbn. repeat split. lia. }
  destruct (Hs batch w) as (H1 & H2 & H3 & H4).
  destruct (stamp_all batch w) as [u w1]. cbn [fst snd] in *.
  unfold bind, http_post, sink_request, log, emit, ret. cbn [fst snd].
  rewrite H2, H3.
  destruct (sink_results w (requests w)) as [status | e];
    cbn [fst snd reads requests trace]; rewrite H1, H4, <- app_assoc;
    (split; [reflexivity |]); (split; [reflexivity |]);
    eexists; (split; [reflexivity |]); repeat split.
Qed.

(** ** Divisions by an elapsed time *)

Lemma Qfloor_nonneg (x : Q) : 0 <= x -> (0 <= Qfloor x)%Z.
Proof. intros H. change 0%Z with (Qfloor 0). now apply Qfloor_resp_le. Qed.

Lemma rate_is_finite (count now start : Z) :
  let uptimeSeconds := seconds_between now start in
  exists q u,
    (if jgt uptimeSeconds (Fin 0)
     then jdiv (Math_round (jmul (jdiv (num count) uptimeSeconds) (Fin 100))) (Fin 100)
     else Fin 0) = Fin q /\
    Math_round uptimeSeconds = Fin u /\
    ((0 <= count)%Z -> 0 <= q) /\
    ((now <= start)%Z -> q == 0).
Proof.
  cbv zeta. unfold seconds_between, num.
  change (jdiv (Fin (inject_Z (now - start))) (Fin 1000))
    with (Fin (inject_Z (now - start) / 1000)).
  set (x := inject_Z (now - start) / 1000).
  assert (Hx : (now <= start)%Z -> x <= 0).
  { intros H. unfold x. apply Qle_shift_div_r; [reflexivity |].
    rewrite Qmult_0_l. change 0 with (inject_Z 0). rewrite <- Zle_Qle. lia. }
  cbn [jgt Math_round]. destruct (Qle_bool x 0) eqn:E; cbn [negb].
  - exists 0. eexists. repeat split; try reflexivity. intros _. discriminate.
  - apply Qle_bool_false in E.
    assert (Hc : (x ?= 0)%Q = Gt) by now apply Qgt_alt.
    unfold jdiv at 2. rewrite Hc. cbn [jmul Math_round].
    change (jdiv (Fin ?a) (Fin 100)) with (Fin (a / 100)).
    eexists. eexists. split; [reflexivity |]. split; [reflexivity |]. split.
    + intros Ht. apply Qle_shift_div_l; [reflexivity |]. rewrite Qmult_0_l.
      change 0 with (inject_Z 0). rewrite <- Zle_Qle. apply Qfloor_nonneg.
      assert (0 <= inject_Z count / x).
      { apply Qle_shift_div_l; [exact E |]. rewrite Qmult_0_l.
        change 0 with (inject_Z 0). now rewrite <- Zle_Qle. }
      nra.
    + intros H. specialize (Hx H). lra.
Qed.

(** X22. [updateMetrics] never divides by zero: in both managers the rate
    and the uptime it stores are finite numbers whatever the clock shows, the
    rate is 0 as long as no time has passed since the start and is never
    negative when the counter is not, and the counter, the error log and the
    machine count are left as they are. *)
Theorem updateMetrics_rate_is_finite
    (u : UMH.UMHSimulationManager) (m : MQTT.SimulationManager) (w : World) :
  let u' := UMH.metrics (fst (UMH.updateMetrics u w)) in
  let m' := MQTT.metrics (fst (MQTT.updateMetrics m w)) in
  (exists q t,
     UMH.messagesPerSecond u' = Fin q /\ UMH.uptime u' = Fin t /\
     ((0 <= UMH.totalMessagesPublished (UMH.metrics u))%Z -> 0 <= q) /\
     ((clock_reads w (reads w) <= UMH.startTime u)%Z -> q == 0)) /\
  (exists q t,
     MQTT.messagesPerSecond m' = Fin q /\ MQTT.uptime m' = Fin t /\
     ((0 <= MQTT.totalMessagesPublished (MQTT.metrics m))%Z -> 0 <= q) /\
     ((clock_reads w (reads w) <= MQTT.startTime m)%Z -> q == 0)) /\
  UMH.totalMessagesPublished u' = UMH.totalMessagesPublished (UMH.metrics u) /\
  UMH.batchesSent u' = UMH.batchesSent (UMH.metrics u) /\
  UMH.activeMachines u' = UMH.activeMachines (UMH.metrics u) /\
  UMH.errors u' = UMH.errors (UMH.metrics u) /\
  MQTT.totalMessagesPublished m' = MQTT.totalMessagesPublished (MQTT.metrics m) /\
  MQTT.activeMachines m' = MQTT.activeMachines (MQTT.metrics m) /\
  MQTT.errors m' = MQTT.errors (MQTT.metrics m).
Proof.
  cbv zeta. unfold UMH.updateMetrics, MQTT.updateMetrics, bind, Date_now, ret.
  cbn [fst snd UMH.metrics UMH.with_metrics UMH.messagesPerSecond UMH.uptime
       UMH.totalMessagesPublished UMH.batchesSent UMH.activeMachines UMH.errors
       MQTT.metrics MQTT.with_metrics MQTT.messagesPerSecond MQTT.uptime
       MQTT.totalMessagesPublished MQTT.activeMachines MQTT.errors].
  split; [| split; [| repeat split]].
  - exact (rate_is_finite (UMH.totalMessagesPublished (UMH.metrics u))
             (clock_reads w (reads w)) (UMH.startTime u)).
  - exact (rate_is_finite (MQTT.totalMessagesPublished (MQTT.metrics m))
             (clock_reads w (reads w)) (MQTT.startTime m)).
Qed.

Lemma phase_after_construction (m : CNCMachineConfig) :
  yields (fun g => phase_of g <> machining /\ totalPartsProduced g = 0%Z)
    (new_CNCDataGenerator m).
Proof.
  unfold new_CNCDataGenerator.
  do 4 (eapply (yields_bind (fun _ => True)); [apply yields_any | intros ? _]).
  eapply (yields_bind (fun c => phase c <> machining)).
  { unfold initializeCycle.
    destruct (operational_status m);
      repeat (eapply (yields_bind (fun _ => True)); [apply yields_any | intros ? _]);
      apply yields_ret; discriminate. }
  intros cycle Hc.
  eapply (yields_bind (fun _ => True)); [apply yields_any | intros ? _].
  apply yields_ret. split; [exact Hc | reflexivity].
Qed.

Lemma efficiency_value_bounds (mt rt : Q) (parts : Z) :
  0 <= mt -> 0 < rt -> (0 <= parts)%Z ->
  exists q,
    jdiv (Math_round
            (jmul (Math_min (Fin 100)
                     (jmul (jdiv (jadd (Fin mt) (jmul (num parts) (Fin 1200)))
                                 (Fin rt))
                           (Fin 100)))
                  (Fin 10)))
         (Fin 10) = Fin q /\ 0 <= q /\ q <= 100.
Proof.
  intros Hmt Hrt Hparts. unfold num. cbn [jadd jmul].
  set (machiningTime := mt + inject_Z parts * 1200).
  assert (Hm : 0 <= machiningTime).
  { unfold machiningTime.
    assert (0 <= inject_Z parts)
      by (change 0 with (inject_Z 0); now rewrite <- Zle_Qle).
    nra. }
  assert (Hc : (rt ?= 0)%Q = Gt) by now apply Qgt_alt.
  unfold jdiv at 2. rewrite Hc. cbn [jmul].
  assert (He : 0 <= machiningTime / rt * 100).
  { assert (0 <= machiningTime / rt)
      by (apply Qle_shift_div_l; [exact Hrt | lra]).
    lra. }
  assert (Heff : exists eff,
             Math_min (Fin 100) (Fin (machiningTime / rt * 100)) = Fin eff /\
             0 <= eff /\ eff <= 100).
  { unfold Math_min, jge.
    destruct (Qle_bool (machiningTime / rt * 100) 100) eqn:E.
    - eexists. split; [reflexivity |]. apply Qle_bool_iff in E. split; lra.
    - exists 100. split; [reflexivity |]. split; lra. }
  destruct Heff as (eff & -> & Heff0 & Heff1). cbn [jmul Math_round].
  change (jdiv (Fin ?a) (Fin 10)) with (Fin (a / 10)).
  eexists. split; [reflexivity |]. split.
  - apply Qle_shift_div_l; [reflexivity |]. rewrite Qmult_0_l.
    change 0 with (inject_Z 0). rewrite <- Zle_Qle. apply Qfloor_nonneg. lra.
  - apply Qle_shift_div_r; [reflexivity |].
    change (100 * 10) with (inject_Z 1000). rewrite <- Zle_Qle.
    change 1000%Z with (Qfloor (1000 + (1 # 2))).
    apply Qfloor_resp_le. lra.
Qed.

(** X23. The efficiency reading divides by the time since the generator was
    built, without a guard: while that time is positive the value is a number
    of at most 100, but a reading taken in the very millisecond of the
    construction has the value NaN (0/0), which is neither undefined nor
    null: the message built from it is never reported as
    'Payload missing value' by [validateUMHMessage]. *)
Theorem efficiency_is_not_a_number_at_the_instant_of_construction
    (toISOString : Z -> string) (Date_parse : string -> option Z)
    (m : CNCMachineConfig) (this : CNCDataGenerator) (w0 w : World) (ts : Z)
    (topicPath : string) :
  ((cycleStartTime this < clock_reads w (reads w))%Z ->
   (forall i, (startTime (currentCycle this) <= clock_reads w i)%Z) ->
   (0 <= totalPartsProduced this)%Z ->
   exists q, value (fst (generateEfficiencyPayload toISOString this ts w))
             = VNum (Fin q) /\ 0 <= q /\ q <= 100) /\
  (clock_reads w (reads w) = clock_reads w0 (S (reads w0)) ->
   let p := fst (generateEfficiencyPayload toISOString
                   (fst (new_CNCDataGenerator m w0)) ts w) in
   value p = VNum NaN /\
   ~ In "Payload missing value"
        (errors (validateUMHMessage
                   (message_for Date_parse m
                      {| topicPath := topicPath; payload := p |})))).
Proof.
  split.
  - intros Hlt Hclock Hparts.
    assert (Hrt : 0 < inject_Z (clock_reads w (reads w) - cycleStartTime this) / 1000).
    { apply Qlt_shift_div_l; [reflexivity |]. rewrite Qmult_0_l.
      change 0 with (inject_Z 0). rewrite <- Zlt_Qlt. lia. }
    assert (Hmt : 0 <= 0 + inject_Z (clock_reads w (S (reads w))
                                     - startTime (currentCycle this)) / 1000).
    { specialize (Hclock (S (reads w))).
      assert (0 <= inject_Z (clock_reads w (S (reads w))
                             - startTime (currentCycle this)) / 1000).
      { apply Qle_shift_div_l; [reflexivity |]. rewrite Qmult_0_l.
        change 0 with (inject_Z 0). rewrite <- Zle_Qle. lia. }
      lra. }
    unfold generateEfficiencyPayload, bind, Date_now, ret, seconds_between.
    cbn [fst snd clock_reads reads].
    destruct (phase_of this); cbn [fst snd value clock_reads reads];
      first [ destruct (efficiency_value_bounds _ _ _ Hmt Hrt Hparts)
                as (q & Hq & Hq0 & Hq1);
              exists q; split; [f_equal; exact Hq | split; assumption]
            | destruct (efficiency_value_bounds 0 _ _ (Qle_refl 0) Hrt Hparts)
                as (q & Hq & Hq0 & Hq1);
              exists q; split; [f_equal; exact Hq | split; assumption] ].
  - intros Hnow. cbv zeta.
    assert (Hv : value (fst (generateEfficiencyPayload toISOString
                               (fst (new_CNCDataGenerator m w0)) ts w)) = VNum NaN);
      [| split; [exact Hv |];
         unfold message_for, validateUMHMessage; cbn [errors];
         rewrite validate_errors_convertToUMHMessage;
         cbn [r_payload payload]; rewrite Hv; unfold push_if;
         destruct (negb _), (negb _); cbn; intuition discriminate].
    destruct (phase_after_construction m w0) as [Hph Hparts].
    assert (Hstart : cycleStartTime (fst (new_CNCDataGenerator m w0))
                     = clock_reads w0 (S (reads w0))).
    { unfold new_CNCDataGenerator. rewrite !bind_eq. reflexivity. }
    set (this0 := fst (new_CNCDataGenerator m w0)) in *. clearbody this0.
    unfold generateEfficiencyPayload, bind, Date_now, ret, seconds_between, num.
    cbn [fst snd clock_reads reads].
    rewrite Hparts, Hstart, Hnow, Z.sub_diag.
    destruct (phase_of this0); try contradiction; reflexivity.
Qed.

(** X23 at the first machine, built and read at the same instant. *)
Lemma efficiency_is_not_a_number_at_the_instant_of_construction_witness :
  clock_reads (world_at 5) (reads (world_at 5))
  = clock_reads (world_at 5) (S (reads (world_at 5))) /\
  value (fst (generateEfficiencyPayload sample_toISOString
                (fst (new_CNCDataGenerator cnc_001 (world_at 5))) 5 (world_at 5)))
  = VNum NaN.
Proof.
  split; [reflexivity |].
  exact (proj1 (proj2 (efficiency_is_not_a_number_at_the_instant_of_construction
                         sample_toISOString sample_Date_parse cnc_001
                         machining_generator (world_at 5) (world_at 5) 5
                         "efficiency") eq_refl)).
Defined.

(** ** The axes at rest *)

(** X24. While the machine is at rest (idle, in maintenance or in error) a
    linear axis (x, y, z) reports the position 0 mm, but a rotary axis
    (a, b, c) of a machine whose work envelope has up to three dimensions
    reports -180 degrees: its position 0 of a travel of 100 is mapped to
    0/100 * 360 - 180. *)
Theorem axes_at_rest
    (Math_sin : Q -> Q) (parseFloat : string -> jsnum) (toISOString : Z -> string)
    (this : CNCDataGenerator) (axis : string) (ts : Z) (w : World) :
  at_rest (phase_of this) = true ->
  let p := fst (generateAxisPositionPayload Math_sin parseFloat toISOString this axis
                  ts w) in
  (In axis ["x"; "y"; "z"] ->
   exists q, value p = VNum (Fin q) /\ q == 0 /\ unit_ p = Some "mm") /\
  (In axis ["a"; "b"; "c"] ->
   (List.length (split "x" (work_envelope (specifications (machine this)))) <= 3)%nat ->
   exists q, value p = VNum (Fin q) /\ q == -180 /\ unit_ p = Some "degrees").
Proof.
  intros Hrest. cbv zeta.
  unfold generateAxisPositionPayload, bind, Date_now, ret. cbv zeta.
  rewrite length_map.
  set (n := List.length (split "x" (work_envelope (specifications (machine this))))).
  split.
  - intros Hin. cbn in Hin.
    destruct Hin as [<- | [<- | [<- | []]]];
      destruct (phase_of this); try discriminate Hrest;
      cbn [fst snd value unit_ toLowerCase map_string lower_ascii indexOf
           indexOf_from axis_names String.eqb Ascii.eqb Bool.eqb Z.leb Z.add
           Pos.add Pos.succ Z.compare Pos.compare Pos.compare_cont];
      (eexists; split; [reflexivity | split; reflexivity]).
  - intros Hin Hlen. cbn in Hin.
    destruct Hin as [<- | [<- | [<- | []]]];
      destruct (phase_of this); try discriminate Hrest;
      match goal with
      | |- context [(?i <? Z.of_nat n)%Z] =>
          let i' := eval vm_compute in i in
          change i with i';
          replace (i' <? Z.of_nat n)%Z with false
            by (symmetry; apply Z.ltb_ge; lia)
      end;
      (eexists; split; [reflexivity | split; reflexivity]).
Qed.

(** X24 at the five-axis machine of the roster for its axis a. *)
Lemma axes_at_rest_witness :
  at_rest (phase_of (fst (new_CNCDataGenerator cnc_010 (world_at 0)))) = true /\
  In "a" ["a"; "b"; "c"] /\
  (List.length (split "x" (work_envelope (specifications
      (machine (fst (new_CNCDataGenerator cnc_010 (world_at 0))))))) <= 3)%nat /\
  exists q,
    value (fst (generateAxisPositionPayload sample_sin sample_parseFloat
                  sample_toISOString (fst (new_CNCDataGenerator cnc_010 (world_at 0)))
                  "a" 0 (world_at 0))) = VNum (Fin q) /\
    q == -180 /\
    unit_ (fst (generateAxisPositionPayload sample_sin sample_parseFloat
                  sample_toISOString (fst (new_CNCDataGenerator cnc_010 (world_at 0)))
                  "a" 0 (world_at 0))) = Some "degrees".
Proof.
  assert (Hin : In "a" ["a"; "b"; "c"]) by (left; reflexivity).
  assert (Hlen : (List.length (split "x" (work_envelope (specifications
                    (machine (fst (new_CNCDataGenerator cnc_010 (world_at 0)))))))
                  <= 3)%nat) by (vm_compute; lia).
  split; [reflexivity |]. split; [exact Hin |]. split; [exact Hlen |].
  exact (proj2 (axes_at_rest sample_sin sample_parseFloat sample_toISOString
                  (fst (new_CNCDataGenerator cnc_010 (world_at 0))) "a" 0 (world_at 0)
                  eq_refl) Hin Hlen).
Defined.

(** ** The roster *)

Lemma str_or_nonempty (a : option string) (d : string) :
  d <> EmptyString -> str_or a d <> EmptyString.
Proof.
  intros Hd. unfold str_or. destruct a as [s |]; [| exact Hd].
  destruct (String.eqb_spec s EmptyString); assumption.
Qed.

Lemma getLocationConfig_str_or (env : ProcessEnv) :
  getLocationConfig env
  = (str_or (FACTORY_NAME env) (str_or (ENTERPRISE_NAME env) "demo-factory"),
     str_or (SITE_NAME env) (str_or (PLANT_NAME env) "plant1")).
Proof. reflexivity. Qed.

(** X25. Whatever the environment, the roster has ten machines with distinct
    ids, and every machine of it carries the enterprise and the site of the
    environment: FACTORY_NAME before ENTERPRISE_NAME before 'demo-factory',
    SITE_NAME before PLANT_NAME before 'plant1', an empty variable counting as
    unset, so that neither is ever empty.  Every machine has a coolant system,
    between two and five axes and a work envelope of three dimensions, so
    that one call of [generateSensorReadings] on its generator returns
    12 readings plus one per axis. *)
Theorem roster_follows_the_environment
    (Math_sin : Q -> Q) (parseFloat : string -> jsnum) (toISOString : Z -> string)
    (env : ProcessEnv) (m : CNCMachineConfig) (this : CNCDataGenerator) (w : World) :
  In m (CNC_MACHINES env) -> machine this = m ->
  NoDup (List.map machine_id (CNC_MACHINES env)) /\
  List.length (CNC_MACHINES env) = 10%nat /\
  enterprise m
  = str_or (FACTORY_NAME env) (str_or (ENTERPRISE_NAME env) "demo-factory") /\
  site m = str_or (SITE_NAME env) (str_or (PLANT_NAME env) "plant1") /\
  enterprise m <> EmptyString /\ site m <> EmptyString /\
  coolant_system (capabilities m) = true /\
  (2 <= axes (capabilities m) <= 5)%nat /\
  List.length (split "x" (work_envelope (specifications m))) = 3%nat /\
  List.length (fst (fst (generateSensorReadings Math_sin parseFloat toISOString env
                           this w)))
  = (12 + axes (capabilities m))%nat.
Proof.
  intros Hin Hm.
  assert (Hshape :
    enterprise m = fst (getLocationConfig env) /\
    site m = snd (getLocationConfig env) /\
    coolant_system (capabilities m) = true /\
    (2 <= axes (capabilities m) <= 5)%nat /\
    List.length (split "x" (work_envelope (specifications m))) = 3%nat).
  { unfold CNC_MACHINES, generateMachineConfigs in Hin.
    destruct (getLocationConfig env) as [e s].
    cbn [In] in Hin.
    repeat (destruct Hin as [<- | Hin];
            [cbn; repeat split; try reflexivity; lia |]).
    contradiction. }
  destruct Hshape as (He & Hs & Hc & Ha & Hw).
  rewrite getLocationConfig_str_or in He, Hs. cbn [fst snd] in He, Hs.
  split; [rewrite CNC_MACHINES_ids; exact roster_ids_NoDup |].
  split; [rewrite <- (length_map machine_id), CNC_MACHINES_ids; reflexivity |].
  split; [exact He |]. split; [exact Hs |].
  split; [rewrite He; apply str_or_nonempty, str_or_nonempty; discriminate |].
  split; [rewrite Hs; apply str_or_nonempty, str_or_nonempty; discriminate |].
  split; [exact Hc |]. split; [exact Ha |]. split; [exact Hw |].
  destruct (generateSensorReadings_yields Math_sin parseFloat toISOString env this w)
    as (_ & Hnames & _).
  rewrite <- (length_map (fun r => extractSensorType (topicPath r))), Hnames,
    sensor_names_length, Hm, Hc.
  lia.
Qed.

(** X25 at the first machine, in an environment that sets FACTORY_NAME and
    leaves SITE_NAME empty. *)
Lemma roster_follows_the_environment_witness :
  let env := {| FACTORY_NAME := Some "acme"; ENTERPRISE_NAME := Some "other";
                SITE_NAME := Some EmptyString; PLANT_NAME := None;
                OUTPUT_FORMAT := None |} in
  let m := mkMachine "cnc-001" "Haas VF-2 Mill #1" "Haas" "VF-2" "acme" "plant1"
             "machining" "cell-01" st_operational 8100 3 15 25400 "762x406x508" in
  In m (CNC_MACHINES env) /\
  enterprise m = "acme" /\ site m = "plant1" /\
  List.length (fst (fst (generateSensorReadings sample_sin sample_parseFloat
                           sample_toISOString env
                           (fst (new_CNCDataGenerator m calm_world)) calm_world)))
  = 15%nat.
Proof.
  cbv zeta.
  assert (Hin : In (mkMachine "cnc-001" "Haas VF-2 Mill #1" "Haas" "VF-2" "acme"
                      "plant1" "machining" "cell-01" st_operational 8100 3 15 25400
                      "762x406x508")
                   (CNC_MACHINES {| FACTORY_NAME := Some "acme";
                                    ENTERPRISE_NAME := Some "other";
                                    SITE_NAME := Some EmptyString;
                                    PLANT_NAME := None;
                                    OUTPUT_FORMAT := None |}))
    by (left; reflexivity).
  split; [exact Hin |]. split; [reflexivity |]. split; [reflexivity |].
  exact (proj2 (proj2 (proj2 (proj2 (proj2 (proj2 (proj2 (proj2 (proj2
           (roster_follows_the_environment sample_sin sample_parseFloat
              sample_toISOString _ _
              (fst (new_CNCDataGenerator
                      (mkMachine "cnc-001" "Haas VF-2 Mill #1" "Haas" "VF-2" "acme"
                         "plant1" "machining" "cell-01" st_operational 8100 3 15
                         25400 "762x406x508") calm_world))
              calm_world Hin (new_CNCDataGenerator_machine _ calm_world))))))))))).
Defined.

(** ** Topics *)

Lemma append_inj_l (p a b : string) : p ++ a = p ++ b -> a = b.
Proof.
  induction p as [| c p IH]; cbn; intros H; [exact H |].
  injection H as H. now apply IH.
Qed.

Lemma NoDup_by_nodup (l : list string) : nodup string_dec l = l -> NoDup l.
Proof. intros <-. apply NoDup_nodup. Qed.

Lemma sensor_tags_NoDup (m : CNCMachineConfig) :
  NoDup (List.map replace_hyphens (sensor_names m)).
Proof.
  unfold sensor_names.
  destruct (coolant_system (capabilities m));
    destruct (axes (capabilities m)) as [| [| [| [| [| [| n]]]]]];
    cbn [firstn axis_names]; try rewrite firstn_nil;
    apply NoDup_by_nodup; vm_compute; reflexivity.
Qed.

Lemma NoDup_map_injective {A B : Type} (f : A -> B) (l : list A) :
  (forall a b, f a = f b -> a = b) -> NoDup l -> NoDup (List.map f l).
Proof.
  intros Hf Hl. induction Hl as [| a l Hnin Hl IH]; cbn; constructor; [| exact IH].
  intros Hin. apply in_map_iff in Hin as (b & Hb & Hin).
  apply Hf in Hb. subst b. contradiction.
Qed.

(** X26. Within one call of [generateSensorReadings] no two readings share a
    topic path, and the messages that [convertToUMHMessage] builds from them
    for a machine have pairwise distinct tag names and pairwise distinct UMH
    topics: replacing the hyphens of the sensor types by underscores merges
    no two of them. *)
Theorem topics_of_one_call_are_distinct
    (Math_sin : Q -> Q) (parseFloat : string -> jsnum) (toISOString : Z -> string)
    (Date_parse : string -> option Z) (env : ProcessEnv)
    (this : CNCDataGenerator) (m : CNCMachineConfig) (w : World) :
  let readings := fst (fst (generateSensorReadings Math_sin parseFloat toISOString env
                              this w)) in
  NoDup (List.map topicPath readings) /\
  NoDup (List.map (fun r => replace_hyphens (extractSensorType (topicPath r)))
           readings) /\
  NoDup (List.map (fun r => topic (message_for Date_parse m r)) readings).
Proof.
  cbv zeta.
  destruct (generateSensorReadings_yields Math_sin parseFloat toISOString env this w)
    as (_ & Hnames & _).
  set (readings := fst (fst (generateSensorReadings Math_sin parseFloat toISOString env
                               this w))) in *.
  assert (Htags : NoDup (List.map
                           (fun r => replace_hyphens (extractSensorType (topicPath r)))
                           readings)).
  { rewrite <- (map_map (fun r => extractSensorType (topicPath r)) replace_hyphens),
      Hnames.
    apply sensor_tags_NoDup. }
  split; [| split; [exact Htags |]].
  - apply (NoDup_map_inv (fun t => replace_hyphens (extractSensorType t))).
    now rewrite map_map.
  - unfold message_for, convertToUMHMessage, buildUMHTopic. cbv zeta. cbn [topic sensorType].
    rewrite <- (map_map
                  (fun r => replace_hyphens (extractSensorType (topicPath r)))
                  (fun tag => Some ("umh.v1." ++ enterprise m ++ "." ++ site m ++ "."
                                    ++ area m ++ "." ++ work_cell m ++ "."
                                    ++ machine_id m ++ "." ++ UMH_DATA_CONTRACTS_RAW
                                    ++ "." ++ tag))).
    apply NoDup_map_injective; [| exact Htags].
    intros a b [= H].
    repeat first [apply append_inj_l in H | injection H as H]. exact H.
Qed.

(** ** A tick against a sink that accepts *)

Lemma healthy_later (w w' : World) :
  sink_results w' = sink_results w -> (requests w <= requests w')%nat ->
  healthy w -> healthy w'.
Proof.
  intros Hs Hr H i Hi. rewrite Hs. apply H. lia.
Qed.

Lemma publish_accepted (client : UMHClient) (message : UMHMessage) (w : World) :
  (1 <= retries client)%Z -> healthy w ->
  exists status,
    publish client message w
    = (Returned tt,
       after_attempt w
         [Posted "/api/v1/data" [message] (SinkOk status);
          Logged log_debug "Successfully published to UMH-Core"
            [topic_text message; "1"; string_of_Z status]]).
Proof.
  intros Hr Hw. destruct (Hw (requests w) (Nat.le_refl _)) as [status Hs].
  exists status. unfold publish.
  destruct (Z.to_nat (retries client)) as [| rem] eqn:E; [lia |].
  rewrite bind_eq.
  rewrite (publish_attempts_accepted client message rem 1 None w status Hs).
  reflexivity.
Qed.

Lemma publish_each_healthy (client : UMHClient) (msgs : list UMHMessage) :
  (1 <= retries client)%Z ->
  forall (s : UMH.UMHSimulationManager) (w : World),
    healthy w ->
    exists new,
      trace (snd (UMH.publish_each client s msgs w)) = (trace w ++ new)%list /\
      snd (fst (UMH.publish_each client s msgs w)) = None /\
      attempted_of new = msgs /\ delivered_of new = msgs /\ delays_of new = [] /\
      UMH.errors (UMH.metrics (fst (fst (UMH.publish_each client s msgs w))))
      = UMH.errors (UMH.metrics s).
Proof.
  intros Hr. induction msgs as [| m rest IH]; intros s w Hw.
  - exists []. cbn. rewrite app_nil_r. repeat split.
  - cbn [UMH.publish_each]. rewrite bind_eq.
    destruct (publish_accepted client m w Hr Hw) as [status E]. rewrite E.
    cbn [fst snd].
    match goal with |- context [UMH.publish_each client ?s1 rest ?w1] =>
      destruct (IH s1 w1) as (new & T & N & A & D & W & Er);
        [apply (healthy_later w); [reflexivity | cbn; lia | exact Hw] |]
    end.
    eexists (_ :: _ :: new). rewrite T, N, Er. cbn [after_attempt trace].
    rewrite <- app_assoc. split; [reflexivity |].
    cbn. rewrite A, D, W. repeat split.
Qed.

Lemma publishBatch_accepted (client : UMHClient) (batch : list UMHMessage) (w : World) :
  healthy w ->
  exists (status : Z) (w' : World),
    publishBatch client batch w = (Returned tt, w') /\
    trace w'
    = (trace w ++
       [Posted "/api/v1/data/batch" batch (SinkOk status);
        Logged log_debug "Successfully published batch to UMH-Core"
          [string_of_Z (Z.of_nat (List.length batch)); string_of_Z status]])%list /\
    sink_results w' = sink_results w /\ requests w' = S (requests w).
Proof.
  intros Hw. destruct (Hw (requests w) (Nat.le_refl _)) as [status Hs].
  exists status. unfold publishBatch. rewrite bind_eq.
  destruct (quiet_stamp_all batch w) as (S1 & R1 & T1).
  destruct (stamp_all batch w) as [u w1]. cbn [fst snd] in *.
  unfold bind, http_post, sink_request, log, emit, ret. cbn [fst snd].
  rewrite S1, R1, Hs. cbn [fst snd].
  eexists. split; [reflexivity |].
  cbn [trace sink_results requests]. rewrite T1, <- app_assoc.
  repeat split; assumption.
Qed.

Lemma publish_batches_healthy (client : UMHClient) (batchSize : nat) :
  (1 <= batchSize)%nat ->
  forall (fuel : nat) (remaining : list UMHMessage)
         (s : UMH.UMHSimulationManager) (w : World),
    (List.length remaining <= fuel)%nat -> healthy w ->
    exists new,
      trace (snd (UMH.publish_batches fuel client s batchSize remaining w))
      = (trace w ++ new)%list /\
      snd (fst (UMH.publish_batches fuel client s batchSize remaining w)) = None /\
      attempted_of new = remaining /\ delivered_of new = remaining /\
      delays_of new = [] /\
      UMH.errors (UMH.metrics
                    (fst (fst (UMH.publish_batches fuel client s batchSize
                                 remaining w))))
      = UMH.errors (UMH.metrics s).
Proof.
  intros Hb fuel. induction fuel as [| fuel IH]; intros remaining s w Hfuel Hw.
  - destruct remaining as [| m rest]; [| cbn in Hfuel; lia].
    exists []. cbn. rewrite app_nil_r. repeat split.
  - destruct remaining as [| m rest].
    { exists []. cbn. rewrite app_nil_r. repeat split. }
    cbn [UMH.publish_batches]. cbv zeta. rewrite bind_eq.
    set (remaining := m :: rest) in *.
    destruct (publishBatch_accepted client (firstn batchSize remaining) w Hw)
      as (status & w1 & E & T1 & S1 & R1).
    rewrite E. cbn [fst snd].
    match goal with |- context [UMH.publish_batches fuel client ?s1 _ ?l ?w0] =>
      destruct (IH l s1 w0) as (new & T & N & A & D & W & Er)
    end.
    { rewrite length_skipn. unfold remaining in *. cbn [List.length] in *. lia. }
    { apply (healthy_later w); [exact S1 | lia | exact Hw]. }
    eexists (_ :: _ :: new). rewrite T, N, Er, T1, <- app_assoc.
    split; [reflexivity |]. cbn. rewrite A, D, W, firstn_skipn. repeat split.
Qed.

(** X27. A tick of the running UMH manager against a sink that accepts every
    request, with a client that allows at least one attempt: every validated
    message of the tick is sent exactly once, in order, and delivered, one by
    one or in batches, without any wait; [totalMessagesPublished] grows by
    their number, [activeMachines] becomes the number of machines served and
    the error log is left as it is. *)
Theorem UMH_tick_delivers_everything_to_a_healthy_sink
    (Math_sin : Q -> Q) (parseFloat : string -> jsnum) (toISOString : Z -> string)
    (Date_parse : string -> option Z) (env : ProcessEnv)
    (roster : list CNCMachineConfig)
    (s : UMH.UMHSimulationManager) (w : World) (client : UMHClient) :
  UMH.umhClient s = Some client -> UMH.isRunning s = true ->
  (1 <= retries client)%Z -> healthy w ->
  let gen := generateOperationalReadings Math_sin parseFloat toISOString env roster
               (UMH.dataFactory s) w in
  let msgs := fst (UMH.adapt_all Date_parse roster (fst (fst gen)) [] (snd gen)) in
  let r := UMH.publishSensorData Math_sin parseFloat toISOString Date_parse env roster
             s w in
  exists new,
    trace (snd r) = (trace w ++ new)%list /\
    attempted_of new = msgs /\ delivered_of new = msgs /\ delays_of new = [] /\
    UMH.totalMessagesPublished (UMH.metrics (fst r))
    = (UMH.totalMessagesPublished (UMH.metrics s) + Z.of_nat (List.length msgs))%Z /\
    UMH.activeMachines (UMH.metrics (fst r))
    = Z.of_nat (List.length (fst (fst gen))) /\
    UMH.errors (UMH.metrics (fst r)) = UMH.errors (UMH.metrics s).
Proof.
  intros Hc Hrun Hr Hw. cbv zeta.
  destruct (UMH_tick_total Math_sin parseFloat toISOString Date_parse env roster
              s w client Hc Hrun) as (new0 & k & T & _ & Hcount & _).
  cbv zeta in T, Hcount. rewrite Hcount. clear Hcount.
  revert T. unfold UMH.publishSensorData. rewrite Hc, Hrun.
  cbn [negb]. rewrite bind_eq.
  destruct (quiet_generateOperationalReadings_loop Math_sin parseFloat toISOString env
              roster (UMH.dataFactory s) [] w) as (S0 & R0 & T0).
  fold (generateOperationalReadings Math_sin parseFloat toISOString env roster
          (UMH.dataFactory s)) in S0, R0, T0.
  destruct (generateOperationalReadings Math_sin parseFloat toISOString env roster
              (UMH.dataFactory s) w) as [out w1].
  cbn [fst snd] in *. rewrite bind_eq.
  destruct (posts_nothing_adapt_all Date_parse roster (fst out) [] w1)
    as (n1 & T1 & _ & A1 & D1 & W1 & S1 & R1).
  destruct (UMH.adapt_all Date_parse roster (fst out) [] w1) as [msgs w2].
  cbn [fst snd] in *. rewrite bind_eq.
  assert (Hw2 : healthy w2).
  { apply (healthy_later w); [now rewrite S1 | rewrite R1, R0; lia | exact Hw]. }
  set (s0 := UMH.with_dataFactory s (snd out)).
  set (b := Z_or (UMH.batchSize (UMH.config s0)) 1).
  match goal with
  | |- context [snd (?X w2)] => set (loop := X)
  end.
  assert (Hloop : exists new,
             trace (snd (loop w2)) = (trace w2 ++ new)%list /\
             snd (fst (loop w2)) = None /\
             attempted_of new = msgs /\ delivered_of new = msgs /\
             delays_of new = [] /\
             UMH.errors (UMH.metrics (fst (fst (loop w2))))
             = UMH.errors (UMH.metrics s0)).
  { unfold loop. destruct (0 <? List.length msgs)%nat eqn:E0.
    - destruct ((1 <? b)%Z && (b <? Z.of_nat (List.length msgs))%Z) eqn:Eb.
      + apply andb_true_iff in Eb as [Eb _]. apply Z.ltb_lt in Eb.
        apply publish_batches_healthy; [lia | lia | exact Hw2].
      + now apply publish_each_healthy.
    - exists []. apply Nat.ltb_ge in E0.
      destruct msgs; [| cbn in E0; lia]. cbn. rewrite app_nil_r. repeat split. }
  destruct Hloop as (n2 & T2 & N2 & A2 & D2 & W2 & E2).
  clearbody loop. destruct (loop w2) as [[s3 err] w3]. cbn [fst snd] in *.
  subst err. intros T.
  unfold UMH.updateMetrics, bind, log, emit, ret, Date_now in *.
  cbn [fst snd trace UMH.set_activeMachines UMH.with_metrics UMH.metrics
       UMH.totalMessagesPublished UMH.activeMachines UMH.errors] in *.
  eexists (n1 ++ n2 ++ [_])%list.
  rewrite T2, T1, T0, <- !app_assoc. split; [reflexivity |].
  rewrite T2, T1, T0, <- !app_assoc in T. apply app_inv_head in T. subst new0.
  rewrite !attempted_of_app, !delivered_of_app, !delays_of_app, A1, D1, W1, A2, D2, W2.
  cbn. rewrite !app_nil_r.
  repeat split; try reflexivity. exact E2.
Qed.

(** X27 at the manager started on the built-in roster against a sink that
    accepts. *)
Lemma UMH_tick_delivers_everything_to_a_healthy_sink_witness :
  UMH.umhClient (fst (umh_started calm_world)) = Some manager_client /\
  UMH.isRunning (fst (umh_started calm_world)) = true /\
  (1 <= retries manager_client)%Z /\
  healthy (snd (umh_started calm_world)) /\
  (let gen := generateOperationalReadings sample_sin sample_parseFloat
                sample_toISOString sample_env (CNC_MACHINES sample_env)
                (UMH.dataFactory (fst (umh_started calm_world)))
                (snd (umh_started calm_world)) in
   let msgs := fst (UMH.adapt_all sample_Date_parse (CNC_MACHINES sample_env)
                      (fst (fst gen)) [] (snd gen)) in
   let r := UMH.publishSensorData sample_sin sample_parseFloat sample_toISOString
              sample_Date_parse sample_env (CNC_MACHINES sample_env)
              (fst (umh_started calm_world)) (snd (umh_started calm_world)) in
   exists new,
     trace (snd r) = (trace (snd (umh_started calm_world)) ++ new)%list /\
     attempted_of new = msgs /\ delivered_of new = msgs /\ delays_of new = [] /\
     UMH.totalMessagesPublished (UMH.metrics (fst r))
     = (UMH.totalMessagesPublished (UMH.metrics (fst (umh_started calm_world)))
        + Z.of_nat (List.length msgs))%Z /\
     UMH.activeMachines (UMH.metrics (fst r))
     = Z.of_nat (List.length (fst (fst gen))) /\
     UMH.errors (UMH.metrics (fst r))
     = UMH.errors (UMH.metrics (fst (umh_started calm_world)))).
Proof.
  assert (Hc : UMH.umhClient (fst (umh_started calm_world)) = Some manager_client)
    by (vm_compute; reflexivity).
  assert (Hr : UMH.isRunning (fst (umh_started calm_world)) = true)
    by (vm_compute; reflexivity).
  assert (Hn : (1 <= retries manager_client)%Z) by (vm_compute; discriminate).
  assert (Hw : healthy (snd (umh_started calm_world))).
  { intros i _. exists 200%Z. vm_compute. reflexivity. }
  split; [exact Hc |]. split; [exact Hr |]. split; [exact Hn |]. split; [exact Hw |].
  exact (UMH_tick_delivers_everything_to_a_healthy_sink sample_sin sample_parseFloat
           sample_toISOString sample_Date_parse sample_env (CNC_MACHINES sample_env)
           (fst (umh_started calm_world)) (snd (umh_started calm_world))
           manager_client Hc Hr Hn Hw).
Defined.
